(** * HealthCarePipeline: the provisioning and pipeline scripts

    A shallow embedding of [setup_pipeline.py], [setup_gcp_looker.py] and
    [quick_setup.py].  The scripts are sequential programs whose whole
    behaviour is their dialogue with the outside: child processes, the
    filesystem, one HTTP request, the terminal.  Each Python function becomes
    a computation in a small state-and-exception monad over a [World] that
    holds the environment's answers and records what the script did. *)

From Equations Require Import Equations.
From Stdlib Require Import String Ascii DecimalString.
From Stdlib Require Import List Arith Lia ZArith Bool.
Import ListNotations.

Set Implicit Arguments.

(** * Text

    Python text is modelled as the list of its code units.  The operations
    below are written once for any alphabet with a boolean equality. *)

Section Text.

Context {A : Type}.
Variable eqb : A -> A -> bool.

(** [s.startswith(p)] *)
Fixpoint startswith (p s : list A) : bool :=
  match p, s with
  | [], _ => true
  | _ :: _, [] => false
  | a :: p', b :: s' => eqb a b && startswith p' s'
  end.

(** [s.endswith(p)] *)
Definition endswith (p s : list A) : bool :=
  startswith (rev p) (rev s).

(** [sub in s] *)
Fixpoint contains (sub s : list A) : bool :=
  startswith sub s ||
  match s with
  | [] => false
  | _ :: s' => contains sub s'
  end.

(** [s.replace(old, new)]: the text is scanned from the left; a match of
    [old] is replaced and the scan resumes behind it.  With an empty [old],
    [new] is put before every code unit and at the end. *)
Equations? replace (old new s : list A) : list A by wf (length s) lt :=
  replace [] new [] := new;
  replace [] new (c :: s') := new ++ c :: replace [] new s';
  replace (o :: old') new [] := [];
  replace (o :: old') new (c :: s') with startswith (o :: old') (c :: s') => {
    | true := new ++ replace (o :: old') new (skipn (length old') s');
    | false := c :: replace (o :: old') new s' }.
Proof.
  all: simpl; try lia.
  rewrite length_skipn. lia.
Qed.

(** [sep.join(parts)] *)
Fixpoint join (sep : list A) (parts : list (list A)) : list A :=
  match parts with
  | [] => []
  | [g] => g
  | g :: rest => g ++ sep ++ join sep rest
  end.

Definition cons_head (c : A) (parts : list (list A)) : list (list A) :=
  match parts with
  | [] => [[c]]
  | g :: rest => (c :: g) :: rest
  end.

(** The stretches of [s] that the scan of [replace] copies, in order: what
    lies before the first match, between consecutive matches and behind the
    last one ([s.split(old)] for a non-empty [old]). *)
Equations? pieces (old s : list A) : list (list A) by wf (length s) lt :=
  pieces [] s := [s];
  pieces (o :: old') [] := [[]];
  pieces (o :: old') (c :: s') with startswith (o :: old') (c :: s') => {
    | true := [] :: pieces (o :: old') (skipn (length old') s');
    | false := cons_head c (pieces (o :: old') s') }.
Proof.
  all: simpl; try lia.
  rewrite length_skipn. lia.
Qed.

(** [t] occurs in [s] as a contiguous stretch. *)
Definition occurs (t s : list A) : Prop :=
  exists a b, s = a ++ t ++ b.

(** The non-empty proper-or-full prefixes and suffixes of a text. *)
Fixpoint prefixes (m : list A) : list (list A) :=
  match m with
  | [] => []
  | c :: m' => [c] :: map (cons c) (prefixes m')
  end.

Fixpoint suffixes (m : list A) : list (list A) :=
  match m with
  | [] => []
  | _ :: m' => m :: suffixes m'
  end.

(** A value [v] collides with a token [t] when writing [v] into a text can
    complete an occurrence of [t]: one lies inside the other, or a beginning
    of [v] is an end of [t], or an end of [v] is a beginning of [t]. *)
Definition collides (t v : list A) : bool :=
  contains v t || contains t v
  || existsb (fun u => endswith u t) (prefixes v)
  || existsb (fun u => startswith u t) (suffixes v).

(** Both tokens replaced in one scan of the text, the first token tried
    first at each position.  This is the reading of a mapping of tokens to
    values in which no replacement sees the output of another; the scripts
    do not compute it. *)
Equations? replace_both (t1 v1 t2 v2 s : list A) : list A
  by wf (length s) lt :=
  replace_both t1 v1 t2 v2 [] := [];
  replace_both t1 v1 t2 v2 (c :: s') with
      startswith t1 (c :: s'), startswith t2 (c :: s') => {
    | true, _ := v1 ++ replace_both t1 v1 t2 v2 (skipn (length t1 - 1) s');
    | false, true := v2 ++ replace_both t1 v1 t2 v2 (skipn (length t2 - 1) s');
    | false, false := c :: replace_both t1 v1 t2 v2 s' }.
Proof.
  all: simpl; try lia.
  all: rewrite length_skipn; lia.
Qed.

End Text.

(** * Values the scripts handle *)

Definition str := list ascii.

(** A literal of the source. *)
Definition L (s : string) : str := list_ascii_of_string s.
Arguments L : simpl never.

Definition str_eqb (a b : str) : bool :=
  if list_eq_dec ascii_dec a b then true else false.

Definition str_in (sub s : str) : bool := contains Ascii.eqb sub s.
Definition str_replace (s old new : str) : str := replace Ascii.eqb old new s.

Definition nl : str := [ascii_of_nat 10].
Definition squote : ascii := ascii_of_nat 39.
Definition dquote : ascii := ascii_of_nat 34.
Definition backslash : ascii := ascii_of_nat 92.
Definition slash : ascii := ascii_of_nat 47.

(** [sep * n] *)
Definition times (s : str) (n : nat) : str := concat (repeat s n).

(** ["%d" % z] *)
Definition decimal (z : Z) : str :=
  list_ascii_of_string (DecimalString.NilZero.string_of_int (Z.to_int z)).

Definition hex_digit (n : nat) : ascii :=
  nth n (L "0123456789abcdef") "0"%char.

(** [repr(s)] for a text: single quotes unless the text holds a single quote
    and no double quote; the quote and the backslash are escaped, control
    characters are written as escapes.  Code units above 127 are copied:
    the text is taken to be printable. *)
Definition repr_char (quote c : ascii) : str :=
  let n := nat_of_ascii c in
  if Ascii.eqb c quote || Ascii.eqb c backslash then [backslash; c]
  else if n =? 9 then L "\t"
  else if n =? 10 then L "\n"
  else if n =? 13 then L "\r"
  else if (n <? 32) || (n =? 127) then
    L "\x" ++ [hex_digit (n / 16); hex_digit (n mod 16)]
  else [c].

Definition repr_str (s : str) : str :=
  let quote :=
    if str_in [squote] s && negb (str_in [dquote] s) then dquote else squote in
  quote :: flat_map (repr_char quote) s ++ [quote].

(** [str(l)] for a list of texts *)
Definition repr_list (l : list str) : str :=
  L "[" ++ join (L ", ") (map repr_str l) ++ L "]".

(** What [subprocess.run] is given: a line for the shell ([shell=True]) or an
    argument vector. *)
Inductive Command :=
| Shell (line : str)
| Argv (args : list str).

Definition Command_str (c : Command) : str :=
  match c with
  | Shell line => line
  | Argv args => repr_list args
  end.

Definition executable (c : Command) : str :=
  match c with
  | Shell _ => L "/bin/sh"
  | Argv [] => []
  | Argv (a :: _) => a
  end.

(** A child process that ran to its end. *)
Record Completed := {
  returncode : Z;
  stdout : str;
  stderr : str
}.

(** The end of an attempt to run a command: the child ended, or there was no
    such program to start. *)
Inductive Spawn :=
| Exited (r : Completed)
| NoSuchProgram.

(** The answer to [requests.get]. *)
Inductive HttpReply :=
| Response (status_code : Z) (reason text : str)
| Unreachable (why : str).

Inductive Node :=
| File (text : str)
| Dir.

(** The exceptions that reach the scripts' handlers. *)
Inductive Exn :=
| CalledProcessError (cmd : Command) (rc : Z) (output err : option str)
| FileNotFoundError (filename : str)
| FileExistsError (filename : str)
| NotADirectoryError (filename : str)
| IsADirectoryError (filename : str)
| HTTPError (message : str)
| RequestsConnectionError (message : str)
| EOFError
| SystemExit (code : Z).

(** [except OSError] *)
Definition is_OSError (e : Exn) : bool :=
  match e with
  | FileNotFoundError _ | FileExistsError _
  | NotADirectoryError _ | IsADirectoryError _ => true
  | _ => false
  end.

(** [except Exception]: everything but [SystemExit]. *)
Definition is_Exception (e : Exn) : bool :=
  match e with
  | SystemExit _ => false
  | _ => true
  end.

(** * The world *)

(** What the machine answers.  [spawn] is asked with the commands run so far,
    so the same command may end differently the second time.  [script_dir]
    is [str(Path(__file__).parent)]. *)
Record Host := {
  spawn : list (Command * Spawn) -> Command -> Spawn;
  fetch : str -> HttpReply;
  in_virtualenv : bool;
  signal_names : Z -> option str;
  script_dir : str
}.

(** The state of a run.  [files] maps a path, as written, to what is there;
    [ran], [probed] and [printed] record in order the commands attempted with
    how they ended, the paths whose existence was tested, and what was
    written to the terminal, one entry per call. *)
Record World := {
  host : Host;
  files : str -> option Node;
  stdin : list str;
  cwd : list str;
  ran : list (Command * Spawn);
  probed : list str;
  printed : list str
}.

Definition set_files (f : str -> option Node) (w : World) : World :=
  {| host := host w; files := f; stdin := stdin w; cwd := cwd w;
     ran := ran w; probed := probed w; printed := printed w |}.

Definition set_stdin (l : list str) (w : World) : World :=
  {| host := host w; files := files w; stdin := l; cwd := cwd w;
     ran := ran w; probed := probed w; printed := printed w |}.

Definition set_cwd (l : list str) (w : World) : World :=
  {| host := host w; files := files w; stdin := stdin w; cwd := l;
     ran := ran w; probed := probed w; printed := printed w |}.

Definition set_ran (l : list (Command * Spawn)) (w : World) : World :=
  {| host := host w; files := files w; stdin := stdin w; cwd := cwd w;
     ran := l; probed := probed w; printed := printed w |}.

Definition set_probed (l : list str) (w : World) : World :=
  {| host := host w; files := files w; stdin := stdin w; cwd := cwd w;
     ran := ran w; probed := l; printed := printed w |}.

Definition set_printed (l : list str) (w : World) : World :=
  {| host := host w; files := files w; stdin := stdin w; cwd := cwd w;
     ran := ran w; probed := probed w; printed := l |}.

(** The empty pathname names nothing. *)
Definition lookup (w : World) (path : str) : option Node :=
  match path with
  | [] => None
  | _ => files w path
  end.

Definition update (path : str) (n : Node) (f : str -> option Node)
  : str -> option Node :=
  fun p => if str_eqb p path then Some n else f p.

(** * The monad: state and exceptions *)

Inductive Res (A : Type) :=
| Ret (a : A)
| Raise (e : Exn).
Arguments Ret {A} a.
Arguments Raise {A} e.

Definition M (A : Type) : Type := World -> Res A * World.

Definition ret {A} (a : A) : M A := fun w => (Ret a, w).

Definition raise {A} (e : Exn) : M A := fun w => (Raise e, w).

Definition bind {A B} (c : M A) (k : A -> M B) : M B :=
  fun w =>
    match c w with
    | (Ret a, w') => k a w'
    | (Raise e, w') => (Raise e, w')
    end.

(** [try: c except ...: h e]; [h] answers [None] for an exception that the
    clause does not name. *)
Definition try_except {A} (c : M A) (h : Exn -> option (M A)) : M A :=
  fun w =>
    match c w with
    | (Ret a, w') => (Ret a, w')
    | (Raise e, w') =>
        match h e with
        | Some k => k w'
        | None => (Raise e, w')
        end
    end.

Declare Scope py_scope.
Delimit Scope py_scope with py.
Notation "x <- c ;; k" := (bind c (fun x => k))
  (at level 61, c at next level, right associativity) : py_scope.
Notation "c ;; k" := (bind c (fun _ => k))
  (at level 61, right associativity) : py_scope.
Open Scope py_scope.

(** * The interpreter and the libraries, as far as the scripts use them *)

(** [print(s)] *)
Definition print (s : str) : M unit :=
  fun w => (Ret tt, set_printed (printed w ++ [s]) w).

(** [input(prompt)] *)
Definition input (prompt : str) : M str :=
  fun w =>
    let w1 := set_printed (printed w ++ [prompt]) w in
    match stdin w with
    | [] => (Raise EOFError, w1)
    | line :: rest => (Ret line, set_stdin rest w1)
    end.

(** [sys.exit(code)] *)
Definition sys_exit {A} (code : Z) : M A := raise (SystemExit code).

(** [str.isspace] on the ASCII range *)
Definition isspace (c : ascii) : bool :=
  let n := nat_of_ascii c in
  ((9 <=? n) && (n <=? 13)) || ((28 <=? n) && (n <=? 32)).

Fixpoint lstrip (s : str) : str :=
  match s with
  | [] => []
  | c :: s' => if isspace c then lstrip s' else s
  end.

(** [s.strip()] *)
Definition strip (s : str) : str := rev (lstrip (rev (lstrip s))).

(** What [subprocess.run] hands back. *)
Record CompletedProcess := {
  cp_returncode : Z;
  cp_stdout : option str;
  cp_stderr : option str
}.

Definition captured (capture_output : bool) (s : str) : option str :=
  if capture_output then Some s else None.

(** [subprocess.run(cmd, capture_output=..., check=...)].  The attempt is
    recorded whatever its end. *)
Definition subprocess_run (cmd : Command) (capture_output check : bool)
  : M CompletedProcess :=
  fun w =>
    let r := spawn (host w) (ran w) cmd in
    let w' := set_ran (ran w ++ [(cmd, r)]) w in
    match r with
    | NoSuchProgram => (Raise (FileNotFoundError (executable cmd)), w')
    | Exited c =>
        let so := captured capture_output (stdout c) in
        let se := captured capture_output (stderr c) in
        if check && negb (returncode c =? 0)%Z
        then (Raise (CalledProcessError cmd (returncode c) so se), w')
        else (Ret {| cp_returncode := returncode c;
                     cp_stdout := so; cp_stderr := se |}, w')
    end.

(** [str(e)] *)
Definition Exn_str (h : Host) (e : Exn) : str :=
  match e with
  | CalledProcessError cmd rc _ _ =>
      if (rc <? 0)%Z then
        match signal_names h (- rc)%Z with
        | Some name =>
            L "Command '" ++ Command_str cmd ++ L "' died with <Signals."
              ++ name ++ L ": " ++ decimal (- rc) ++ L ">."
        | None =>
            L "Command '" ++ Command_str cmd
              ++ L "' died with unknown signal " ++ decimal (- rc) ++ L "."
        end
      else
        L "Command '" ++ Command_str cmd
          ++ L "' returned non-zero exit status " ++ decimal rc ++ L "."
  | FileNotFoundError f => L "[Errno 2] No such file or directory: " ++ repr_str f
  | FileExistsError f => L "[Errno 17] File exists: " ++ repr_str f
  | NotADirectoryError f => L "[Errno 20] Not a directory: " ++ repr_str f
  | IsADirectoryError f => L "[Errno 21] Is a directory: " ++ repr_str f
  | HTTPError m => m
  | RequestsConnectionError m => m
  | EOFError => L "EOF when reading a line"
  | SystemExit c => decimal c
  end.

(** [f"{e}"] *)
Definition str_of (e : Exn) : M str :=
  fun w => (Ret (Exn_str (host w) e), w).

(** [f"{x}"] for a text that may be [None] *)
Definition fmt (x : option str) : str :=
  match x with
  | Some s => s
  | None => L "None"
  end.

(** [os.path.exists(path)], [Path(path).exists()] *)
Definition path_exists (path : str) : M bool :=
  fun w =>
    (Ret (match lookup w path with Some _ => true | None => false end),
     set_probed (probed w ++ [path]) w).

(** [os.path.isdir(path)] *)
Definition path_isdir (path : str) : M bool :=
  fun w =>
    (Ret (match lookup w path with Some Dir => true | _ => false end),
     set_probed (probed w ++ [path]) w).

Definition all_slashes (s : str) : bool := forallb (Ascii.eqb slash) s.

(** [s.rstrip('/')] *)
Definition rstrip_slashes (s : str) : str :=
  let fix drop (r : str) : str :=
    match r with
    | [] => []
    | c :: r' => if Ascii.eqb c slash then drop r' else r
    end in
  rev (drop (rev s)).

(** [(p[:i], p[i:])] for [i = p.rfind('/') + 1] *)
Fixpoint cut_at_last_slash (p : str) : str * str :=
  match p with
  | [] => ([], [])
  | c :: p' =>
      let (h, t) := cut_at_last_slash p' in
      match h with
      | _ :: _ => (c :: h, t)
      | [] => if Ascii.eqb c slash then ([c], t) else ([], c :: t)
      end
  end.

(** [os.path.split(p)] *)
Definition path_split (p : str) : str * str :=
  let (head, tail) := cut_at_last_slash p in
  match head with
  | [] => (head, tail)
  | _ => if all_slashes head then (head, tail) else (rstrip_slashes head, tail)
  end.

(** [os.path.dirname(p)] *)
Definition dirname (p : str) : str := fst (path_split p).

(** Whether an entry may be made at [path]: its directory must be there.
    A name with no directory part lives in the working directory. *)
Definition parent_error (w : World) (path : str) : option Exn :=
  let d := dirname path in
  match d with
  | [] => None
  | _ =>
      if all_slashes d then None
      else match lookup w d with
           | Some Dir => None
           | Some (File _) => Some (NotADirectoryError path)
           | None => Some (FileNotFoundError path)
           end
  end.

(** [os.mkdir(path)] *)
Definition mkdir (path : str) : M unit :=
  fun w =>
    match path with
    | [] => (Raise (FileNotFoundError path), w)
    | _ =>
        match lookup w path with
        | Some _ => (Raise (FileExistsError path), w)
        | None =>
            match parent_error w path with
            | Some e => (Raise e, w)
            | None => (Ret tt, set_files (update path Dir (files w)) w)
            end
        end
    end.

(** [with open(path, "r") as f: f.read()] *)
Definition read_text (path : str) : M str :=
  fun w =>
    match lookup w path with
    | Some (File text) => (Ret text, w)
    | Some Dir => (Raise (IsADirectoryError path), w)
    | None => (Raise (FileNotFoundError path), w)
    end.

(** [with open(path, "w") as f: f.write(content)] *)
Definition write_text (path content : str) : M unit :=
  fun w =>
    match path with
    | [] => (Raise (FileNotFoundError path), w)
    | _ =>
        match lookup w path with
        | Some Dir => (Raise (IsADirectoryError path), w)
        | Some (File _) =>
            (Ret tt, set_files (update path (File content) (files w)) w)
        | None =>
            match parent_error w path with
            | Some e => (Raise e, w)
            | None =>
                (Ret tt, set_files (update path (File content) (files w)) w)
            end
        end
    end.

(** [os.chdir(path)] *)
Definition chdir (path : str) : M unit :=
  fun w =>
    match lookup w path with
    | Some Dir => (Ret tt, set_cwd (cwd w ++ [path]) w)
    | Some (File _) => (Raise (NotADirectoryError path), w)
    | None => (Raise (FileNotFoundError path), w)
    end.

Lemma cut_at_last_slash_length (p : str) :
  length (fst (cut_at_last_slash p)) + length (snd (cut_at_last_slash p))
  = length p.
Proof.
  induction p as [|c p IH]; simpl; [reflexivity|].
  destruct (cut_at_last_slash p) as [h t]; simpl in *.
  destruct h; [destruct (Ascii.eqb c slash)|]; simpl in *; lia.
Qed.

Lemma rstrip_slashes_length (s : str) :
  length (rstrip_slashes s) <= length s.
Proof.
  unfold rstrip_slashes. rewrite length_rev, <- (length_rev s).
  induction (rev s) as [|c r IH]; simpl; [lia|].
  destruct (Ascii.eqb c slash); simpl; lia.
Qed.

Lemma path_split_length (p : str) :
  length (fst (path_split p)) + length (snd (path_split p)) <= length p.
Proof.
  unfold path_split. pose proof (cut_at_last_slash_length p) as H.
  destruct (cut_at_last_slash p) as [h t]. cbn [fst snd] in H.
  destruct h as [|c h]; [cbn [fst snd]; lia|].
  destruct (all_slashes (c :: h)); cbn [fst snd]; [lia|].
  pose proof (rstrip_slashes_length (c :: h)). lia.
Qed.

(** The first lines of [os.makedirs]: the name is split, and once more when
    it ends in a separator. *)
Definition makedirs_split (name : str) : str * str :=
  let ht := path_split name in
  match snd ht with
  | [] => path_split (fst ht)
  | _ => ht
  end.

Lemma makedirs_split_length (name : str) :
  length (fst (makedirs_split name)) + length (snd (makedirs_split name))
  <= length name.
Proof.
  unfold makedirs_split.
  pose proof (path_split_length name) as H1.
  pose proof (path_split_length (fst (path_split name))) as H2.
  destruct (snd (path_split name)) eqn:E; [lia|].
  rewrite E. exact H1.
Qed.

(** The last lines of [os.makedirs]: the directory itself is made; that it is
    already there is an error unless [exist_ok]. *)
Definition makedirs_leaf (name : str) (exist_ok : bool) : M unit :=
  try_except (mkdir name)
    (fun e =>
       if is_OSError e then
         Some (d <- path_isdir name ;;
               if negb exist_ok || negb d then raise e else ret tt)
       else None).

Definition makedirs_after (name tail : str) (exist_ok : bool) : M unit :=
  if str_eqb tail (L ".") then ret tt else makedirs_leaf name exist_ok.

Definition inspect {A} (a : A) : {b : A | a = b} := exist _ a eq_refl.

(** [os.makedirs(name, exist_ok=exist_ok)] *)
Equations? makedirs (name : str) (exist_ok : bool) (w : World)
  : Res unit * World by wf (length name) lt :=
  makedirs name exist_ok w with inspect (makedirs_split name) => {
    | exist _ (c :: hd, d :: tl) split_eq
        with path_exists (c :: hd) w => {
        | (Ret false, w1) with makedirs (c :: hd) exist_ok w1 => {
            | (Ret _, w2) := makedirs_after name (d :: tl) exist_ok w2;
            | (Raise (FileExistsError _), w2) :=
                makedirs_after name (d :: tl) exist_ok w2;
            | (Raise e, w2) := (Raise e, w2) };
        | (_, w1) := makedirs_leaf name exist_ok w1 };
    | exist _ _ split_eq := makedirs_leaf name exist_ok w }.
Proof.
  pose proof (makedirs_split_length name) as H.
  rewrite split_eq in H. simpl in H |- *. lia.
Qed.

(** [str(Path(dir) / name)] for a relative [name] *)
Definition path_join (dir name : str) : str :=
  match dir with
  | [] => name
  | _ =>
      if str_eqb dir (L ".") then name
      else if all_slashes dir then dir ++ name
      else dir ++ [slash] ++ name
  end.

Definition beside_path (h : Host) (name : str) : str :=
  path_join (script_dir h) name.

(** [Path(__file__).parent / name], as text *)
Definition beside (name : str) : M str :=
  fun w => (Ret (beside_path (host w) name), w).

(** [requests.get(url)] *)
Definition requests_get (url : str) : M (Z * str * str) :=
  fun w =>
    match fetch (host w) url with
    | Response status_code reason text => (Ret (status_code, reason, text), w)
    | Unreachable why => (Raise (RequestsConnectionError why), w)
    end.

(** [response.raise_for_status()] *)
Definition raise_for_status (url : str) (response : Z * str * str) : M unit :=
  let '(status_code, reason, _) := response in
  if ((400 <=? status_code) && (status_code <? 500))%Z then
    raise (HTTPError (decimal status_code ++ L " Client Error: " ++ reason
                        ++ L " for url: " ++ url))
  else if ((500 <=? status_code) && (status_code <? 600))%Z then
    raise (HTTPError (decimal status_code ++ L " Server Error: " ++ reason
                        ++ L " for url: " ++ url))
  else ret tt.

(** The name of an exception's class, for the interpreter's last words. *)
Definition Exn_name (e : Exn) : str :=
  match e with
  | CalledProcessError _ _ _ _ => L "subprocess.CalledProcessError"
  | FileNotFoundError _ => L "FileNotFoundError"
  | FileExistsError _ => L "FileExistsError"
  | NotADirectoryError _ => L "NotADirectoryError"
  | IsADirectoryError _ => L "IsADirectoryError"
  | HTTPError _ => L "requests.exceptions.HTTPError"
  | RequestsConnectionError _ => L "requests.exceptions.ConnectionError"
  | EOFError => L "EOFError"
  | SystemExit _ => L "SystemExit"
  end.

(** A script run to its end: the exit status of the interpreter and the
    world it leaves.  An exception nobody caught is reported by the
    interpreter, which then exits with status 1. *)
Definition python (main : M unit) (w : World) : Z * World :=
  match main w with
  | (Ret _, w') => (0%Z, w')
  | (Raise (SystemExit code), w') => (code, w')
  | (Raise e, w') =>
      (1%Z, set_printed
              (printed w' ++ [L "Traceback (most recent call last):" ++ nl
                                ++ Exn_name e ++ L ": " ++ Exn_str (host w') e])
              w')
  end.

(** * setup_pipeline.py *)

Module SetupPipeline.

Definition run_command (command description : str) : M (option str) :=
  print (L "🔄 " ++ description ++ L "...") ;;
  try_except
    (result <- subprocess_run (Shell command) true true ;;
     print (L "✅ " ++ description ++ L " completed successfully") ;;
     ret (cp_stdout result))
    (fun e =>
       match e with
       | CalledProcessError _ _ _ err =>
           Some (print (L "❌ " ++ description ++ L " failed: " ++ fmt err) ;;
                 ret None)
       | _ => None
       end).

Definition download_csv_from_github (repo_url file_path local_path : str)
  : M bool :=
  try_except
    (print (L "📥 Downloading " ++ file_path ++ L " from " ++ repo_url
              ++ L "...") ;;
     response <- requests_get (repo_url ++ L "/raw/main/" ++ file_path) ;;
     raise_for_status (repo_url ++ L "/raw/main/" ++ file_path) response ;;
     makedirs (dirname local_path) true ;;
     write_text local_path (snd response) ;;
     print (L "✅ Downloaded " ++ file_path ++ L " to " ++ local_path) ;;
     ret true)
    (fun e =>
       if is_Exception e then
         Some (msg <- str_of e ;;
               print (L "❌ Failed to download " ++ file_path ++ L ": " ++ msg) ;;
               ret false)
       else None).

Definition setup_environment : M unit :=
  print (L "🚀 Setting up healthcare data pipeline environment...") ;;
  in_venv <- (fun w => (Ret (in_virtualenv (host w)), w)) ;;
  (if negb in_venv then
     print (L "⚠️  Warning: You're not in a virtual environment. Consider using one.")
   else ret tt) ;;
  run_command (L "pip install dbt-bigquery") (L "Installing dbt-bigquery") ;;
  run_command (L "pip install requests") (L "Installing requests") ;;
  ret tt.

Definition download_sample_data : M bool :=
  print (L "📊 Downloading sample healthcare data...") ;;
  print (L "ℹ️  Using sample data files already created in the project") ;;
  ret true.

Definition validate_dbt_project : M bool :=
  print (L "🔍 Validating dbt project...") ;;
  found <- path_exists (L "my_project/dbt_project.yml") ;;
  if negb found then
    print (L "❌ dbt_project.yml not found") ;;
    ret false
  else
    found <- path_exists (L "profiles.yml") ;;
    if negb found then
      print (L "❌ profiles.yml not found. Please create it with your Google Cloud credentials.") ;;
      ret false
    else
      print (L "✅ dbt project validation passed") ;;
      ret true.

(** The [for] loop of [run_dbt_pipeline] with what follows it. *)
Fixpoint run_steps (commands : list (str * str)) : M bool :=
  match commands with
  | [] =>
      print (L "✅ dbt pipeline completed successfully!") ;;
      ret true
  | (command, description) :: rest =>
      result <- run_command command description ;;
      match result with
      | None =>
          print (L "❌ Pipeline failed at: " ++ description) ;;
          ret false
      | Some _ => run_steps rest
      end
  end.

Definition commands : list (str * str) :=
  [ (L "dbt deps", L "Installing dbt dependencies");
    (L "dbt seed", L "Loading CSV seed data");
    (L "dbt run", L "Running dbt models");
    (L "dbt test", L "Running dbt tests");
    (L "dbt docs generate", L "Generating documentation") ].

(** [run_dbt_pipeline], its list of steps made an argument. *)
Definition run_pipeline (steps : list (str * str)) : M bool :=
  print (L "🔄 Running dbt pipeline...") ;;
  chdir (L "my_project") ;;
  run_steps steps.

Definition run_dbt_pipeline : M bool := run_pipeline commands.

Definition main : M unit :=
  print (L "🏥 Healthcare Data Pipeline Setup") ;;
  print (times (L "=") 50) ;;
  found <- path_exists (L "my_project") ;;
  (if negb found then
     print (L "❌ Please run this script from the project root directory") ;;
     sys_exit 1
   else ret tt) ;;
  setup_environment ;;
  valid <- validate_dbt_project ;;
  (if negb valid then
     print (L "❌ Project validation failed. Please check your configuration.") ;;
     sys_exit 1
   else ret tt) ;;
  download_sample_data ;;
  ok <- run_dbt_pipeline ;;
  if ok then
    print (nl ++ L "🎉 Healthcare data pipeline setup complete!") ;;
    print (nl ++ L "Next steps:") ;;
    print (L "1. Update profiles.yml with your Google Cloud credentials") ;;
    print (L "2. Replace sample CSV files with your actual healthcare data") ;;
    print (L "3. Run 'dbt docs serve' to view the documentation") ;;
    print (L "4. Set up automated scheduling with GitHub Actions or Cloud Scheduler")
  else
    print (L "❌ Pipeline setup failed. Please check the errors above.") ;;
    sys_exit 1.

End SetupPipeline.

(** * The configuration rewrite shared by the two configuring scripts *)

Definition project_token : str := L "your-gcp-project-id".

Definition key_path_token : str :=
  L "/Users/nezamsp8/Developer/python/dataEngineeringPractice/dbt-service-account-key.json".

(** The two [content = content.replace(...)] lines of [update_profiles_yml],
    the same in both scripts. *)
Definition replace_placeholders (content project_id key_file_path : str) : str :=
  let content := str_replace content project_token project_id in
  let content := str_replace content key_path_token key_file_path in
  content.

(** * setup_gcp_looker.py *)

Module SetupGcpLooker.

Definition print_step (step_num : Z) (title : str) : M unit :=
  print (nl ++ times (L "=") 60) ;;
  print (L "STEP " ++ decimal step_num ++ L ": " ++ title) ;;
  print (times (L "=") 60).

Definition check_gcloud_installed : M bool :=
  try_except
    (subprocess_run (Argv [L "gcloud"; L "--version"]) true true ;;
     ret true)
    (fun e =>
       match e with
       | CalledProcessError _ _ _ _ | FileNotFoundError _ => Some (ret false)
       | _ => None
       end).

Definition get_project_info : M (option str * option str) :=
  print (nl ++ L "📋 Google Cloud Project Setup") ;;
  print (times (L "-") 40) ;;
  line <- input (L "Enter your Google Cloud Project ID: ") ;;
  let project_id := strip line in
  match project_id with
  | [] =>
      print (L "❌ Project ID is required!") ;;
      ret (None, None)
  | _ =>
      described <-
        try_except
          (subprocess_run
             (Argv [L "gcloud"; L "projects"; L "describe"; project_id])
             true true ;;
           print (L "✅ Project '" ++ project_id ++ L "' found!") ;;
           ret true)
          (fun e =>
             match e with
             | CalledProcessError _ _ _ _ =>
                 Some (print (L "❌ Project '" ++ project_id
                                ++ L "' not found or you don't have access!") ;;
                       ret false)
             | _ => None
             end) ;;
      if negb described then ret (None, None)
      else
        user_email <-
          try_except
            (result <- subprocess_run
                         (Argv [L "gcloud"; L "auth"; L "list";
                                L "--filter=status:ACTIVE";
                                L "--format=value(account)"])
                         true true ;;
             let user_email := strip (fmt (cp_stdout result)) in
             print (L "✅ Active user: " ++ user_email) ;;
             ret user_email)
            (fun e =>
               match e with
               | CalledProcessError _ _ _ _ =>
                   Some (line <- input (L "Enter your Google account email: ") ;;
                         ret (strip line))
               | _ => None
               end) ;;
        ret (Some project_id, Some user_email)
  end.

Definition dataset_command (project_id dataset : str) : Command :=
  Argv [L "bq"; L "mk"; L "--dataset"; L "--location=US";
        project_id ++ L ":" ++ dataset].

(** The [for] loop of [setup_bigquery_datasets] with the [return True] that
    follows it. *)
Fixpoint create_datasets (project_id : str) (datasets : list str) : M bool :=
  match datasets with
  | [] => ret true
  | dataset :: rest =>
      go_on <-
        try_except
          (subprocess_run (dataset_command project_id dataset) false true ;;
           print (L "✅ Created dataset: " ++ dataset) ;;
           ret true)
          (fun e =>
             match e with
             | CalledProcessError _ _ _ _ =>
                 Some (msg <- str_of e ;;
                       if str_in (L "already exists") msg then
                         print (L "ℹ️  Dataset " ++ dataset ++ L " already exists") ;;
                         ret true
                       else
                         print (L "❌ Failed to create dataset " ++ dataset
                                  ++ L ": " ++ msg) ;;
                         ret false)
             | _ => None
             end) ;;
      if go_on then create_datasets project_id rest else ret false
  end.

Definition datasets : list str :=
  [L "healthcare_data_dev"; L "healthcare_data_prod"].

Definition setup_bigquery_datasets (project_id : str) : M bool :=
  print_step 2 (L "Setting up BigQuery Datasets") ;;
  create_datasets project_id datasets.

Definition binding_command (project_id service_account_email role : str)
  : Command :=
  Argv [L "gcloud"; L "projects"; L "add-iam-policy-binding"; project_id;
        L "--member=serviceAccount:" ++ service_account_email;
        L "--role=" ++ role].

(** The [for] loop of [create_service_account]. *)
Fixpoint grant_roles (project_id service_account_email : str)
    (roles : list str) : M unit :=
  match roles with
  | [] => ret tt
  | role :: rest =>
      try_except
        (subprocess_run
           (binding_command project_id service_account_email role)
           false true ;;
         print (L "✅ Assigned role: " ++ role))
        (fun e =>
           match e with
           | CalledProcessError _ _ _ _ =>
               Some (msg <- str_of e ;;
                     print (L "❌ Failed to assign role " ++ role ++ L ": "
                              ++ msg))
           | _ => None
           end) ;;
      grant_roles project_id service_account_email rest
  end.

Definition roles : list str :=
  [L "roles/bigquery.dataEditor";
   L "roles/bigquery.jobUser";
   L "roles/bigquery.dataViewer";
   L "roles/bigquery.connectionUser"].

Definition service_account_name : str := L "dbt-healthcare-service".

Definition service_account_command (project_id : str) : Command :=
  Argv [L "gcloud"; L "iam"; L "service-accounts"; L "create";
        service_account_name;
        L "--display-name=dbt Healthcare Service Account";
        L "--description=Service account for dbt healthcare data pipeline";
        L "--project=" ++ project_id].

(** [create_service_account], its list of roles made an argument. *)
Definition create_service_account_with (the_roles : list str)
    (project_id : str) : M (option str) :=
  print_step 3 (L "Creating Service Account") ;;
  let service_account_email :=
    service_account_name ++ L "@" ++ project_id
      ++ L ".iam.gserviceaccount.com" in
  created <-
    try_except
      (subprocess_run (service_account_command project_id) false true ;;
       print (L "✅ Created service account: " ++ service_account_name) ;;
       ret true)
      (fun e =>
         match e with
         | CalledProcessError _ _ _ _ =>
             Some (msg <- str_of e ;;
                   if str_in (L "already exists") msg then
                     print (L "ℹ️  Service account " ++ service_account_name
                              ++ L " already exists") ;;
                     ret true
                   else
                     print (L "❌ Failed to create service account: " ++ msg) ;;
                     ret false)
         | _ => None
         end) ;;
  if negb created then ret None
  else
    grant_roles project_id service_account_email the_roles ;;
    ret (Some service_account_email).

Definition create_service_account (project_id : str) : M (option str) :=
  create_service_account_with roles project_id.

Definition create_service_account_key (project_id service_account_email : str)
  : M (option str) :=
  print_step 4 (L "Creating Service Account Key") ;;
  key_file <- beside (L "dbt-service-account-key.json") ;;
  try_except
    (subprocess_run
       (Argv [L "gcloud"; L "iam"; L "service-accounts"; L "keys"; L "create";
              key_file; L "--iam-account=" ++ service_account_email])
       false true ;;
     print (L "✅ Created service account key: " ++ key_file) ;;
     ret (Some key_file))
    (fun e =>
       match e with
       | CalledProcessError _ _ _ _ =>
           Some (msg <- str_of e ;;
                 print (L "❌ Failed to create service account key: " ++ msg) ;;
                 ret None)
       | _ => None
       end).

Definition update_profiles_yml (project_id key_file_path : str) : M bool :=
  print_step 5 (L "Updating dbt Configuration") ;;
  profiles_file <- beside (L "profiles.yml") ;;
  found <- path_exists profiles_file ;;
  if negb found then
    print (L "❌ profiles.yml not found at " ++ profiles_file) ;;
    ret false
  else
    content <- read_text profiles_file ;;
    let content := replace_placeholders content project_id key_file_path in
    write_text profiles_file content ;;
    print (L "✅ Updated profiles.yml with project ID: " ++ project_id) ;;
    print (L "✅ Updated key file path: " ++ key_file_path) ;;
    ret true.

Definition test_dbt_connection : M bool :=
  print_step 6 (L "Testing dbt Connection") ;;
  project_dir <- beside (L "my_project") ;;
  found <- path_exists project_dir ;;
  if negb found then
    print (L "❌ dbt project directory not found: " ++ project_dir) ;;
    ret false
  else
    try_except
      (result <- subprocess_run
                   (Argv [L "dbt"; L "debug"; L "--project-dir"; project_dir])
                   true true ;;
       print (L "✅ dbt connection test successful!") ;;
       print (L "Connection details:") ;;
       print (fmt (cp_stdout result)) ;;
       ret true)
      (fun e =>
         match e with
         | CalledProcessError _ _ _ err =>
             Some (msg <- str_of e ;;
                   print (L "❌ dbt connection test failed: " ++ msg) ;;
                   print (L "Error output:") ;;
                   print (fmt err) ;;
                   ret false)
         | _ => None
         end).

Definition looker_instructions : str :=
  nl ++ L "🎯 Next Steps for Looker Studio Integration:" ++ nl ++ nl
  ++ L "1. Go to Looker Studio: https://datastudio.google.com/" ++ nl
  ++ L "2. Click " ++ [dquote] ++ L "Create" ++ [dquote] ++ L " → "
  ++ [dquote] ++ L "Data Source" ++ [dquote] ++ nl
  ++ L "3. Select " ++ [dquote] ++ L "BigQuery" ++ [dquote]
  ++ L " as your data source" ++ nl
  ++ L "4. Choose your project and dataset (healthcare_data_dev or healthcare_data_prod)" ++ nl
  ++ L "5. Select the tables you want to visualize:" ++ nl
  ++ L "   - stg_patients (cleaned patient data)" ++ nl
  ++ L "   - stg_visits (visit records)" ++ nl
  ++ L "   - stg_lab_results (lab test results)" ++ nl
  ++ L "   - patient_summary (aggregated patient analytics)" ++ nl
  ++ L "   - department_metrics (department performance)" ++ nl ++ nl
  ++ L "6. Create visualizations:" ++ nl
  ++ L "   📊 Patient Demographics Dashboard" ++ nl
  ++ L "   📈 Department Performance Metrics" ++ nl
  ++ L "   🔬 Lab Results Trends" ++ nl
  ++ L "   👥 Patient Utilization Patterns" ++ nl ++ nl
  ++ L "7. Share your dashboards with your team!" ++ nl ++ nl
  ++ L "💡 Pro Tips:" ++ nl
  ++ L "- Use the marts models (patient_summary, department_metrics) for business dashboards" ++ nl
  ++ L "- Use staging models (stg_*) for detailed analysis" ++ nl
  ++ L "- Set up scheduled refreshes to keep data current" ++ nl
  ++ L "- Use BigQuery's built-in ML features for predictive analytics" ++ nl.

Definition setup_looker_instructions : M unit :=
  print_step 7 (L "Looker Studio Setup Instructions") ;;
  print looker_instructions.

Definition main : M bool :=
  print (L "🏥 Healthcare dbt + Google Cloud + Looker Setup") ;;
  print (times (L "=") 60) ;;
  installed <- check_gcloud_installed ;;
  if negb installed then
    print (L "❌ Google Cloud CLI not found!") ;;
    print (L "Please install it from: https://cloud.google.com/sdk/docs/install") ;;
    ret false
  else
    info <- get_project_info ;;
    match fst info with
    | None | Some [] => ret false
    | Some project_id =>
        ok <- setup_bigquery_datasets project_id ;;
        if negb ok then ret false
        else
          service_account_email <- create_service_account project_id ;;
          match service_account_email with
          | None | Some [] => ret false
          | Some service_account_email =>
              key_file <- create_service_account_key project_id
                            service_account_email ;;
              match key_file with
              | None | Some [] => ret false
              | Some key_file =>
                  updated <- update_profiles_yml project_id key_file ;;
                  if negb updated then ret false
                  else
                    tested <- test_dbt_connection ;;
                    (if negb tested then
                       print (nl ++ L "⚠️  dbt connection test failed, but you can continue with manual setup")
                     else ret tt) ;;
                    setup_looker_instructions ;;
                    print (nl ++ L "🎉 Setup Complete!") ;;
                    print (times (L "=") 60) ;;
                    print (L "Your healthcare data pipeline is now configured for Google Cloud and Looker!") ;;
                    print (nl ++ L "Next steps:") ;;
                    print (L "1. Run 'dbt seed' to load your CSV data") ;;
                    print (L "2. Run 'dbt run' to create your models") ;;
                    print (L "3. Run 'dbt test' to validate data quality") ;;
                    print (L "4. Set up Looker Studio dashboards") ;;
                    ret true
              end
          end
    end.

(** The [if __name__ == "__main__"] block. *)
Definition script : M unit :=
  try_except
    (success <- main ;;
     sys_exit (if success then 0 else 1)%Z)
    (fun e =>
       if is_Exception e then
         Some (msg <- str_of e ;;
               print (nl ++ L "❌ Unexpected error: " ++ msg) ;;
               sys_exit 1)
       else None).

End SetupGcpLooker.

(** * quick_setup.py *)

Module QuickSetup.

Definition profiles_file : str := L "/Users/nezamsp8/.dbt/profiles.yml".

Definition update_profiles_yml (project_id key_file_path : str) : M bool :=
  found <- path_exists profiles_file ;;
  if negb found then
    print (L "❌ profiles.yml not found!") ;;
    ret false
  else
    content <- read_text profiles_file ;;
    let content := replace_placeholders content project_id key_file_path in
    write_text profiles_file content ;;
    print (L "✅ Updated profiles.yml with:") ;;
    print (L "   Project ID: " ++ project_id) ;;
    print (L "   Key file: " ++ key_file_path) ;;
    ret true.

Definition main : M bool :=
  print (L "🔧 Quick Configuration Setup") ;;
  print (times (L "=") 40) ;;
  line <- input (L "Enter your Google Cloud Project ID: ") ;;
  let project_id := strip line in
  match project_id with
  | [] =>
      print (L "❌ Project ID is required!") ;;
      ret false
  | _ =>
      line <- input (L "Enter path to your service account key file (or press Enter for default): ") ;;
      let key_file :=
        match strip line with
        | [] => key_path_token
        | typed => typed
        end in
      found <- path_exists key_file ;;
      if negb found then
        print (L "❌ Key file not found: " ++ key_file) ;;
        print (L "Please download your service account key file first!") ;;
        ret false
      else
        updated <- update_profiles_yml project_id key_file ;;
        if updated then
          print (nl ++ L "✅ Configuration updated successfully!") ;;
          print (nl ++ L "Next steps:") ;;
          print (L "1. Run: dbt debug (to test connection)") ;;
          print (L "2. Run: dbt seed (to load CSV data)") ;;
          print (L "3. Run: dbt run (to create models)") ;;
          print (L "4. Set up Looker Studio dashboards") ;;
          ret true
        else ret false
  end.

(** The [if __name__ == "__main__"] block. *)
Definition script : M unit :=
  success <- main ;;
  sys_exit (if success then 0 else 1)%Z.

End QuickSetup.

(** * Worlds to run the scripts in *)

(** A machine that answers every command with [answer], serves a small CSV
    file at every URL and places the script in the working directory. *)
Definition host_of (answer : list (Command * Spawn) -> Command -> Spawn)
  : Host :=
  {| spawn := answer;
     fetch := fun _ => Response 200 (L "OK") (L "id,name");
     in_virtualenv := true;
     signal_names := fun _ => None;
     script_dir := L "." |}.

(** The start of a run: nothing attempted, tested or printed yet. *)
Definition fresh (h : Host) (tree : list (str * Node)) (keys : list str)
  : World :=
  {| host := h;
     files := fold_right (fun e f => update (fst e) (snd e) f)
                (fun _ => None) tree;
     stdin := keys; cwd := []; ran := []; probed := []; printed := [] |}.

Definition exit_with (rc : Z) (err : str) : Spawn :=
  Exited {| returncode := rc; stdout := []; stderr := err |}.

Definition always (s : Spawn) : list (Command * Spawn) -> Command -> Spawn :=
  fun _ _ => s.

(** A configuration as the repository's template has it. *)
Definition template : str :=
  L "project: your-gcp-project-id" ++ nl
  ++ L "keyfile: " ++ key_path_token ++ nl.

(** A machine with the template in both places the scripts look for it. *)
Definition configured (keys : list str) : World :=
  fresh (host_of (always NoSuchProgram))
    [(QuickSetup.profiles_file, File template);
     (L "profiles.yml", File template);
     (key_path_token, File (L "{}"))]
    keys.

(** * Words for what a run did *)

(** The attempts that follow when [cmds] are run one after the other, none
    left out, after the attempts of [history]. *)
Fixpoint play (h : Host) (history : list (Command * Spawn))
    (cmds : list Command) : list (Command * Spawn) :=
  match cmds with
  | [] => []
  | c :: rest =>
      let e := (c, spawn h history c) in
      e :: play h (history ++ [e]) rest
  end.

(** The child ended with status zero. *)
Definition succeeded (e : Command * Spawn) : Prop :=
  exists c, snd e = Exited c /\ returncode c = 0%Z.

(** There was a child. *)
Definition started (e : Command * Spawn) : Prop :=
  exists c, snd e = Exited c.

(** The text of the failure of [cmd] with status [rc], as the handlers of
    [setup_gcp_looker.py] read it: [str(e)] for the [CalledProcessError] that
    [subprocess.run(cmd, check=True)] raises.  It is made of the command and
    the status; what the child wrote is not in it. *)
Definition error_text (h : Host) (cmd : Command) (rc : Z) : str :=
  Exn_str h (CalledProcessError cmd rc None None).

(** The child ended with a status other than zero and the text of the
    failure holds "already exists". *)
Definition already_exists (h : Host) (e : Command * Spawn) : Prop :=
  exists c, snd e = Exited c /\ returncode c <> 0%Z
            /\ str_in (L "already exists") (error_text h (fst e) (returncode c)) = true.

(** A machine whose commands end as [table] says, by the program's first
    argument after the program; every other command ends with status 0. *)
Definition by_subcommand (table : list (str * Spawn))
  : list (Command * Spawn) -> Command -> Spawn :=
  fun _ cmd =>
    let key := match cmd with
               | Shell line => line
               | Argv (_ :: a :: _) => a
               | Argv _ => []
               end in
    match find (fun row => str_eqb (fst row) key) table with
    | Some row => snd row
    | None => exit_with 0 []
    end.

(** A project directory in which [dbt run] ends with status 2. *)
Definition failing_models : World :=
  fresh (host_of (by_subcommand
                    [(L "dbt run", exit_with 2 (L "Compilation Error"))]))
    [(L "my_project", Dir);
     (L "my_project/dbt_project.yml", File (L "name: my_project"));
     (L "profiles.yml", File template)]
    [].

(** A creation command that lets the run go on: it succeeded, or it failed
    with "already exists" in the text of the failure. *)
Definition passes (h : Host) (e : Command * Spawn) : Prop :=
  succeeded e \/ already_exists h e.

(** The line that the loop of [create_service_account] prints for a role. *)
Definition role_report (h : Host) (role_event : str * (Command * Spawn)) : str :=
  let (role, e) := role_event in
  match snd e with
  | Exited c =>
      if (returncode c =? 0)%Z then L "✅ Assigned role: " ++ role
      else L "❌ Failed to assign role " ++ role ++ L ": "
             ++ error_text h (fst e) (returncode c)
  | NoSuchProgram => []
  end.

(** A machine on which every command ends with status 1, saying on its
    standard error that the thing is there already. *)
Definition all_there : World :=
  fresh (host_of (always (exit_with 1 (L "BigQuery error in mk operation: Dataset already exists."))))
    [(L "profiles.yml", File template)] [].

(** A project whose datasets are there already: [bq mk] ends with status 1
    and says so; every other command ends with status 0, and the operator
    types the project identifier. *)
Definition datasets_there : World :=
  fresh (host_of (by_subcommand
                    [(L "mk", exit_with 1 (L "BigQuery error in mk operation: Dataset 'acme-health:healthcare_data_dev' already exists."))]))
    [(L "profiles.yml", File template); (L "my_project", Dir)]
    [L "acme-health"].

(** The command of a step of the pipeline. *)
Definition step_command (s : str * str) : Command := Shell (fst s).


(** * What the rewrite of the configuration is held to *)

(** One [replace] with a non-empty token, told through the pieces of its
    scan: the text is the pieces with the token between them, no piece holds
    the token, and the result is the same pieces with the value between
    them. *)
Definition replaced (token value before after : str) : Prop :=
  exists parts,
    before = join token parts
    /\ Forall (fun g => ~ occurs token g) parts
    /\ after = join value parts.

(** What [update_profiles_yml] is held to, for either script: [call] is the
    function applied to its arguments and [path] the file it works on. *)
Definition rewrites (call : M bool) (path project_id key_file_path : str)
    (w : World) : Prop :=
  let r := call w in
  match lookup w path with
  | None =>
      fst r = Ret false /\ files (snd r) = files w
  | Some Dir =>
      fst r = Raise (IsADirectoryError path) /\ files (snd r) = files w
  | Some (File content) =>
      exists between content',
        fst r = Ret true
        /\ files (snd r) = update path (File content') (files w)
        /\ replaced project_token project_id content between
        /\ replaced key_path_token key_file_path between content'
        /\ (~ occurs project_token content -> ~ occurs key_path_token content ->
            content' = content)
  end.

(** The file is rewritten and holds no token afterwards. *)
Definition resolves (call : M bool) (path : str) (w : World) : Prop :=
  forall content,
    lookup w path = Some (File content) ->
    exists content',
      fst (call w) = Ret true
      /\ files (snd (call w)) path = Some (File content')
      /\ str_in project_token content' = false
      /\ str_in key_path_token content' = false.


(** * Errors and the end of a run *)

(** An attempt that did not end with status zero. *)
Definition failed (e : Command * Spawn) : bool :=
  match snd e with
  | Exited c => negb (returncode c =? 0)%Z
  | NoSuchProgram => true
  end.

(** The argument vector starts with [words]. *)
Definition begins (words : list str) (cmd : Command) : bool :=
  match cmd with
  | Argv args => startswith str_eqb words args
  | Shell _ => false
  end.

(** The commands that create a dataset or the service account. *)
Definition is_creation (cmd : Command) : bool :=
  begins [L "bq"; L "mk"] cmd
  || begins [L "gcloud"; L "iam"; L "service-accounts"; L "create"] cmd.

(** The commands that bind a role. *)
Definition is_binding (cmd : Command) : bool :=
  begins [L "gcloud"; L "projects"; L "add-iam-policy-binding"] cmd.

(** The failures that C5 lets pass: a creation that failed with "already
    exists" in the text of the failure, and a role binding that failed. *)
Definition excused_as_stated (h : Host) (e : Command * Spawn) : bool :=
  match snd e with
  | Exited c =>
      (is_creation (fst e)
       && str_in (L "already exists") (error_text h (fst e) (returncode c)))
      || is_binding (fst e)
  | NoSuchProgram => false
  end.

(** The failures that the scripts let pass: those, and the installs with
    [pip], the query for the active account, and the test of the dbt
    connection. *)
Definition excused (h : Host) (e : Command * Spawn) : bool :=
  excused_as_stated h e
  || match snd e with
     | Exited _ =>
         match fst e with
         | Shell line => startswith Ascii.eqb (L "pip install ") line
         | cmd =>
             begins [L "gcloud"; L "auth"; L "list"] cmd
             || begins [L "dbt"; L "debug"] cmd
         end
     | NoSuchProgram => false
     end.


(** A line that reports an error: it bears the cross mark, or it is the
    interpreter's account of an exception nobody caught. *)
Definition has_mark (line : str) : bool :=
  str_in (L "❌") line || startswith Ascii.eqb (L "Traceback") line.

(** One of the last two lines reports an error. *)
Definition surfaced (lines : list str) : bool :=
  existsb has_mark (firstn 2 (rev lines)).


(** A project directory in which the first install with [pip] fails. *)
Definition failing_install : World :=
  fresh (host_of (by_subcommand
                    [(L "pip install dbt-bigquery",
                      exit_with 1 (L "ERROR: No matching distribution found"))]))
    [(L "my_project", Dir);
     (L "my_project/dbt_project.yml", File (L "name: my_project"));
     (L "profiles.yml", File template)]
    [].

(** A failure that is not excused. *)
Definition fatal (h : Host) (e : Command * Spawn) : bool :=
  failed e && negb (excused h e).

(** No attempt among [events] is fatal. *)
Definition clean (h : Host) (events : list (Command * Spawn)) : Prop :=
  Forall (fun e => fatal h e = false) events.

(** A fatal attempt among [events] is the last of them. *)
Definition tidy (h : Host) (events : list (Command * Spawn)) : Prop :=
  forall before e after,
    events = before ++ e :: after -> fatal h e = true -> after = [].

(** The last line bears the cross mark. *)
Definition marked (lines : list str) : bool :=
  match rev lines with
  | line :: _ => str_in (L "❌") line
  | [] => false
  end.

(** What a computation is held to, told of the machine, the result, the
    attempts added and the lines added. *)
Definition Post (A : Type) : Type :=
  Host -> Res A -> list (Command * Spawn) -> list str -> Prop.

(** [c] leaves the machine as it is, only adds to the records of attempts
    and of lines, and meets [Q]. *)
Definition obeys {A} (c : M A) (Q : Post A) : Prop :=
  forall w,
    exists events lines,
      host (snd (c w)) = host w
      /\ ran (snd (c w)) = ran w ++ events
      /\ printed (snd (c w)) = printed w ++ lines
      /\ Q (host w) (fst (c w)) events lines.

(** The discipline of the scripts' functions.  A result that lets the caller
    go on comes without a fatal attempt.  A result that makes the caller give
    up comes with at most one fatal attempt, the last one, and, when the
    function [speaks], with a marked last line.  An exception comes with at
    most one fatal attempt, the last one, and is one that [except Exception]
    catches. *)
Definition careful {A} (good : A -> bool) (speaks : bool) : Post A :=
  fun h r events lines =>
    match r with
    | Ret a =>
        if good a then clean h events
        else tidy h events /\ (speaks = true -> marked lines = true)
    | Raise e => tidy h events /\ is_Exception e = true
    end.

(** [if x] for a text that may be [None] *)
Definition truthy (x : option str) : bool :=
  match x with
  | Some (_ :: _) => true
  | _ => false
  end.

(** The discipline of a script as a whole, which ends by returning, by
    [sys.exit] or by an exception: no fatal attempt when it ends well; at
    most one, the last one, otherwise; an exit with a status other than
    zero comes with a report. *)
Definition ending : Post unit :=
  fun h r events lines =>
    match r with
    | Ret _ => clean h events
    | Raise (SystemExit code) =>
        if (code =? 0)%Z then clean h events
        else tidy h events /\ surfaced lines = true
    | Raise _ => tidy h events
    end.

(** The discipline of the [main] of [setup_gcp_looker.py], which tells its
    caller by [True] or [False] how the run went. *)
Definition concluding : Post bool :=
  fun h r events lines =>
    match r with
    | Ret true => clean h events
    | Ret false => tidy h events /\ surfaced lines = true
    | Raise e => tidy h events /\ is_Exception e = true
    end.


(** An install with [pip]. *)
Definition is_install (e : Command * Spawn) : bool :=
  match fst e with
  | Shell line => startswith Ascii.eqb (L "pip install ") line
  | Argv _ => false
  end.


(** * Words for the files *)

(** The directory that [os.makedirs] looks for before it makes [name]: the
    one above it, when the name has both parts. *)
Definition above (name : str) : option str :=
  match makedirs_split name with
  | (c :: hd, _ :: _) => Some (c :: hd)
  | _ => None
  end.

(** A machine with a project directory and a server that has no such file. *)
Definition nothing_served : World :=
  fresh {| spawn := always NoSuchProgram;
           fetch := fun _ => Response 404 (L "Not Found") [];
           in_virtualenv := true;
           signal_names := fun _ => None;
           script_dir := L "." |}
    [(L "my_project", Dir); (L "my_project/seeds", Dir)] [].

(** A machine with a project directory and a server that has every file. *)
Definition all_served : World :=
  fresh (host_of (always NoSuchProgram))
    [(L "my_project", Dir); (L "my_project/seeds", Dir)] [].

(** * Words for a whole run of [setup_pipeline.py] *)

(** The two installs of [setup_environment], in the order of the source. *)
Definition install_commands : list Command :=
  [Shell (L "pip install dbt-bigquery"); Shell (L "pip install requests")].

(** What [setup_environment] prints before the installs. *)
Definition environment_lines (h : Host) : list str :=
  L "🚀 Setting up healthcare data pipeline environment..."
  :: (if in_virtualenv h then []
      else [L "⚠️  Warning: You're not in a virtual environment. Consider using one."]).

(** The project directory and the two files that [main] and
    [validate_dbt_project] ask for are there. *)
Definition ready (w : World) : Prop :=
  lookup w (L "my_project") = Some Dir
  /\ lookup w (L "my_project/dbt_project.yml") <> None
  /\ lookup w (L "profiles.yml") <> None.

(** The attempts of the installs, from the records of [w] on. *)
Definition install_events (w : World) : list (Command * Spawn) :=
  play (host w) (ran w) install_commands.

(** The attempts of the five steps of the pipeline after the installs. *)
Definition step_events (w : World) : list (Command * Spawn) :=
  play (host w) (ran w ++ install_events w)
    (map step_command SetupPipeline.commands).

(** The shell starts both installs and every step of the pipeline ends with
    status zero. *)
Definition runs_through (w : World) : Prop :=
  Forall started (install_events w) /\ Forall succeeded (step_events w).

(** A project directory on a machine where every command ends well. *)
Definition all_well : World :=
  fresh (host_of (always (exit_with 0 [])))
    [(L "my_project", Dir);
     (L "my_project/dbt_project.yml", File (L "name: my_project"));
     (L "profiles.yml", File template)]
    [].

(** What [run_command] prints for a command that ended as [s]. *)
Definition run_command_lines (description : str) (s : Spawn) : list str :=
  (L "🔄 " ++ description ++ L "...")
  :: match s with
     | Exited c =>
         [if (returncode c =? 0)%Z
          then L "✅ " ++ description ++ L " completed successfully"
          else L "❌ " ++ description ++ L " failed: " ++ stderr c]
     | NoSuchProgram => []
     end.

(** What [run_command] prints for attempts in a row. *)
Fixpoint reports (descriptions : list str) (events : list (Command * Spawn))
  : list str :=
  match descriptions, events with
  | d :: ds, e :: es => run_command_lines d (snd e) ++ reports ds es
  | _, _ => []
  end.

Definition install_lines (w : World) : list str :=
  reports [L "Installing dbt-bigquery"; L "Installing requests"]
    (install_events w).

Definition step_lines (w : World) : list str :=
  reports (map snd SetupPipeline.commands) (step_events w).

(** The last lines of [main] after a pipeline that went through. *)
Definition closing_lines : list str :=
  [nl ++ L "🎉 Healthcare data pipeline setup complete!";
   nl ++ L "Next steps:";
   L "1. Update profiles.yml with your Google Cloud credentials";
   L "2. Replace sample CSV files with your actual healthcare data";
   L "3. Run 'dbt docs serve' to view the documentation";
   L "4. Set up automated scheduling with GitHub Actions or Cloud Scheduler"].

(** All that a run of [setup_pipeline.py] that goes through prints. *)
Definition pipeline_account (w : World) : list str :=
  [L "🏥 Healthcare Data Pipeline Setup"; times (L "=") 50]
  ++ environment_lines (host w)
  ++ install_lines w
  ++ [L "🔍 Validating dbt project...";
      L "✅ dbt project validation passed";
      L "📊 Downloading sample healthcare data...";
      L "ℹ️  Using sample data files already created in the project";
      L "🔄 Running dbt pipeline..."]
  ++ step_lines w
  ++ [L "✅ dbt pipeline completed successfully!"]
  ++ closing_lines.

(** * Words for a whole run of [setup_gcp_looker.py] *)

Definition version_command : Command := Argv [L "gcloud"; L "--version"].

Definition describe_command (project_id : str) : Command :=
  Argv [L "gcloud"; L "projects"; L "describe"; project_id].

Definition account_command : Command :=
  Argv [L "gcloud"; L "auth"; L "list"; L "--filter=status:ACTIVE";
        L "--format=value(account)"].

(** The address that [create_service_account] makes up for the account. *)
Definition service_account_email (project_id : str) : str :=
  SetupGcpLooker.service_account_name ++ L "@" ++ project_id
    ++ L ".iam.gserviceaccount.com".

(** Where [create_service_account_key] has the key written. *)
Definition key_file_path (h : Host) : str :=
  beside_path h (L "dbt-service-account-key.json").

Definition key_command (h : Host) (project_id : str) : Command :=
  Argv [L "gcloud"; L "iam"; L "service-accounts"; L "keys"; L "create";
        key_file_path h; L "--iam-account=" ++ service_account_email project_id].

Definition debug_command (h : Host) : Command :=
  Argv [L "dbt"; L "debug"; L "--project-dir"; beside_path h (L "my_project")].

(** The commands of a run of [setup_gcp_looker.py] up to the rewrite of the
    configuration, in the order of the source. *)
Definition gcp_commands (h : Host) (project_id : str) : list Command :=
  [version_command; describe_command project_id; account_command]
  ++ map (SetupGcpLooker.dataset_command project_id) SetupGcpLooker.datasets
  ++ [SetupGcpLooker.service_account_command project_id]
  ++ map (SetupGcpLooker.binding_command project_id
            (service_account_email project_id)) SetupGcpLooker.roles
  ++ [key_command h project_id].

(** What the run asks of each of them: the three queries and the making of
    the key must end with status zero; the creations may also fail with
    "already exists"; the bindings must only have been started. *)
Definition gcp_demands (h : Host) : list (Command * Spawn -> Prop) :=
  [succeeded; succeeded; succeeded;
   passes h; passes h;
   passes h;
   started; started; started; started;
   succeeded].

(** The attempts of these commands, from the records of [w] on. *)
Definition gcp_events (w : World) (project_id : str) : list (Command * Spawn) :=
  play (host w) (ran w) (gcp_commands (host w) project_id).

(** The attempt of the test of the connection that follows them. *)
Definition debug_event (w : World) (project_id : str) : Command * Spawn :=
  (debug_command (host w),
   spawn (host w) (ran w ++ gcp_events w project_id) (debug_command (host w))).

(** The last lines of [main], from the test of the connection on. *)
Definition gcp_finish : M bool :=
  tested <- SetupGcpLooker.test_dbt_connection ;;
  (if negb tested then
     print (nl ++ L "⚠️  dbt connection test failed, but you can continue with manual setup")
   else ret tt) ;;
  SetupGcpLooker.setup_looker_instructions ;;
  print (nl ++ L "🎉 Setup Complete!") ;;
  print (times (L "=") 60) ;;
  print (L "Your healthcare data pipeline is now configured for Google Cloud and Looker!") ;;
  print (nl ++ L "Next steps:") ;;
  print (L "1. Run 'dbt seed' to load your CSV data") ;;
  print (L "2. Run 'dbt run' to create your models") ;;
  print (L "3. Run 'dbt test' to validate data quality") ;;
  print (L "4. Set up Looker Studio dashboards") ;;
  ret true.

(** The lines with which [main] gives up for want of the [gcloud] program. *)
Definition no_gcloud_lines : list str :=
  [L "🏥 Healthcare dbt + Google Cloud + Looker Setup";
   times (L "=") 60;
   L "❌ Google Cloud CLI not found!";
   L "Please install it from: https://cloud.google.com/sdk/docs/install"].

(** A machine without the [gcloud] program. *)
Definition no_gcloud : World :=
  fresh (host_of (always NoSuchProgram))
    [(L "profiles.yml", File template)] [L "acme-health"].

(** A machine on which every command ends well, with the template beside
    the script, the project directory, and an operator who types a project
    identifier. *)
Definition gcp_all_well : World :=
  fresh (host_of (always (exit_with 0 (L "operator@example.com"))))
    [(L "profiles.yml", File template); (L "my_project", Dir)]
    [L " acme-health "].

(** The operator and the files give [setup_gcp_looker.py] what it asks for
    up to the rewrite of the configuration: a project identifier on the
    first line, the configuration beside the script, and commands that end
    as the run asks. *)
Definition gcp_answers (w : World) (project_id content : str)
    (keys : list str) : Prop :=
  (exists line, stdin w = line :: keys /\ project_id = strip line)
  /\ project_id <> []
  /\ lookup w (beside_path (host w) (L "profiles.yml")) = Some (File content)
  /\ lookup w (beside_path (host w) (L "my_project")) <> None
  /\ Forall2 (fun demand e => demand e) (gcp_demands (host w))
       (gcp_events w project_id).

(** A machine like that, but without the [dbt] program. *)
Definition no_dbt : World :=
  fresh (host_of (fun _ cmd =>
                    match cmd with
                    | Argv (program :: _) =>
                        if str_eqb program (L "dbt") then NoSuchProgram
                        else exit_with 0 (L "operator@example.com")
                    | _ => exit_with 0 []
                    end))
    [(L "profiles.yml", File template); (L "my_project", Dir)]
    [L " acme-health "].

(** * Words for a whole run of [quick_setup.py] *)

(** The key path that [main] takes from the second line typed: the line
    without the blanks around it, or the path in the template when nothing
    is left. *)
Definition key_choice (line : str) : str :=
  match strip line with
  | [] => key_path_token
  | typed => typed
  end.

(** The operator and the files give [quick_setup.py] what it asks for: a
    project identifier on the first line, on the second a key path, or
    nothing, at which a file is there, and the configuration in its
    place. *)
Definition quick_answers (w : World) (project_id key_file content : str)
    (keys : list str) : Prop :=
  exists line1 line2,
    stdin w = line1 :: line2 :: keys
    /\ project_id = strip line1
    /\ project_id <> []
    /\ key_file = key_choice line2
    /\ lookup w key_file <> None
    /\ lookup w QuickSetup.profiles_file = Some (File content).

(** The interpreter's account of the end of the input. *)
Definition end_of_input_lines : str :=
  L "Traceback (most recent call last):" ++ nl
  ++ L "EOFError: EOF when reading a line".

(** * Facts about text *)

Unset Implicit Arguments.

Section TextFacts.

Context {A : Type}.
Variable eqb : A -> A -> bool.
Hypothesis eqb_spec : forall x y, reflect (x = y) (eqb x y).

Local Abbreviation startswith := (startswith eqb).
Local Abbreviation contains := (contains eqb).
Local Abbreviation replace := (replace eqb).
Local Abbreviation pieces := (pieces eqb).

Lemma startswith_iff (p s : list A) :
  startswith p s = true <-> exists r, s = p ++ r.
Proof.
  revert s. induction p as [|a p IH]; intros s; simpl.
  - split; [exists s; reflexivity | reflexivity].
  - destruct s as [|b s].
    + split; [discriminate | intros [r Hr]; discriminate].
    + rewrite andb_true_iff, IH. split.
      * intros [Hab [r ->]]. destruct (eqb_spec a b); [subst|discriminate].
        exists r. reflexivity.
      * intros [r Hr]. injection Hr as -> ->. split; [|exists r; reflexivity].
        destruct (eqb_spec a a); congruence.
Qed.

Lemma startswith_skipn (p s : list A) :
  startswith p s = true -> s = p ++ skipn (length p) s.
Proof.
  intros H. apply startswith_iff in H as [r ->].
  rewrite skipn_app, skipn_all, Nat.sub_diag. reflexivity.
Qed.

Lemma endswith_iff (p s : list A) :
  endswith eqb p s = true <-> exists r, s = r ++ p.
Proof.
  unfold endswith. rewrite startswith_iff. split.
  - intros [r Hr]. exists (rev r).
    rewrite <- (rev_involutive s), Hr, rev_app_distr, rev_involutive.
    reflexivity.
  - intros [r ->]. exists (rev r). apply rev_app_distr.
Qed.

Lemma contains_iff (t s : list A) :
  contains t s = true <-> occurs t s.
Proof.
  unfold occurs. induction s as [|c s IH]; simpl.
  - rewrite orb_false_r, startswith_iff. split.
    + intros [r Hr]. exists [], r. exact Hr.
    + intros [a [b H]]. destruct a; [exists b; exact H | discriminate].
  - rewrite orb_true_iff, IH, startswith_iff. split.
    + intros [[r Hr] | [a [b ->]]].
      * exists [], r. exact Hr.
      * exists (c :: a), b. reflexivity.
    + intros [a [b H]]. destruct a as [|a0 a].
      * left. exists b. exact H.
      * right. injection H as -> ->. exists a, b. reflexivity.
Qed.

Lemma contains_false_iff (t s : list A) :
  contains t s = false <-> ~ occurs t s.
Proof.
  rewrite <- contains_iff. destruct (contains t s); split; congruence.
Qed.

Lemma occurs_app_l (t x y : list A) : occurs t x -> occurs t (x ++ y).
Proof.
  intros [a [b ->]]. exists a, (b ++ y). now rewrite <- !app_assoc.
Qed.

Lemma occurs_app_r (t x y : list A) : occurs t y -> occurs t (x ++ y).
Proof.
  intros [a [b ->]]. exists (x ++ a), b. now rewrite <- !app_assoc.
Qed.

Lemma occurs_trans (t u s : list A) : occurs t u -> occurs u s -> occurs t s.
Proof.
  intros [a [b ->]] [a' [b' ->]]. exists (a' ++ a), (b ++ b').
  now rewrite <- !app_assoc.
Qed.

(** ** The pieces of a scan *)

Lemma join_cons (sep g : list A) (rest : list (list A)) :
  rest <> [] -> join sep (g :: rest) = g ++ sep ++ join sep rest.
Proof. destruct rest; [congruence | reflexivity]. Qed.

Lemma join_cons_head (sep : list A) (c : A) (parts : list (list A)) :
  parts <> [] -> join sep (cons_head c parts) = c :: join sep parts.
Proof.
  destruct parts as [|g [|g' rest]]; [congruence | reflexivity | reflexivity].
Qed.

Lemma pieces_not_nil (old s : list A) : pieces old s <> [].
Proof.
  funelim (pieces old s); try discriminate.
  destruct (pieces (o :: old') s'); discriminate.
Qed.

(** The text is its pieces with the token between them. *)
Lemma join_pieces (old s : list A) : join old (pieces old s) = s.
Proof.
  funelim (pieces old s); try reflexivity.
  - rewrite join_cons by apply pieces_not_nil.
    rewrite H. apply startswith_skipn in Heq. simpl in Heq.
    symmetry. exact Heq.
  - rewrite join_cons_head by apply pieces_not_nil.
    now rewrite H.
Qed.

Lemma pieces_hit (o : A) (old' : list A) (c : A) (s' : list A) :
  startswith (o :: old') (c :: s') = true ->
  pieces (o :: old') (c :: s')
  = [] :: pieces (o :: old') (skipn (length old') s').
Proof.
  intros H. simp pieces. rewrite H. reflexivity.
Qed.

Lemma pieces_miss (o : A) (old' : list A) (c : A) (s' : list A) :
  startswith (o :: old') (c :: s') = false ->
  pieces (o :: old') (c :: s') = cons_head c (pieces (o :: old') s').
Proof.
  intros H. simp pieces. rewrite H. reflexivity.
Qed.

(** What [replace] returns is the pieces with the value between them. *)
Lemma replace_pieces (o : A) (old' new s : list A) :
  replace (o :: old') new s = join new (pieces (o :: old') s).
Proof.
  funelim (replace (o :: old') new s).
  - reflexivity.
  - rewrite pieces_hit, join_cons by (assumption || apply pieces_not_nil).
    rewrite H. reflexivity.
  - rewrite pieces_miss, join_cons_head by (assumption || apply pieces_not_nil).
    rewrite H. reflexivity.
Qed.

Lemma occurs_refl (s : list A) : occurs s s.
Proof. exists [], []. now rewrite app_nil_r. Qed.

Lemma occurs_nil_inv (t : list A) : occurs t [] -> t = [].
Proof.
  intros [a [b H]]. symmetry in H.
  apply app_eq_nil in H as [_ H]. now apply app_eq_nil in H.
Qed.

Lemma join_head (sep g : list A) (rest : list (list A)) :
  exists r, join sep (g :: rest) = g ++ r.
Proof.
  destruct rest as [|g' rest].
  - exists []. simpl. now rewrite app_nil_r.
  - exists (sep ++ join sep (g' :: rest)). reflexivity.
Qed.

(** Every part occurs in the joined text. *)
Lemma join_parts_occur (sep : list A) (parts : list (list A)) :
  Forall (fun g => occurs g (join sep parts)) parts.
Proof.
  induction parts as [|g rest IH]; [constructor|].
  destruct rest as [|g' rest].
  - constructor; [apply occurs_refl | constructor].
  - rewrite join_cons by discriminate. constructor.
    + apply occurs_app_l, occurs_refl.
    + eapply Forall_impl; [|exact IH]. intros h Hh.
      now apply occurs_app_r, occurs_app_r.
Qed.

(** Every piece is a stretch of the scanned text. *)
Lemma pieces_occur (old s : list A) :
  Forall (fun g => occurs g s) (pieces old s).
Proof.
  pose proof (join_parts_occur old (pieces old s)) as H.
  now rewrite join_pieces in H.
Qed.

(** No piece holds the token: the scan has consumed every occurrence. *)
Lemma pieces_free (o : A) (old' s : list A) :
  Forall (fun g => ~ occurs (o :: old') g) (pieces (o :: old') s).
Proof.
  funelim (pieces (o :: old') s).
  - constructor; [|constructor]. intros H. now apply occurs_nil_inv in H.
  - constructor; [|exact H]. intros H0. now apply occurs_nil_inv in H0.
  - pose proof (join_pieces (o :: old') s') as J.
    destruct (pieces (o :: old') s') as [|g gs] eqn:E.
    + now apply pieces_not_nil in E.
    + simpl. apply Forall_cons_iff in H as [Hg Hgs]. constructor; [|exact Hgs].
      intros [a [b Hab]]. destruct a as [|c' a].
      * destruct (join_head (o :: old') g gs) as [r Hr].
        rewrite Hr in J. simpl in Hab.
        assert (startswith (o :: old') (c :: s') = true) as Hs.
        { apply startswith_iff. exists (b ++ r).
          rewrite <- J. change (c :: g ++ r) with ((c :: g) ++ r).
          rewrite Hab. simpl. now rewrite <- app_assoc. }
        congruence.
      * injection Hab as -> ->. apply Hg. now exists a, b.
Qed.

(** ** When a written value can complete a token *)

Lemma in_prefixes (u v : list A) :
  In u (prefixes v) <-> u <> [] /\ exists r, v = u ++ r.
Proof.
  revert u. induction v as [|c v IH]; intros u; simpl.
  - split; [tauto|]. intros [Hu [r Hr]]. destruct u; [congruence|discriminate].
  - rewrite in_map_iff. split.
    + intros [<- | [u' [<- Hu']]].
      * split; [discriminate | exists v; reflexivity].
      * apply IH in Hu' as [_ [r ->]]. split; [discriminate|].
        exists r. reflexivity.
    + intros [Hu [r Hr]]. destruct u as [|c' u]; [congruence|].
      injection Hr as <- ->. destruct u as [|c'' u]; [now left|].
      right. exists (c'' :: u). split; [reflexivity|].
      apply IH. split; [discriminate | exists r; reflexivity].
Qed.

Lemma in_suffixes (u v : list A) :
  In u (suffixes v) <-> u <> [] /\ exists r, v = r ++ u.
Proof.
  induction v as [|c v IH]; simpl.
  - split; [tauto|]. intros [Hu [r Hr]]. symmetry in Hr.
    apply app_eq_nil in Hr as [_ Hr]. congruence.
  - rewrite IH. split.
    + intros [<- | [Hu [r ->]]].
      * split; [discriminate | exists []; reflexivity].
      * split; [exact Hu | exists (c :: r); reflexivity].
    + intros [Hu [r Hr]]. destruct r as [|c' r].
      * left. exact Hr.
      * right. injection Hr as <- ->. split; [exact Hu | exists r; reflexivity].
Qed.

(** What the absence of a collision rules out. *)
Lemma collides_false (t v : list A) :
  collides eqb t v = false ->
  ~ occurs v t /\ ~ occurs t v
  /\ (forall u, u <> [] -> (exists r, v = u ++ r) -> (exists r, t = r ++ u) -> False)
  /\ (forall u, u <> [] -> (exists r, v = r ++ u) -> (exists r, t = u ++ r) -> False).
Proof.
  unfold collides. rewrite !orb_false_iff.
  intros [[[H1 H2] H3] H4].
  apply contains_false_iff in H1, H2. repeat split; try assumption.
  - intros u Hu Hp Hs.
    assert (existsb (fun u => endswith eqb u t) (prefixes v) = true) as E.
    { apply existsb_exists. exists u. split.
      - apply in_prefixes. now split.
      - now apply endswith_iff. }
    congruence.
  - intros u Hu Hs Hp.
    assert (existsb (fun u => startswith u t) (suffixes v) = true) as E.
    { apply existsb_exists. exists u. split.
      - apply in_suffixes. now split.
      - now apply startswith_iff. }
    congruence.
Qed.

(** A token that occurs in [x ++ m ++ y] lies in [x], lies in [y], or
    touches [m]. *)
Lemma no_occurrence_across (t x m y : list A) :
  collides eqb t m = false ->
  ~ occurs t x -> ~ occurs t y -> ~ occurs t (x ++ m ++ y).
Proof.
  intros Hc Hx Hy [a [b E]].
  apply collides_false in Hc as [Hmt [Htm [Hpre Hsuf]]].
  symmetry in E. apply app_eq_app in E as [l [[-> E] | [-> E]]].
  - (* the occurrence starts at or behind the start of [m] *)
    symmetry in E. apply app_eq_app in E as [l' [[-> E] | [-> E]]].
    + (* behind the end of [m] *)
      apply Hy. exists l', b. exact E.
    + apply app_eq_app in E as [l'' [[-> E] | [-> E]]].
      * (* it runs over the end of [m] *)
        destruct l' as [|c l'].
        -- apply Hy. exists [], b. exact E.
        -- apply (Hsuf (c :: l')); [discriminate | now exists l | now exists l''].
      * (* it lies inside [m] *)
        apply Htm. exists l, l''. reflexivity.
  - (* the occurrence starts before [m] *)
    apply app_eq_app in E as [l' [[-> E] | [-> E]]].
    + symmetry in E. apply app_eq_app in E as [l'' [[-> E] | [-> E]]].
      * (* it covers [m] *)
        apply Hmt. exists l, l''. reflexivity.
      * (* it ends inside [m] *)
        destruct l' as [|c l'].
        -- apply Hx. exists a, []. now rewrite !app_nil_r.
        -- apply (Hpre (c :: l')); [discriminate | now exists l'' | now exists l].
    + (* it ends before [m] *)
      apply Hx. exists a, l'. reflexivity.
Qed.

(** Pieces free of a token, joined by a value that does not collide with
    it, give a text free of the token. *)
Lemma join_free (t new : list A) (parts : list (list A)) :
  collides eqb t new = false ->
  Forall (fun g => ~ occurs t g) parts ->
  ~ occurs t (join new parts).
Proof.
  intros Hc. induction parts as [|g rest IH]; intros Hf.
  - simpl. intros H. apply occurs_nil_inv in H. subst t.
    apply collides_false in Hc as [_ [Hc _]]. apply Hc. now exists [], new.
  - inversion Hf as [|? ? Hg Hrest]; subst.
    destruct rest as [|g' rest]; [exact Hg|].
    rewrite join_cons by discriminate.
    apply no_occurrence_across; auto.
Qed.

(** A text without the token is returned as it is. *)
Lemma replace_absent (o : A) (old' new s : list A) :
  ~ occurs (o :: old') s -> replace (o :: old') new s = s.
Proof.
  funelim (replace (o :: old') new s); intros Hn.
  - reflexivity.
  - exfalso. apply Hn. apply startswith_iff in Heq as [r ->]. now exists [], r.
  - f_equal. apply H. intros [a [b ->]]. apply Hn. now exists (c :: a), b.
Qed.

(** ** When [replace] changes the text *)

Lemma join_length (sep : list A) (parts : list (list A)) :
  parts <> [] ->
  length (join sep parts) + length sep
  = length (concat parts) + length parts * length sep.
Proof.
  induction parts as [|g rest IH]; [congruence|]. intros _.
  destruct rest as [|g' rest].
  - simpl. rewrite app_nil_r. lia.
  - rewrite join_cons by discriminate.
    specialize (IH ltac:(discriminate)).
    change (concat (g :: g' :: rest)) with (g ++ concat (g' :: rest)).
    rewrite !length_app. simpl length in *. lia.
Qed.

Lemma join_differs (old new : list A) (parts : list (list A)) :
  old <> new -> 2 <= length parts -> join old parts <> join new parts.
Proof.
  intros Hne Hlen E.
  destruct parts as [|g [|g' rest]]; simpl in Hlen; try lia.
  remember (g' :: rest) as P eqn:EP.
  assert (P <> []) as HP by (subst P; discriminate).
  assert (1 <= length P) as HP1 by (destruct P; simpl; [congruence | lia]).
  rewrite (join_cons old g P HP), (join_cons new g P HP) in E.
  apply app_inv_head in E.
  assert (length old = length new) as Hl.
  { pose proof (join_length old P HP) as H1.
    pose proof (join_length new P HP) as H2.
    apply (f_equal (@length A)) in E. rewrite !length_app in E.
    assert (length P * length old = length P * length new) as Hm by lia.
    apply Nat.mul_cancel_l in Hm; lia. }
  apply Hne. apply (f_equal (firstn (length old))) in E.
  rewrite firstn_app, firstn_all, Nat.sub_diag in E. simpl in E.
  rewrite Hl, firstn_app, firstn_all, Nat.sub_diag in E. simpl in E.
  now rewrite !app_nil_r in E.
Qed.

(** A text that holds the token comes back changed, unless the value is
    the token itself. *)
Lemma replace_changes (o : A) (old' new s : list A) :
  occurs (o :: old') s -> new <> o :: old' ->
  replace (o :: old') new s <> s.
Proof.
  intros Ho Hne. rewrite replace_pieces.
  rewrite <- (join_pieces (o :: old') s) at 2.
  apply not_eq_sym, join_differs; [congruence|].
  pose proof (pieces_free o old' s) as Hf.
  pose proof (join_pieces (o :: old') s) as Hj.
  destruct (pieces (o :: old') s) as [|g [|g' rest]]; simpl; try lia.
  - simpl in Hj. subst s. now apply occurs_nil_inv in Ho.
  - simpl in Hj. subst s. apply Forall_cons_iff in Hf as [Hg _]. tauto.
Qed.

End TextFacts.

(** * Facts about the scripts *)

(** Unfolds the monad's plumbing in the goal. *)
Ltac step :=
  unfold bind, try_except, ret, raise, print, sys_exit, str_of, path_exists,
    path_isdir, read_text, chdir, subprocess_run, beside;
  cbn [fst snd host files stdin cwd ran probed printed
       set_files set_stdin set_cwd set_ran set_probed set_printed
       cp_returncode cp_stdout cp_stderr captured andb negb fmt].

Lemma lookup_set_stdin l w p : lookup (set_stdin l w) p = lookup w p.
Proof. now destruct p. Qed.

Lemma lookup_set_cwd l w p : lookup (set_cwd l w) p = lookup w p.
Proof. now destruct p. Qed.

Lemma lookup_set_ran l w p : lookup (set_ran l w) p = lookup w p.
Proof. now destruct p. Qed.

Lemma lookup_set_probed l w p : lookup (set_probed l w) p = lookup w p.
Proof. now destruct p. Qed.

Lemma lookup_set_printed l w p : lookup (set_printed l w) p = lookup w p.
Proof. now destruct p. Qed.

Create Rewrite HintDb world.
#[local] Hint Rewrite lookup_set_stdin lookup_set_cwd lookup_set_ran
  lookup_set_probed lookup_set_printed : world.

(** Runs the goal's computation as far as it is determined. *)
Ltac run := repeat progress (step; autorewrite with world).

Lemma write_text_over (path content old : str) (w : World) :
  lookup w path = Some (File old) ->
  write_text path content w
  = (Ret tt, set_files (update path (File content) (files w)) w).
Proof.
  intros H. unfold write_text. rewrite H.
  destruct path; [discriminate | reflexivity].
Qed.

(** C6 ([run_command]).  The command is attempted exactly once.  When the child
    ends with status zero the captured standard output is returned; when it
    ends with any other status the result is [None] and the description and
    the captured standard error are printed.  Beyond the test against zero
    the status plays no part. *)
Theorem run_command_zero_or_not (command description : str) (w : World) :
  let r := SetupPipeline.run_command command description w in
  let attempt := spawn (host w) (ran w) (Shell command) in
  ran (snd r) = ran w ++ [(Shell command, attempt)]
  /\ match attempt with
     | Exited c =>
         (returncode c = 0%Z
          /\ fst r = Ret (Some (stdout c))
          /\ printed (snd r) =
               printed w ++ [L "🔄 " ++ description ++ L "...";
                             L "✅ " ++ description ++ L " completed successfully"])
         \/ (returncode c <> 0%Z
             /\ fst r = Ret None
             /\ printed (snd r) =
                  printed w ++ [L "🔄 " ++ description ++ L "...";
                                L "❌ " ++ description ++ L " failed: " ++ stderr c])
     | NoSuchProgram => fst r = Raise (FileNotFoundError (L "/bin/sh"))
     end.
Proof.
  unfold SetupPipeline.run_command. step.
  destruct (spawn (host w) (ran w) (Shell command)) as [c|]; cbn.
  - destruct (Z.eqb_spec (returncode c) 0) as [Hz|Hz]; cbn;
      rewrite <- app_assoc; auto.
  - split; reflexivity.
Qed.

(** C7 ([validate_dbt_project]).  The two required paths are tested in the
    order project descriptor, configuration file.  When at least one is
    missing, the call returns [False], the one line it prints after its
    heading names the first missing path, and the paths tested are those up
    to that one: nothing behind it is examined. *)
Theorem validate_dbt_project_first_missing (w : World) :
  let r := SetupPipeline.validate_dbt_project w in
  let descriptor := L "my_project/dbt_project.yml" in
  let profiles := L "profiles.yml" in
  let heading := L "🔍 Validating dbt project..." in
  match lookup w descriptor, lookup w profiles with
  | None, _ =>
      fst r = Ret false
      /\ probed (snd r) = probed w ++ [descriptor]
      /\ printed (snd r) = printed w ++ [heading; L "❌ dbt_project.yml not found"]
  | Some _, None =>
      fst r = Ret false
      /\ probed (snd r) = probed w ++ [descriptor; profiles]
      /\ printed (snd r) =
           printed w ++ [heading; L "❌ profiles.yml not found. Please create it with your Google Cloud credentials."]
  | Some _, Some _ =>
      fst r = Ret true
      /\ probed (snd r) = probed w ++ [descriptor; profiles]
      /\ printed (snd r) =
           printed w ++ [heading; L "✅ dbt project validation passed"]
  end.
Proof.
  unfold SetupPipeline.validate_dbt_project. step.
  unfold lookup; cbn [files set_printed set_probed].
  change (L "my_project/dbt_project.yml") with
    ("m"%char :: L "y_project/dbt_project.yml").
  change (L "profiles.yml") with ("p"%char :: L "rofiles.yml").
  cbv iota.
  destruct (files w _) as [n1|]; cbn.
  - destruct (files w _) as [n2|]; cbn;
      rewrite <- !app_assoc; auto.
  - rewrite <- !app_assoc; auto.
Qed.

(** ** Downloading *)

Lemma makedirs_empty (exist_ok : bool) (w : World) :
  makedirs [] exist_ok w
  = (Raise (FileNotFoundError []), set_probed (probed w ++ [[]]) w).
Proof.
  simp makedirs. cbn. unfold makedirs_leaf. step. cbn.
  rewrite orb_true_r. reflexivity.
Qed.

(** C10 ([download_csv_from_github]).  When [local_path] has no directory
    part the call returns [False] and writes no file, whatever the server
    answers.  With a 2xx answer the reason printed is the failure to make
    the directory named by the empty path. *)
Theorem download_without_directory_part
    (repo_url file_path local_path : str) (w : World) :
  dirname local_path = [] ->
  let r := SetupPipeline.download_csv_from_github repo_url file_path local_path w in
  fst r = Ret false
  /\ files (snd r) = files w
  /\ forall status_code reason text,
       fetch (host w) (repo_url ++ L "/raw/main/" ++ file_path)
         = Response status_code reason text ->
       (200 <= status_code < 300)%Z ->
       printed (snd r) =
         printed w ++
           [L "📥 Downloading " ++ file_path ++ L " from " ++ repo_url ++ L "...";
            L "❌ Failed to download " ++ file_path
              ++ L ": [Errno 2] No such file or directory: ''"].
Proof.
  intros Hdir. unfold SetupPipeline.download_csv_from_github.
  rewrite Hdir. unfold requests_get, raise_for_status. step.
  destruct (fetch (host w) _) as [status_code reason text | why]; cbn.
  - destruct ((400 <=? status_code)%Z && (status_code <? 500)%Z) eqn:E4; cbn.
    { repeat split. intros ? ? ? H Hs. injection H as -> _ _. lia. }
    destruct ((500 <=? status_code)%Z && (status_code <? 600)%Z) eqn:E5; cbn.
    { repeat split. intros ? ? ? H Hs. injection H as -> _ _. lia. }
    rewrite makedirs_empty. cbn. repeat split.
    intros _ _ _ _ _. rewrite <- app_assoc. reflexivity.
  - repeat split. discriminate.
Qed.

Lemma download_without_directory_part_witness :
  let w := fresh (host_of (always NoSuchProgram)) [] [] in
  dirname (L "patients.csv") = []
  /\ fst (SetupPipeline.download_csv_from_github
            (L "https://github.com/your-org/healthcare-data")
            (L "data/patients.csv") (L "patients.csv") w) = Ret false.
Proof.
  intros w. split; [reflexivity|].
  apply (download_without_directory_part
           (L "https://github.com/your-org/healthcare-data")
           (L "data/patients.csv") (L "patients.csv") w).
  reflexivity.
Defined.

(** ** Rewriting the configuration *)

Lemma str_in_iff (t s : str) : str_in t s = true <-> occurs t s.
Proof. apply contains_iff, Ascii.eqb_spec. Qed.

Lemma str_in_false_iff (t s : str) : str_in t s = false <-> ~ occurs t s.
Proof. apply contains_false_iff, Ascii.eqb_spec. Qed.

Lemma project_token_cons : exists c rest, project_token = c :: rest.
Proof. now eexists _, _. Qed.

Lemma key_path_token_cons : exists c rest, key_path_token = c :: rest.
Proof. now eexists _, _. Qed.

Lemma str_replace_replaced (s value : str) (c : ascii) (rest : str) :
  replaced (c :: rest) value s (str_replace s (c :: rest) value).
Proof.
  exists (pieces Ascii.eqb (c :: rest) s). repeat split.
  - symmetry. apply join_pieces, Ascii.eqb_spec.
  - apply pieces_free, Ascii.eqb_spec.
  - apply replace_pieces.
Qed.

Lemma replace_placeholders_spec (content project_id key_file_path : str) :
  let between := str_replace content project_token project_id in
  let content' := replace_placeholders content project_id key_file_path in
  replaced project_token project_id content between
  /\ replaced key_path_token key_file_path between content'
  /\ (~ occurs project_token content -> ~ occurs key_path_token content ->
      content' = content).
Proof.
  cbv zeta. unfold replace_placeholders.
  destruct project_token_cons as [c1 [r1 E1]].
  destruct key_path_token_cons as [c2 [r2 E2]].
  rewrite E1, E2. repeat split; try apply str_replace_replaced.
  intros H1 H2. unfold str_replace.
  rewrite (@replace_absent _ Ascii.eqb Ascii.eqb_spec c1 r1 project_id content H1).
  apply (@replace_absent _ Ascii.eqb Ascii.eqb_spec). exact H2.
Qed.

Lemma lookup_some_cons (w : World) (path : str) (n : Node) :
  lookup w path = Some n -> exists c rest, path = c :: rest.
Proof. destruct path; [discriminate | now eexists _, _]. Qed.

(** [update_profiles_yml] on a file that is there, world and all. *)
Lemma quick_update_run (project_id key_file_path content : str) (w : World) :
  lookup w QuickSetup.profiles_file = Some (File content) ->
  QuickSetup.update_profiles_yml project_id key_file_path w
  = (Ret true,
     set_printed
       (printed w ++ [L "✅ Updated profiles.yml with:";
                      L "   Project ID: " ++ project_id;
                      L "   Key file: " ++ key_file_path])
       (set_files
          (update QuickSetup.profiles_file
             (File (replace_placeholders content project_id key_file_path))
             (files w))
          (set_probed (probed w ++ [QuickSetup.profiles_file]) w))).
Proof.
  intros E. unfold QuickSetup.update_profiles_yml.
  run; rewrite E; run; rewrite ?E; run.
  erewrite write_text_over by (autorewrite with world; exact E). run.
  now rewrite <- !app_assoc.
Qed.

Lemma gcp_update_run (project_id key_file_path content : str) (w : World) :
  let path := beside_path (host w) (L "profiles.yml") in
  lookup w path = Some (File content) ->
  SetupGcpLooker.update_profiles_yml project_id key_file_path w
  = (Ret true,
     set_printed
       (printed w ++ [nl ++ times (L "=") 60;
                      L "STEP " ++ decimal 5 ++ L ": "
                        ++ L "Updating dbt Configuration";
                      times (L "=") 60;
                      L "✅ Updated profiles.yml with project ID: " ++ project_id;
                      L "✅ Updated key file path: " ++ key_file_path])
       (set_files
          (update path
             (File (replace_placeholders content project_id key_file_path))
             (files w))
          (set_probed (probed w ++ [path]) w))).
Proof.
  cbv zeta. intros E.
  unfold SetupGcpLooker.update_profiles_yml, SetupGcpLooker.print_step.
  run; rewrite E; run; rewrite ?E; run.
  erewrite write_text_over by (autorewrite with world; exact E). run.
  now rewrite <- !app_assoc.
Qed.

(** C3 ([update_profiles_yml], both scripts).  Without the file the call
    returns [False] and leaves every file as it was.  With the file it
    returns [True], whether or not a token occurs in it, and writes back the
    content in which every occurrence of the project token found by the scan
    stands replaced by the project identifier and then every occurrence of
    the key-path token by the key path; a content without tokens is written
    back unchanged. *)
Theorem update_profiles_yml_rewrites (project_id key_file_path : str) (w : World) :
  rewrites (QuickSetup.update_profiles_yml project_id key_file_path)
    QuickSetup.profiles_file project_id key_file_path w
  /\ rewrites (SetupGcpLooker.update_profiles_yml project_id key_file_path)
       (beside_path (host w) (L "profiles.yml")) project_id key_file_path w.
Proof.
  pose proof replace_placeholders_spec as S.
  split; unfold rewrites.
  - unfold QuickSetup.update_profiles_yml. run.
    destruct (lookup w QuickSetup.profiles_file) as [[content|]|] eqn:E;
      run; rewrite ?E; run; auto.
    erewrite write_text_over by (autorewrite with world; exact E). run.
    eexists _, _. split; [reflexivity|]. split; [reflexivity|]. apply S.
  - unfold SetupGcpLooker.update_profiles_yml, SetupGcpLooker.print_step. run.
    destruct (lookup w _) as [[content|]|] eqn:E; run; rewrite ?E; run; auto.
    erewrite write_text_over by (autorewrite with world; exact E). run.
    eexists _, _. split; [reflexivity|]. split; [reflexivity|]. apply S.
Qed.

Lemma update_same (path : str) (n : Node) (f : str -> option Node) :
  update path n f path = Some n.
Proof.
  unfold update, str_eqb. now destruct (list_eq_dec ascii_dec path path).
Qed.

(** Two replacements in a row leave no token when the values written do not
    collide with the tokens they could complete. *)
Lemma replaced_twice_free (t1 v1 t2 v2 content between content' : str) :
  collides Ascii.eqb t1 v1 = false ->
  collides Ascii.eqb t1 v2 = false ->
  collides Ascii.eqb t2 v2 = false ->
  replaced t1 v1 content between ->
  replaced t2 v2 between content' ->
  str_in t1 content' = false /\ str_in t2 content' = false.
Proof.
  intros C11 C12 C22 [parts1 [_ [F1 ->]]] [parts2 [E2 [F2 ->]]].
  assert (~ occurs t1 (join v1 parts1)) as H1
    by (apply (@join_free _ Ascii.eqb Ascii.eqb_spec); assumption).
  split; apply str_in_false_iff, (@join_free _ Ascii.eqb Ascii.eqb_spec); try assumption.
  pose proof (join_parts_occur t2 parts2) as Ho. rewrite <- E2 in Ho.
  eapply Forall_impl; [|exact Ho]. intros g Hg Hocc.
  apply H1. eapply occurs_trans; eassumption.
Qed.

(** C8, as the code has it ([update_profiles_yml], both scripts).  After a
    successful rewrite the file holds neither token, provided the values
    written do not collide with the tokens: the project identifier with the
    project token, the key path with either token. *)
Theorem update_profiles_yml_resolves (project_id key_file_path : str) (w : World) :
  collides Ascii.eqb project_token project_id = false ->
  collides Ascii.eqb project_token key_file_path = false ->
  collides Ascii.eqb key_path_token key_file_path = false ->
  resolves (QuickSetup.update_profiles_yml project_id key_file_path)
    QuickSetup.profiles_file w
  /\ resolves (SetupGcpLooker.update_profiles_yml project_id key_file_path)
       (beside_path (host w) (L "profiles.yml")) w.
Proof.
  intros C11 C12 C22.
  split; intros content E.
  - rewrite (quick_update_run project_id key_file_path content w E).
    destruct (replace_placeholders_spec content project_id key_file_path)
      as [R1 [R2 _]].
    eexists. cbn [fst snd files set_printed set_files]. rewrite update_same.
    split; [reflexivity|]. split; [reflexivity|].
    exact (replaced_twice_free _ _ _ _ _ _ _ C11 C12 C22 R1 R2).
  - rewrite (gcp_update_run project_id key_file_path content w E).
    destruct (replace_placeholders_spec content project_id key_file_path)
      as [R1 [R2 _]].
    eexists. cbn [fst snd files set_printed set_files]. rewrite update_same.
    split; [reflexivity|]. split; [reflexivity|].
    exact (replaced_twice_free _ _ _ _ _ _ _ C11 C12 C22 R1 R2).
Qed.

Lemma update_profiles_yml_resolves_witness :
  let w := configured [] in
  let project_id := L "acme-health" in
  let key_file_path := L "/home/op/dbt-key.json" in
  (collides Ascii.eqb project_token project_id = false
   /\ collides Ascii.eqb project_token key_file_path = false
   /\ collides Ascii.eqb key_path_token key_file_path = false)
  /\ resolves (QuickSetup.update_profiles_yml project_id key_file_path)
       QuickSetup.profiles_file w
  /\ resolves (SetupGcpLooker.update_profiles_yml project_id key_file_path)
       (beside_path (host w) (L "profiles.yml")) w.
Proof.
  intros w project_id key_file_path.
  split; [repeat split; vm_compute; reflexivity|].
  apply (update_profiles_yml_resolves project_id key_file_path w);
    vm_compute; reflexivity.
Defined.

(** C8 as stated fails: [quick_setup.py], answered with a project identifier
    and an empty line for the key path, takes the key-path token itself as
    the value, succeeds with exit status 0 and leaves the token in the
    file. *)
Lemma placeholder_left_after_rewrite :
  let w := configured [L "acme-health"; L ""] in
  let r := python QuickSetup.script w in
  fst r = 0%Z
  /\ exists content',
       files (snd r) QuickSetup.profiles_file = Some (File content')
       /\ str_in key_path_token content' = true.
Proof.
  vm_compute. split; [reflexivity|]. eexists. split; reflexivity.
Qed.

(** ** One scan and two *)

Lemma replace_hit (o : ascii) (old' new : str) (c : ascii) (s' : str) :
  startswith Ascii.eqb (o :: old') (c :: s') = true ->
  replace Ascii.eqb (o :: old') new (c :: s')
  = new ++ replace Ascii.eqb (o :: old') new (skipn (length old') s').
Proof. intros H. simp replace. rewrite H. reflexivity. Qed.

Lemma replace_miss (o : ascii) (old' new : str) (c : ascii) (s' : str) :
  startswith Ascii.eqb (o :: old') (c :: s') = false ->
  replace Ascii.eqb (o :: old') new (c :: s')
  = c :: replace Ascii.eqb (o :: old') new s'.
Proof. intros H. simp replace. rewrite H. reflexivity. Qed.

Lemma occurs_skipn (t s : str) (n : nat) : occurs t (skipn n s) -> occurs t s.
Proof.
  intros H. rewrite <- (firstn_skipn n s). now apply occurs_app_r.
Qed.

(** Where the second token does not occur, the one scan for both tokens is
    the scan for the first. *)
Lemma replace_both_absent (o : ascii) (old' v1 t2 v2 s : str) :
  ~ occurs t2 s ->
  replace_both Ascii.eqb (o :: old') v1 t2 v2 s
  = replace Ascii.eqb (o :: old') v1 s.
Proof.
  funelim (replace_both Ascii.eqb (o :: old') v1 t2 v2 s); intros Hn.
  - now simp replace.
  - rewrite replace_hit by assumption. f_equal.
    cbn [length Nat.sub] in *. rewrite ?Nat.sub_0_r in *. apply H.
    intros Ho. apply Hn. apply (occurs_app_r _ [c]). eapply occurs_skipn, Ho.
  - exfalso. apply Hn.
    apply (@startswith_iff _ Ascii.eqb Ascii.eqb_spec) in Heq as [r ->].
    now exists [], r.
  - rewrite replace_miss by assumption. f_equal. apply H.
    intros [a [b ->]]. apply Hn. now exists (c :: a), b.
Qed.

(** A text in which the token occurs has more than one piece. *)
Lemma pieces_two (o : ascii) (old' s : str) :
  occurs (o :: old') s -> 2 <= length (pieces Ascii.eqb (o :: old') s).
Proof.
  intros Ho.
  pose proof (@join_pieces _ Ascii.eqb Ascii.eqb_spec (o :: old') s) as Hj.
  pose proof (@pieces_free _ Ascii.eqb Ascii.eqb_spec o old' s) as Hf.
  destruct (pieces Ascii.eqb (o :: old') s) as [|g [|g' rest]] eqn:E.
  - now apply pieces_not_nil in E.
  - cbn in Hj. subst g. inversion Hf; subst. contradiction.
  - cbn [length]. lia.
Qed.

Lemma join_between (sep : str) (parts : list str) :
  2 <= length parts -> occurs sep (join sep parts).
Proof.
  destruct parts as [|g [|g' rest]]; cbn [length]; try lia. intros _.
  exists g, (join sep (g' :: rest)). reflexivity.
Qed.

(** C9 (the two [replace] lines of [update_profiles_yml]).  The project
    token is replaced first and the key-path token second, in the text that
    the first replacement returned: there is one text in between, made from
    the content by replacing the project token, from which the result is
    made by replacing the key-path token.  Consequently a project identifier
    that holds the key-path token is rewritten after it has been written.
    For a content in which the project token occurs and the key-path token
    does not, replacing both tokens in one scan puts the identifier, as it
    is, in the place of the project tokens; the two replacements in a row
    return that text with every key-path token in it replaced, which is
    another text unless the key path is the key-path token. *)
Theorem replace_placeholders_in_sequence
    (content project_id key_file_path : str) :
  let result := replace_placeholders content project_id key_file_path in
  let simultaneous :=
    replace_both Ascii.eqb project_token project_id
      key_path_token key_file_path content in
  (exists between,
     replaced project_token project_id content between
     /\ replaced key_path_token key_file_path between result)
  /\ (occurs project_token content ->
      ~ occurs key_path_token content ->
      occurs key_path_token project_id ->
      key_file_path <> key_path_token ->
      replaced project_token project_id content simultaneous
      /\ occurs project_id simultaneous
      /\ replaced key_path_token key_file_path simultaneous result
      /\ (exists parts,
            simultaneous = join key_path_token parts
            /\ result = join key_file_path parts
            /\ 2 <= length parts)
      /\ result <> simultaneous).
Proof.
  cbn zeta.
  destruct (replace_placeholders_spec content project_id key_file_path)
    as (R1 & R2 & _).
  split; [eexists; split; [exact R1 | exact R2]|].
  intros Hp Hk Hid Hne.
  destruct project_token_cons as (c1 & r1 & E1).
  destruct key_path_token_cons as (c2 & r2 & E2).
  assert (replace_both Ascii.eqb project_token project_id
            key_path_token key_file_path content
          = str_replace content project_token project_id) as ->
    by (rewrite E1; now apply replace_both_absent).
  assert (occurs project_id (str_replace content project_token project_id))
    as Hin.
  { unfold str_replace. rewrite E1 in *.
    rewrite (@replace_pieces _ Ascii.eqb). now apply join_between, pieces_two. }
  assert (occurs key_path_token (str_replace content project_token project_id))
    as Hkin by (eapply occurs_trans; eassumption).
  split; [exact R1|]. split; [exact Hin|]. split; [exact R2|].
  unfold replace_placeholders. rewrite E2 in *.
  split.
  - exists (pieces Ascii.eqb (c2 :: r2)
              (str_replace content project_token project_id)).
    split; [symmetry; apply (@join_pieces _ Ascii.eqb Ascii.eqb_spec)|].
    split; [apply (@replace_pieces _ Ascii.eqb) | now apply pieces_two].
  - now apply (@replace_changes _ Ascii.eqb Ascii.eqb_spec).
Qed.

Lemma replace_placeholders_in_sequence_witness :
  let content := L "project: your-gcp-project-id" in
  let project_id := L "x" ++ key_path_token in
  let key_file_path := L "/home/op/dbt-key.json" in
  replace_placeholders content project_id key_file_path
  <> replace_both Ascii.eqb project_token project_id
       key_path_token key_file_path content.
Proof.
  cbn zeta.
  refine (proj2 (proj2 (proj2 (proj2
            (proj2 (replace_placeholders_in_sequence
                      (L "project: your-gcp-project-id")
                      (L "x" ++ key_path_token) (L "/home/op/dbt-key.json"))
               _ _ _ _))))).
  - now exists (L "project: "), [].
  - apply str_in_false_iff. vm_compute. reflexivity.
  - now exists (L "x"), [].
  - intros E. apply (f_equal (@length ascii)) in E. vm_compute in E.
    discriminate.
Defined.

(** ** The loops *)

Lemma play_app (h : Host) (history : list (Command * Spawn))
    (a b : list Command) :
  play h history (a ++ b)
  = play h history a ++ play h (history ++ play h history a) b.
Proof.
  revert history. induction a as [|c a IH]; intros history; simpl.
  - now rewrite app_nil_r.
  - rewrite IH, <- app_assoc. reflexivity.
Qed.

(** [run_command] by the end of the child. *)
Lemma run_command_zero (command description : str) (c : Completed) (w : World) :
  spawn (host w) (ran w) (Shell command) = Exited c ->
  returncode c = 0%Z ->
  SetupPipeline.run_command command description w
  = (Ret (Some (stdout c)),
     set_printed
       (printed w ++ [L "🔄 " ++ description ++ L "...";
                      L "✅ " ++ description ++ L " completed successfully"])
       (set_ran (ran w ++ [(Shell command, Exited c)]) w)).
Proof.
  intros Hc Hz. unfold SetupPipeline.run_command. run.
  rewrite Hc. apply Z.eqb_eq in Hz. rewrite Hz. run.
  now rewrite <- app_assoc.
Qed.

Lemma run_command_nonzero (command description : str) (c : Completed) (w : World) :
  spawn (host w) (ran w) (Shell command) = Exited c ->
  returncode c <> 0%Z ->
  SetupPipeline.run_command command description w
  = (Ret None,
     set_printed
       (printed w ++ [L "🔄 " ++ description ++ L "...";
                      L "❌ " ++ description ++ L " failed: " ++ stderr c])
       (set_ran (ran w ++ [(Shell command, Exited c)]) w)).
Proof.
  intros Hc Hz. unfold SetupPipeline.run_command. run.
  rewrite Hc. apply Z.eqb_neq in Hz. rewrite Hz. run.
  now rewrite <- app_assoc.
Qed.

Lemma run_steps_all (steps : list (str * str)) (w : World) :
  let r := SetupPipeline.run_steps steps w in
  let events := play (host w) (ran w) (map step_command steps) in
  Forall succeeded events ->
  fst r = Ret true /\ ran (snd r) = ran w ++ events.
Proof.
  revert w. induction steps as [|[command description] rest IH]; intros w; cbn zeta.
  - intros _. simpl. run. now rewrite app_nil_r.
  - simpl. change (step_command (command, description)) with (Shell command).
    intros H. apply Forall_cons_iff in H as [[c [Hc Hz]] Hrest].
    simpl in Hc. unfold bind.
    rewrite (run_command_zero _ description _ _ Hc Hz).
    rewrite Hc in Hrest.
    match goal with |- context [SetupPipeline.run_steps rest ?w1] =>
      specialize (IH w1) end.
    cbn zeta in IH. cbn [host ran set_printed set_ran] in IH.
    destruct (IH Hrest) as [-> ->]. rewrite Hc.
    split; [reflexivity|]. now rewrite <- app_assoc.
Qed.

Lemma run_steps_stop (before : list (str * str)) (step : str * str)
    (after : list (str * str)) (c : Completed) (w : World) :
  let r := SetupPipeline.run_steps (before ++ step :: after) w in
  let done := play (host w) (ran w) (map step_command before) in
  Forall succeeded done ->
  spawn (host w) (ran w ++ done) (step_command step) = Exited c ->
  returncode c <> 0%Z ->
  fst r = Ret false
  /\ ran (snd r) = ran w ++ done ++ [(step_command step, Exited c)]
  /\ last (printed (snd r)) [] = L "❌ Pipeline failed at: " ++ snd step.
Proof.
  revert w. induction before as [|[command description] rest IH]; intros w; cbn zeta.
  - simpl. rewrite app_nil_r. intros _ Hc Hz. destruct step as [command description].
    unfold step_command in *; simpl in *.
    unfold bind. rewrite (run_command_nonzero _ description _ _ Hc Hz). run.
    split; [reflexivity|]. split; [reflexivity|]. apply last_last.
  - simpl. change (step_command (command, description)) with (Shell command).
    intros H Hc Hz. apply Forall_cons_iff in H as [[c0 [Hc0 Hz0]] Hrest].
    simpl in Hc0. unfold bind.
    rewrite (run_command_zero _ description _ _ Hc0 Hz0).
    rewrite Hc0 in Hrest, Hc.
    match type of Hc with context [ran w ++ ?e :: ?X] =>
      replace (ran w ++ e :: X) with ((ran w ++ [e]) ++ X) in Hc
        by (now rewrite <- app_assoc) end.
    match goal with |- context [SetupPipeline.run_steps _ ?w1] =>
      specialize (IH w1) end.
    cbn zeta in IH. cbn [host ran set_printed set_ran] in IH.
    destruct (IH Hrest Hc Hz) as [-> [-> ->]]. rewrite Hc0.
    split; [reflexivity|]. split; [|reflexivity]. now rewrite <- !app_assoc.
Qed.

(** C2 ([run_dbt_pipeline], for any list of steps).  In a project directory
    the steps are run in the order given.  When all of them succeed the
    call returns [True] and the commands attempted are those of all the
    steps.  When the steps before one succeed and that one ends with a
    non-zero status, the call returns [False], its last line names that
    step, and the commands attempted are those up to that step: none of the
    later ones. *)
Theorem run_pipeline_stops_at_first_failure (steps : list (str * str)) (w : World) :
  lookup w (L "my_project") = Some Dir ->
  let r := SetupPipeline.run_pipeline steps w in
  (Forall succeeded (play (host w) (ran w) (map step_command steps)) ->
   fst r = Ret true
   /\ ran (snd r) = ran w ++ play (host w) (ran w) (map step_command steps))
  /\ (forall before step after c,
        steps = before ++ step :: after ->
        let done := play (host w) (ran w) (map step_command before) in
        Forall succeeded done ->
        spawn (host w) (ran w ++ done) (step_command step) = Exited c ->
        returncode c <> 0%Z ->
        fst r = Ret false
        /\ ran (snd r) = ran w ++ done ++ [(step_command step, Exited c)]
        /\ last (printed (snd r)) [] = L "❌ Pipeline failed at: " ++ snd step).
Proof.
  intros Hdir. cbn zeta. unfold SetupPipeline.run_pipeline. run.
  rewrite Hdir. run.
  match goal with |- context [SetupPipeline.run_steps steps ?w1] =>
    set (w' := w1) end.
  split.
  - intros H. apply (run_steps_all steps w'). exact H.
  - intros before step after c -> H Hc Hz.
    apply (run_steps_stop before step after c w'); assumption.
Qed.

Lemma run_pipeline_stops_at_first_failure_witness :
  let r := SetupPipeline.run_dbt_pipeline failing_models in
  lookup failing_models (L "my_project") = Some Dir
  /\ fst r = Ret false
  /\ ran (snd r) = [(Shell (L "dbt deps"), exit_with 0 []);
                    (Shell (L "dbt seed"), exit_with 0 []);
                    (Shell (L "dbt run"), exit_with 2 (L "Compilation Error"))]
  /\ last (printed (snd r)) [] = L "❌ Pipeline failed at: Running dbt models".
Proof.
  cbn zeta. split; [reflexivity|].
  refine (proj2 (run_pipeline_stops_at_first_failure
                   SetupPipeline.commands failing_models eq_refl)
            [(L "dbt deps", L "Installing dbt dependencies");
             (L "dbt seed", L "Loading CSV seed data")]
            (L "dbt run", L "Running dbt models")
            [(L "dbt test", L "Running dbt tests");
             (L "dbt docs generate", L "Generating documentation")]
            {| returncode := 2; stdout := []; stderr := L "Compilation Error" |}
            eq_refl _ eq_refl _).
  - repeat constructor; eexists; split; reflexivity.
  - discriminate.
Defined.

Lemma subprocess_run_zero (cmd : Command) (capture_output : bool)
    (c : Completed) (w : World) :
  spawn (host w) (ran w) cmd = Exited c ->
  returncode c = 0%Z ->
  subprocess_run cmd capture_output true w
  = (Ret {| cp_returncode := returncode c;
            cp_stdout := captured capture_output (stdout c);
            cp_stderr := captured capture_output (stderr c) |},
     set_ran (ran w ++ [(cmd, Exited c)]) w).
Proof.
  intros Hc Hz. unfold subprocess_run. rewrite Hc.
  apply Z.eqb_eq in Hz. rewrite Hz. reflexivity.
Qed.

Lemma subprocess_run_nonzero (cmd : Command) (capture_output : bool)
    (c : Completed) (w : World) :
  spawn (host w) (ran w) cmd = Exited c ->
  returncode c <> 0%Z ->
  subprocess_run cmd capture_output true w
  = (Raise (CalledProcessError cmd (returncode c)
              (captured capture_output (stdout c))
              (captured capture_output (stderr c))),
     set_ran (ran w ++ [(cmd, Exited c)]) w).
Proof.
  intros Hc Hz. unfold subprocess_run. rewrite Hc.
  apply Z.eqb_neq in Hz. rewrite Hz. reflexivity.
Qed.

(** Unfolds the monad around a call of [subprocess_run] that stays folded. *)
Ltac around :=
  unfold bind, try_except, ret, raise, print, str_of;
  cbn [fst snd host files stdin cwd ran probed printed
       set_files set_stdin set_cwd set_ran set_probed set_printed].

(** One turn of the loop of [setup_bigquery_datasets]. *)
Lemma create_datasets_pass (project_id dataset : str) (rest : list str)
    (sp : Spawn) (w : World) :
  spawn (host w) (ran w) (SetupGcpLooker.dataset_command project_id dataset) = sp ->
  passes (host w) (SetupGcpLooker.dataset_command project_id dataset, sp) ->
  exists w',
    SetupGcpLooker.create_datasets project_id (dataset :: rest) w
    = SetupGcpLooker.create_datasets project_id rest w'
    /\ host w' = host w
    /\ ran w' = ran w ++ [(SetupGcpLooker.dataset_command project_id dataset, sp)].
Proof.
  intros Hsp [[c [Hc Hz]] | [c [Hc [Hz Ht]]]]; simpl in Hc; subst sp;
    cbn [SetupGcpLooker.create_datasets]; around.
  - rewrite (subprocess_run_zero _ false _ _ Hc Hz). around.
    eexists. split; [reflexivity|]. rewrite Hc. split; reflexivity.
  - rewrite (subprocess_run_nonzero _ false _ _ Hc Hz). around.
    unfold error_text in Ht. cbn [fst captured] in *. rewrite Ht. around.
    eexists. split; [reflexivity|]. rewrite Hc. split; reflexivity.
Qed.

Lemma create_datasets_stop (project_id dataset : str) (rest : list str)
    (c : Completed) (w : World) :
  let cmd := SetupGcpLooker.dataset_command project_id dataset in
  let r := SetupGcpLooker.create_datasets project_id (dataset :: rest) w in
  spawn (host w) (ran w) cmd = Exited c ->
  returncode c <> 0%Z ->
  str_in (L "already exists") (error_text (host w) cmd (returncode c)) = false ->
  fst r = Ret false
  /\ ran (snd r) = ran w ++ [(cmd, Exited c)]
  /\ last (printed (snd r)) []
     = L "❌ Failed to create dataset " ++ dataset ++ L ": "
         ++ error_text (host w) cmd (returncode c).
Proof.
  cbn zeta. intros Hc Hz Ht.
  cbn [SetupGcpLooker.create_datasets]; around.
  rewrite (subprocess_run_nonzero _ false _ _ Hc Hz). around.
  unfold error_text in *. cbn [fst captured] in *. rewrite Ht. around.
  split; [reflexivity|]. split; [reflexivity|]. apply last_last.
Qed.

(** C1 ([setup_bigquery_datasets], for any list of dataset names): a defect
    of the code.  The handler looks for "already exists" in [str(e)], the
    text of the exception, which is made of the command line and the exit
    status; what the command reports about its failure is not in it.  So a
    creation that fails and reports that the dataset already exists is not
    let pass.  Whenever the commands before it pass, a creation ends with a
    status other than zero, "already exists" stands in what it reports and
    not in the text of the exception, the call returns [False], the
    commands attempted are those up to that name, none of the later ones,
    and the last line printed gives the text of the exception as the
    reason. *)
Theorem create_datasets_misses_already_exists
    (project_id : str) (before : list str) (dataset : str) (after : list str)
    (c : Completed) (w : World) :
  let cmd := SetupGcpLooker.dataset_command project_id in
  let r :=
    SetupGcpLooker.create_datasets project_id (before ++ dataset :: after) w in
  let done := play (host w) (ran w) (map cmd before) in
  Forall (passes (host w)) done ->
  spawn (host w) (ran w ++ done) (cmd dataset) = Exited c ->
  returncode c <> 0%Z ->
  str_in (L "already exists") (stderr c) = true ->
  str_in (L "already exists")
    (error_text (host w) (cmd dataset) (returncode c)) = false ->
  fst r = Ret false
  /\ ran (snd r) = ran w ++ done ++ [(cmd dataset, Exited c)]
  /\ last (printed (snd r)) []
     = L "❌ Failed to create dataset " ++ dataset ++ L ": "
         ++ error_text (host w) (cmd dataset) (returncode c).
Proof.
  cbn zeta. revert w.
  induction before as [|first rest IH]; intros w H Hc Hz Hsaid Ht.
  - cbn [map play app] in *. rewrite app_nil_r in Hc.
    apply (create_datasets_stop _ _ after _ _ Hc Hz Ht).
  - cbn [map play] in H. apply Forall_cons_iff in H as [Hp Hrest].
    cbn [app map play] in Hc.
    match type of Hc with context [ran w ++ ?e :: ?X] =>
      replace (ran w ++ e :: X) with ((ran w ++ [e]) ++ X) in Hc
        by (now rewrite <- app_assoc) end.
    cbn [app].
    destruct (create_datasets_pass _ _ (rest ++ dataset :: after) _ _ eq_refl Hp)
      as [w' [-> [Hh Hr]]].
    rewrite <- Hr in Hrest, Hc. rewrite <- Hh in Hrest, Hc, Ht.
    destruct (IH w' Hrest Hc Hz Hsaid Ht) as (-> & -> & ->).
    split; [reflexivity|]. rewrite Hh, Hr, <- !app_assoc.
    split; reflexivity.
Qed.

Lemma create_datasets_misses_already_exists_witness :
  let said :=
    L "BigQuery error in mk operation: Dataset 'acme-health:healthcare_data_dev' already exists." in
  let r :=
    SetupGcpLooker.create_datasets (L "acme-health") SetupGcpLooker.datasets
      datasets_there in
  str_in (L "already exists") said = true
  /\ fst r = Ret false
  /\ ran (snd r)
     = [(SetupGcpLooker.dataset_command (L "acme-health")
           (L "healthcare_data_dev"),
         exit_with 1 said)]
  /\ last (printed (snd r)) []
     = L "❌ Failed to create dataset healthcare_data_dev: Command '['bq', 'mk', '--dataset', '--location=US', 'acme-health:healthcare_data_dev']' returned non-zero exit status 1."
  /\ fst (python SetupGcpLooker.script datasets_there) = 1%Z
  /\ length (ran (snd (python SetupGcpLooker.script datasets_there))) = 4.
Proof.
  cbn zeta. split; [vm_compute; reflexivity|].
  destruct (create_datasets_misses_already_exists (L "acme-health") []
              (L "healthcare_data_dev") [L "healthcare_data_prod"]
              {| returncode := 1; stdout := [];
                 stderr := L "BigQuery error in mk operation: Dataset 'acme-health:healthcare_data_dev' already exists." |}
              datasets_there (Forall_nil _) eq_refl)
    as (H1 & H2 & H3).
  - discriminate.
  - vm_compute. reflexivity.
  - vm_compute. reflexivity.
  - cbn [app] in H1, H2, H3. unfold SetupGcpLooker.datasets.
    split; [exact H1|]. split; [exact H2|].
    split; [rewrite H3; vm_compute; reflexivity|].
    split; vm_compute; reflexivity.
Defined.


(** One turn of the loop of [create_service_account]. *)
Lemma grant_roles_turn (project_id email role : str) (rest : list str)
    (c : Completed) (w : World) :
  let cmd := SetupGcpLooker.binding_command project_id email role in
  spawn (host w) (ran w) cmd = Exited c ->
  SetupGcpLooker.grant_roles project_id email (role :: rest) w
  = SetupGcpLooker.grant_roles project_id email rest
      (set_printed (printed w ++ [role_report (host w) (role, (cmd, Exited c))])
         (set_ran (ran w ++ [(cmd, Exited c)]) w)).
Proof.
  cbn zeta. intros Hc. cbn [SetupGcpLooker.grant_roles]. around.
  unfold role_report, error_text. cbn [fst snd].
  destruct (Z.eqb_spec (returncode c) 0) as [Hz|Hz].
  - rewrite (subprocess_run_zero _ false _ _ Hc Hz). around. reflexivity.
  - rewrite (subprocess_run_nonzero _ false _ _ Hc Hz). around. reflexivity.
Qed.

(** C4 (the loop over the roles in [create_service_account], for any list of
    roles).  When every binding command starts a child, however the children
    end, the loop comes to its end without raising, a command was attempted
    for every role in the order given, and one line is printed per role, a
    failure being reported with its text. *)
Theorem grant_roles_attempts_every_role
    (project_id email : str) (roles : list str) (w : World) :
  let r := SetupGcpLooker.grant_roles project_id email roles w in
  let events :=
    play (host w) (ran w)
      (map (SetupGcpLooker.binding_command project_id email) roles) in
  Forall started events ->
  fst r = Ret tt
  /\ ran (snd r) = ran w ++ events
  /\ printed (snd r)
     = printed w ++ map (role_report (host w)) (combine roles events).
Proof.
  cbn zeta. revert w. induction roles as [|role rest IH]; intros w H.
  - cbn. now rewrite !app_nil_r.
  - cbn [map play] in H. apply Forall_cons_iff in H as [[c Hc] Hrest].
    cbn [snd] in Hc. rewrite Hc in Hrest.
    rewrite (grant_roles_turn _ _ _ rest _ _ Hc).
    match goal with |- context [SetupGcpLooker.grant_roles _ _ rest ?w1] =>
      specialize (IH w1) end.
    cbn [host ran printed set_printed set_ran] in IH.
    destruct (IH Hrest) as [-> [-> ->]].
    cbn [map play combine]. rewrite Hc.
    split; [reflexivity|]. split; now rewrite <- app_assoc.
Qed.

Lemma grant_roles_attempts_every_role_witness :
  let w := fresh (host_of (by_subcommand [(L "projects", exit_with 1 (L "PERMISSION_DENIED"))])) [] [] in
  let r := SetupGcpLooker.grant_roles (L "acme-health")
             (L "dbt-healthcare-service@acme-health.iam.gserviceaccount.com")
             SetupGcpLooker.roles w in
  fst r = Ret tt /\ length (ran (snd r)) = 4 /\ length (printed (snd r)) = 4.
Proof.
  cbn zeta.
  destruct (grant_roles_attempts_every_role (L "acme-health")
              (L "dbt-healthcare-service@acme-health.iam.gserviceaccount.com")
              SetupGcpLooker.roles
              (fresh (host_of (by_subcommand [(L "projects", exit_with 1 (L "PERMISSION_DENIED"))])) [] []))
    as [H1 [H2 H3]].
  - unfold SetupGcpLooker.roles. cbn [map play].
    repeat apply Forall_cons; try apply Forall_nil; eexists; reflexivity.
  - split; [exact H1|]. split; [rewrite H2 | rewrite H3]; reflexivity.
Defined.

(** ** Errors and the end of a run *)


(** *** Attempts and lines *)

Lemma clean_nil (h : Host) : clean h [].
Proof. constructor. Qed.

Lemma clean_one (h : Host) (e : Command * Spawn) :
  fatal h e = false -> clean h [e].
Proof. intros H. repeat constructor. exact H. Qed.

Lemma clean_app (h : Host) (a b : list (Command * Spawn)) :
  clean h a -> clean h b -> clean h (a ++ b).
Proof. intros Ha Hb. apply Forall_app. now split. Qed.

Lemma tidy_nil (h : Host) : tidy h [].
Proof. intros [|? ?] e after E; discriminate. Qed.

Lemma tidy_one (h : Host) (e : Command * Spawn) : tidy h [e].
Proof.
  intros [|x [|y before]] e' after E _; try discriminate.
  now injection E as _ <-.
Qed.

Lemma clean_tidy_app (h : Host) (a b : list (Command * Spawn)) :
  clean h a -> tidy h b -> tidy h (a ++ b).
Proof.
  intros Ha Hb before e after E Hf.
  apply app_eq_app in E as [l [[-> E] | [-> E]]].
  - (* [e] lies in [a], or it is the first of [b] *)
    destruct l as [|x l].
    + simpl in E. apply (Hb [] e after (eq_sym E) Hf).
    + injection E as -> ->.
      apply Forall_app in Ha as [_ Ha].
      apply Forall_cons_iff in Ha as [Ha _]. congruence.
  - (* [e] lies in [b] *)
    apply (Hb l e after E Hf).
Qed.

Lemma clean_tidy (h : Host) (a : list (Command * Spawn)) :
  clean h a -> tidy h a.
Proof.
  intros Ha. rewrite <- (app_nil_r a). apply clean_tidy_app; [exact Ha|].
  apply tidy_nil.
Qed.

Lemma marked_app (a b : list str) : marked b = true -> marked (a ++ b) = true.
Proof.
  unfold marked. rewrite rev_app_distr.
  destruct (rev b); [discriminate | tauto].
Qed.

Lemma marked_surfaced (a : list str) : marked a = true -> surfaced a = true.
Proof.
  unfold marked, surfaced, has_mark. destruct (rev a) as [|x [|y r]]; simpl;
    try discriminate; intros ->; reflexivity.
Qed.

Lemma surfaced_app (a b : list str) :
  surfaced b = true -> surfaced (a ++ b) = true.
Proof.
  unfold surfaced. rewrite rev_app_distr.
  destruct (rev b) as [|x [|y r]]; simpl; try discriminate.
  - rewrite orb_false_r. intros ->. reflexivity.
  - intros H. exact H.
Qed.

(** *** Rules *)

Lemma obeys_weaken {A} (c : M A) (Q Q' : Post A) :
  obeys c Q -> (forall h r ev l, Q h r ev l -> Q' h r ev l) -> obeys c Q'.
Proof.
  intros Hc HQ w. destruct (Hc w) as (ev & l & Hh & Hr & Hp & H).
  exists ev, l. auto.
Qed.

Lemma obeys_ret {A} (a : A) (Q : Post A) :
  (forall h, Q h (Ret a) [] []) -> obeys (ret a) Q.
Proof.
  intros H w. exists [], []. cbn. rewrite !app_nil_r. auto.
Qed.


Lemma obeys_bind {A B} (c : M A) (k : A -> M B) (Q1 : Post A) (Q : Post B) :
  obeys c Q1 ->
  (forall h e ev l, Q1 h (Raise e) ev l -> Q h (Raise e) ev l) ->
  (forall a,
     obeys (k a)
       (fun h r ev2 l2 =>
          forall ev1 l1, Q1 h (Ret a) ev1 l1 -> Q h r (ev1 ++ ev2) (l1 ++ l2))) ->
  obeys (bind c k) Q.
Proof.
  intros Hc Hraise Hk w. unfold bind.
  destruct (Hc w) as (ev1 & l1 & Hh1 & Hr1 & Hp1 & H1).
  destruct (c w) as [[a|e] w1]; cbn [fst snd] in *.
  - destruct (Hk a w1) as (ev2 & l2 & Hh2 & Hr2 & Hp2 & H2).
    exists (ev1 ++ ev2), (l1 ++ l2).
    rewrite Hh2, Hr2, Hp2, Hh1, Hr1, Hp1, !app_assoc.
    repeat split. rewrite Hh1 in H2. apply H2. exact H1.
  - exists ev1, l1. auto.
Qed.

Lemma obeys_print {B} (s : str) (k : M B) (Q : Post B) :
  obeys k (fun h r ev l => Q h r ev (s :: l)) ->
  obeys (bind (print s) (fun _ => k)) Q.
Proof.
  intros Hk w. unfold bind, print. cbn [fst snd].
  destruct (Hk (set_printed (printed w ++ [s]) w)) as (ev & l & Hh & Hr & Hp & H).
  exists ev, (s :: l). cbn [host ran printed set_printed] in *.
  rewrite Hh, Hr, Hp, <- app_assoc. auto.
Qed.


(** *** The steps of [setup_pipeline.py] *)

(** Solves [l = base ++ ?x] for the records of a run. *)
Ltac log :=
  cbn [host ran printed set_files set_stdin set_cwd set_ran set_probed
       set_printed fst snd];
  first [ exact (eq_sym (app_nil_r _))
        | rewrite <- ?app_assoc; reflexivity ].

(** Names the attempts and the lines of a run that has been run. *)
Ltac sum_up :=
  do 2 eexists; split; [log|]; split; [log|]; split; [log|].

(** Evaluates the tests on the shape of commands. *)
Ltac shapes :=
  repeat match goal with
    | |- context [begins ?ws ?c] =>
        let b := eval vm_compute in (begins ws c) in
        change (begins ws c) with b
    | |- context [startswith Ascii.eqb (L ?p) (L ?s)] =>
        let b := eval vm_compute in (startswith Ascii.eqb (L p) (L s)) in
        change (startswith Ascii.eqb (L p) (L s)) with b
    end.

(** Finds the cross mark on the last line. *)
Ltac mark :=
  try apply marked_app; vm_compute; reflexivity.

Lemma fatal_zero (h : Host) (cmd : Command) (c : Completed) :
  (returncode c =? 0)%Z = true -> fatal h (cmd, Exited c) = false.
Proof. intros Hz. unfold fatal, failed. cbn [snd]. now rewrite Hz. Qed.



Lemma careful_prefix {A} (good : A -> bool) (speaks : bool) (h : Host)
    (r : Res A) (ev1 ev2 : list (Command * Spawn)) (l1 l2 : list str) :
  clean h ev1 ->
  careful good speaks h r ev2 l2 ->
  careful good speaks h r (ev1 ++ ev2) (l1 ++ l2).
Proof.
  intros H1. unfold careful. destruct r as [a|e].
  - destruct (good a).
    + now apply clean_app.
    + intros [H2 Hm]. split; [now apply clean_tidy_app|].
      intros Hs. apply marked_app. auto.
  - intros [H2 He]. split; [now apply clean_tidy_app | exact He].
Qed.

Lemma surfaced_cons (s : str) (b : list str) :
  surfaced b = true -> surfaced (s :: b) = true.
Proof. apply (surfaced_app [s] b). Qed.

(** Looks for the report among the last lines. *)
Ltac surface :=
  rewrite ?app_nil_r;
  solve [ vm_compute; reflexivity
        | apply marked_surfaced; auto
        | apply surfaced_app; surface
        | apply surfaced_cons; surface ].

(** Puts the attempts of a run together. *)
Ltac gather :=
  rewrite ?app_nil_r;
  solve [ auto using clean_nil, tidy_nil, clean_tidy
        | apply clean_app; gather
        | apply clean_tidy_app; gather ].






Lemma obeys_ext {A} (c c' : M A) (Q : Post A) :
  (forall w, c w = c' w) -> obeys c' Q -> obeys c Q.
Proof. intros E H w. rewrite E. apply H. Qed.



Lemma ending_exception (h : Host) (e : Exn)
    (ev : list (Command * Spawn)) (l : list str) :
  is_Exception e = true -> tidy h ev -> ending h (Raise e) ev l.
Proof. destruct e; cbn; auto; discriminate. Qed.

(** Settles what a script is held to at one of its ends. *)
Ltac leaf :=
  intros;
  repeat match goal with
    | H : negb ?b = _ |- _ =>
        is_var b; destruct b; cbn [negb] in H; try discriminate H; clear H
    end;
  unfold careful, ending, concluding in *; cbn [negb truthy fst snd] in *;
  repeat match goal with
    | H : _ /\ _ |- _ => destruct H
    | H : exists _, _ |- _ => destruct H
    | H : Ret _ = Ret _ |- _ => injection H as H
    end;
  subst; cbn [app Z.eqb] in *;
  try discriminate;
  first [ gather
        | split; [gather | surface]
        | split; [gather | assumption]
        | apply ending_exception; [assumption | gather] ].







(** *** The steps of [setup_gcp_looker.py] *)

Lemma fatal_excused (h : Host) (e : Command * Spawn) :
  excused h e = true -> fatal h e = false.
Proof. unfold fatal. intros ->. apply andb_false_r. Qed.

Lemma excused_creation (h : Host) (cmd : Command) (c : Completed) :
  is_creation cmd = true ->
  str_in (L "already exists") (error_text h cmd (returncode c)) = true ->
  excused h (cmd, Exited c) = true.
Proof.
  intros Hk Ht. unfold excused, excused_as_stated. cbn [fst snd].
  now rewrite Hk, Ht.
Qed.

Lemma excused_binding (h : Host) (cmd : Command) (c : Completed) :
  is_binding cmd = true -> excused h (cmd, Exited c) = true.
Proof.
  intros Hk. unfold excused, excused_as_stated. cbn [fst snd].
  rewrite Hk. now rewrite orb_true_r.
Qed.

Lemma excused_argv (h : Host) (args : list str) (c : Completed) :
  begins [L "gcloud"; L "auth"; L "list"] (Argv args)
  || begins [L "dbt"; L "debug"] (Argv args) = true ->
  excused h (Argv args, Exited c) = true.
Proof.
  intros Hk. unfold excused. cbn [fst snd]. rewrite Hk. apply orb_true_r.
Qed.

(** Settles that an attempt is not fatal. *)
Ltac harmless :=
  solve [ apply fatal_zero; assumption
        | apply fatal_excused, excused_binding; vm_compute; reflexivity
        | apply fatal_excused, excused_argv; vm_compute; reflexivity
        | apply fatal_excused, excused_creation;
            [vm_compute; reflexivity | assumption] ].

(** Settles [clean] and [tidy] for attempts written out. *)
Ltac attempts :=
  solve [ apply clean_nil
        | apply tidy_nil
        | apply tidy_one
        | apply clean_one; harmless
        | apply (clean_app _ [_]); [apply clean_one; harmless | attempts]
        | apply (clean_tidy_app _ [_]); [apply clean_one; harmless | attempts] ].

Lemma check_gcloud_installed_careful :
  obeys SetupGcpLooker.check_gcloud_installed (careful (fun b : bool => b) false).
Proof.
  intros w. unfold SetupGcpLooker.check_gcloud_installed. run.
  destruct (spawn _ _ _) as [c|]; run.
  - destruct (returncode c =? 0)%Z eqn:Hz; run; sum_up; cbn.
    + attempts.
    + split; [attempts | discriminate].
  - sum_up. cbn. split; [attempts | discriminate].
Qed.

Lemma input_quiet (prompt : str) :
  obeys (input prompt)
    (fun h r ev l =>
       ev = [] /\ l = [prompt] /\ (r = Raise EOFError \/ exists line, r = Ret line)).
Proof.
  intros w. unfold input. destruct (stdin w); sum_up; cbn; eauto.
Qed.

Lemma get_project_info_careful :
  obeys SetupGcpLooker.get_project_info
    (careful (fun info : option str * option str => truthy (fst info)) true).
Proof.
  intros w. unfold SetupGcpLooker.get_project_info, input. run.
  destruct (stdin w) as [|line keys]; run.
  { sum_up. cbn. split; [attempts | reflexivity]. }
  destruct (strip line) as [|ch project_id] eqn:Ep; run.
  { sum_up. cbn. split; [attempts|]. intros _. mark. }
  destruct (spawn _ _ _) as [c1|]; run;
    [|sum_up; cbn; split; [attempts | reflexivity]].
  destruct (returncode c1 =? 0)%Z eqn:Hz1; run;
    [|sum_up; cbn; split; [attempts|]; intros _; mark].
  destruct (spawn _ _ _) as [c2|]; run;
    [|sum_up; cbn; split; [attempts | reflexivity]].
  destruct (returncode c2 =? 0)%Z eqn:Hz2; run.
  { sum_up. cbn. attempts. }
  destruct keys as [|line2 keys]; run; sum_up; cbn.
  - split; [attempts | reflexivity].
  - attempts.
Qed.

(** One turn of the loop of [setup_bigquery_datasets], as the caller sees
    it: whether to go on. *)
Lemma create_datasets_careful (project_id : str) (datasets : list str) :
  obeys (SetupGcpLooker.create_datasets project_id datasets)
    (careful (fun b : bool => b) true).
Proof.
  induction datasets as [|dataset rest IH]; cbn [SetupGcpLooker.create_datasets].
  - apply obeys_ret. intros h. apply clean_nil.
  - eapply obeys_bind with (Q1 := careful (fun b : bool => b) true).
    + intros w. run. destruct (spawn _ _ _) as [c|]; run;
        [|sum_up; cbn; split; [attempts | reflexivity]].
      destruct (returncode c =? 0)%Z eqn:Hz; run; [sum_up; cbn; attempts|].
      destruct (str_in _ _) eqn:Ht; run; sum_up; cbn.
      * attempts.
      * split; [attempts|]. intros _. mark.
    + auto.
    + intros [|].
      * eapply obeys_weaken; [exact IH|]. intros h r ev l H ev1 l1 H1.
        now apply careful_prefix.
      * apply obeys_ret. intros h ev1 l1 H1. rewrite !app_nil_r. exact H1.
Qed.

Lemma print_step_then {B} (n : Z) (title : str) (k : M B) (Q : Post B) :
  obeys k (fun h r ev l =>
             Q h r ev ((nl ++ times (L "=") 60)
                         :: (L "STEP " ++ decimal n ++ L ": " ++ title)
                         :: times (L "=") 60 :: l)) ->
  obeys (bind (SetupGcpLooker.print_step n title) (fun _ => k)) Q.
Proof.
  intros Hk. unfold SetupGcpLooker.print_step.
  apply (obeys_ext _
           (bind (print (nl ++ times (L "=") 60))
              (fun _ => bind (print (L "STEP " ++ decimal n ++ L ": " ++ title))
                 (fun _ => bind (print (times (L "=") 60)) (fun _ => k)))));
    [reflexivity|].
  do 3 apply obeys_print. exact Hk.
Qed.

Lemma careful_after_lines {A} (good : A -> bool) (speaks : bool) (h : Host)
    (r : Res A) (ev : list (Command * Spawn)) (before l : list str) :
  careful good speaks h r ev l -> careful good speaks h r ev (before ++ l).
Proof.
  intros H. apply (careful_prefix good speaks h r [] ev before l (clean_nil h) H).
Qed.

Lemma setup_bigquery_datasets_careful (project_id : str) :
  obeys (SetupGcpLooker.setup_bigquery_datasets project_id)
    (careful (fun b : bool => b) true).
Proof.
  unfold SetupGcpLooker.setup_bigquery_datasets. apply print_step_then.
  eapply obeys_weaken; [apply create_datasets_careful|].
  intros h r ev l H. apply (careful_after_lines _ _ h r ev [_; _; _] l H).
Qed.

Lemma grant_roles_careful (project_id email : str) (roles : list str) :
  obeys (SetupGcpLooker.grant_roles project_id email roles)
    (careful (fun _ : unit => true) false).
Proof.
  induction roles as [|role rest IH]; cbn [SetupGcpLooker.grant_roles].
  - apply obeys_ret. intros h. apply clean_nil.
  - eapply obeys_bind with (Q1 := careful (fun _ : unit => true) false).
    + intros w. run. destruct (spawn _ _ _) as [c|]; run;
        [|sum_up; cbn; split; [attempts | reflexivity]].
      destruct (returncode c =? 0)%Z eqn:Hz; run; sum_up; cbn; attempts.
    + auto.
    + intros []. eapply obeys_weaken; [exact IH|]. intros h r ev l H ev1 l1 H1.
      now apply careful_prefix.
Qed.

Lemma truthy_email (project_id : str) :
  truthy (Some (SetupGcpLooker.service_account_name ++ L "@" ++ project_id
                  ++ L ".iam.gserviceaccount.com")) = true.
Proof. reflexivity. Qed.

Lemma create_service_account_careful (project_id : str) :
  obeys (SetupGcpLooker.create_service_account project_id) (careful truthy true).
Proof.
  unfold SetupGcpLooker.create_service_account,
    SetupGcpLooker.create_service_account_with.
  apply print_step_then. cbv zeta.
  eapply obeys_bind with (Q1 := careful (fun b : bool => b) true).
  - intros w. run. destruct (spawn _ _ _) as [c|]; run;
      [|sum_up; cbn; split; [attempts | reflexivity]].
    destruct (returncode c =? 0)%Z eqn:Hz; run; [sum_up; cbn; attempts|].
    destruct (str_in _ _) eqn:Ht; run; sum_up; cbn.
    + attempts.
    + split; [attempts|]. intros _. mark.
  - intros h e ev l [H He]. split; [exact H | exact He].
  - intros [|]; cbn [negb].
    + eapply obeys_bind; [apply grant_roles_careful | |].
      * intros h e ev l [H He] ev1 l1 H1. cbn in H1.
        split; [now apply clean_tidy_app | exact He].
      * intros []. apply obeys_ret. intros h ev1 l1 H1 ev0 l0 H0.
        unfold careful in *. rewrite truthy_email. cbn in H1, H0.
        rewrite app_nil_r. now apply clean_app.
    + apply obeys_ret. intros h ev1 l1 [H1 Hm]. cbn. rewrite !app_nil_r.
      split; [exact H1|]. intros _. apply (marked_app [_; _; _]). auto.
Qed.

Lemma beside_path_cons (h : Host) (c : ascii) (name : str) :
  exists c' rest, beside_path h (c :: name) = c' :: rest.
Proof.
  unfold beside_path, path_join. destruct (script_dir h) as [|d dir]; [eauto|].
  destruct (str_eqb _ _); [eauto|]. destruct (all_slashes _); cbn; eauto.
Qed.

Lemma truthy_beside (h : Host) (name : string) (c : ascii) (rest : str) :
  L name = c :: rest -> truthy (Some (beside_path h (L name))) = true.
Proof.
  intros ->. destruct (beside_path_cons h c rest) as [c' [r ->]]. reflexivity.
Qed.

Lemma create_service_account_key_careful (project_id email : str) :
  obeys (SetupGcpLooker.create_service_account_key project_id email)
    (careful truthy true).
Proof.
  intros w. unfold SetupGcpLooker.create_service_account_key,
    SetupGcpLooker.print_step. run.
  destruct (spawn _ _ _) as [c|]; run;
    [|sum_up; cbn; split; [attempts | reflexivity]].
  destruct (returncode c =? 0)%Z eqn:Hz; run; sum_up; cbn [careful fst snd].
  - erewrite truthy_beside by reflexivity. attempts.
  - cbn. split; [attempts|]. intros _. mark.
Qed.

Lemma update_profiles_yml_careful (project_id key_file_path : str) :
  obeys (SetupGcpLooker.update_profiles_yml project_id key_file_path)
    (careful (fun b : bool => b) true).
Proof.
  intros w. unfold SetupGcpLooker.update_profiles_yml, SetupGcpLooker.print_step.
  run. destruct (lookup w _) as [[content|]|] eqn:E; run; rewrite ?E; run.
  - erewrite write_text_over by (autorewrite with world; exact E). run.
    sum_up. cbn. attempts.
  - sum_up. cbn. split; [attempts | reflexivity].
  - sum_up. cbn. split; [attempts|]. intros _. mark.
Qed.

Lemma test_dbt_connection_careful :
  obeys SetupGcpLooker.test_dbt_connection (careful (fun _ : bool => true) false).
Proof.
  intros w. unfold SetupGcpLooker.test_dbt_connection, SetupGcpLooker.print_step.
  run. destruct (lookup w _); run; [|sum_up; cbn; attempts].
  destruct (spawn _ _ _) as [c|]; run;
    [|sum_up; cbn; split; [attempts | reflexivity]].
  destruct (returncode c =? 0)%Z eqn:Hz; run; sum_up; cbn; attempts.
Qed.

Lemma obeys_maybe_print {B} (b : bool) (s : str) (k : M B) (Q : Post B) :
  (b = true -> obeys k (fun h r ev l => Q h r ev (s :: l))) ->
  (b = false -> obeys k Q) ->
  obeys (bind (if b then print s else ret tt) (fun _ => k)) Q.
Proof.
  intros Ht Hf. destruct b.
  - apply obeys_print. auto.
  - apply (obeys_ext _ k); [reflexivity | auto].
Qed.

Lemma setup_looker_instructions_then {B} (k : M B) (Q : Post B) :
  obeys k (fun h r ev l =>
             Q h r ev ((nl ++ times (L "=") 60)
                         :: (L "STEP " ++ decimal 7 ++ L ": "
                               ++ L "Looker Studio Setup Instructions")
                         :: times (L "=") 60
                         :: SetupGcpLooker.looker_instructions :: l)) ->
  obeys (bind SetupGcpLooker.setup_looker_instructions (fun _ => k)) Q.
Proof.
  intros Hk. unfold SetupGcpLooker.setup_looker_instructions.
  apply (obeys_ext _
           (bind (SetupGcpLooker.print_step 7 (L "Looker Studio Setup Instructions"))
              (fun _ => bind (print SetupGcpLooker.looker_instructions)
                          (fun _ => k))));
    [reflexivity|].
  apply print_step_then, obeys_print. exact Hk.
Qed.

Lemma gcp_main_concluding : obeys SetupGcpLooker.main concluding.
Proof.
  unfold SetupGcpLooker.main.
  do 2 apply obeys_print.
  eapply obeys_bind; [apply check_gcloud_installed_careful | leaf |].
  intros [|]; cbn [negb]; cbv beta;
    [|do 2 apply obeys_print; apply obeys_ret; leaf].
  eapply obeys_bind; [apply get_project_info_careful | leaf |].
  intros [[[|ch project_id]|] user_email]; cbn [fst]; cbv beta;
    try (apply obeys_ret; leaf).
  eapply obeys_bind; [apply setup_bigquery_datasets_careful | leaf |].
  intros [|]; cbn [negb]; cbv beta; [|apply obeys_ret; leaf].
  eapply obeys_bind; [apply create_service_account_careful | leaf |].
  intros [[|ch1 email]|]; cbv beta; try (apply obeys_ret; leaf).
  eapply obeys_bind; [apply create_service_account_key_careful | leaf |].
  intros [[|ch2 key_file]|]; cbv beta; try (apply obeys_ret; leaf).
  eapply obeys_bind; [apply update_profiles_yml_careful | leaf |].
  intros [|]; cbn [negb]; cbv beta; [|apply obeys_ret; leaf].
  eapply obeys_bind; [apply test_dbt_connection_careful | leaf |].
  intros tested. cbv beta.
  apply obeys_maybe_print; intros _;
    apply setup_looker_instructions_then; do 8 apply obeys_print;
    apply obeys_ret; leaf.
Qed.


Lemma setup_environment_installs (w : World) :
  let r := SetupPipeline.setup_environment w in
  (forall path, lookup (snd r) path = lookup w path)
  /\ (forall e, fst r = Raise e -> is_Exception e = true)
  /\ exists events,
       ran (snd r) = ran w ++ events /\ forallb is_install events = true.
Proof.
  cbn zeta. unfold SetupPipeline.setup_environment, SetupPipeline.run_command.
  run. destruct (in_virtualenv (host w)); run.
  all: destruct (spawn _ _ (Shell (L "pip install dbt-bigquery"))) as [c1|]; run;
    [|split; [intros; now autorewrite with world|];
      split; [intros e E; now injection E as <- |];
      eexists; split; [log | reflexivity]].
  all: destruct (returncode c1 =? 0)%Z; run.
  all: destruct (spawn _ _ (Shell (L "pip install requests"))) as [c2|]; run;
    [|split; [intros; now autorewrite with world|];
      split; [intros e E; now injection E as <- |];
      eexists; split; [log | reflexivity]].
  all: destruct (returncode c2 =? 0)%Z; run.
  all: split; [intros; now autorewrite with world|];
    split; [discriminate|]; eexists; split; [log | reflexivity].
Qed.

Lemma validate_dbt_project_missing (w : World) :
  lookup w (L "my_project/dbt_project.yml") = None
  \/ lookup w (L "profiles.yml") = None ->
  fst (SetupPipeline.validate_dbt_project w) = Ret false
  /\ ran (snd (SetupPipeline.validate_dbt_project w)) = ran w.
Proof.
  intros Hmiss. unfold SetupPipeline.validate_dbt_project. run.
  destruct (lookup w (L "my_project/dbt_project.yml")) eqn:Ed; run;
    [|split; reflexivity].
  destruct (lookup w (L "profiles.yml")) eqn:Ep; run; [|split; reflexivity].
  destruct Hmiss as [H|H]; discriminate H.
Qed.




(** * More of the scripts *)

(** ** [setup_pipeline.py] *)

Lemma world_eq (w1 w2 : World) :
  host w1 = host w2 -> files w1 = files w2 -> stdin w1 = stdin w2 ->
  cwd w1 = cwd w2 -> ran w1 = ran w2 -> probed w1 = probed w2 ->
  printed w1 = printed w2 -> w1 = w2.
Proof. destruct w1, w2. cbn. now intros -> -> -> -> -> -> ->. Qed.

(** Brings two accounts of the same run to the same shape. *)
Ltac same_world :=
  lazymatch goal with
  | |- (_, _) = (_, _) => apply f_equal2; [reflexivity|]
  | _ => idtac
  end;
  apply world_eq;
  cbn [host files stdin cwd ran probed printed
       set_files set_stdin set_cwd set_ran set_probed set_printed];
  rewrite <- ?app_assoc; cbn [app]; rewrite <- ?app_assoc;
  try reflexivity.

Lemma run_command_run (command description : str) (c : Completed) (w : World) :
  spawn (host w) (ran w) (Shell command) = Exited c ->
  SetupPipeline.run_command command description w
  = (Ret (if (returncode c =? 0)%Z then Some (stdout c) else None),
     set_printed (printed w ++ run_command_lines description (Exited c))
       (set_ran (ran w ++ [(Shell command, Exited c)]) w)).
Proof.
  intros Hc. unfold run_command_lines.
  destruct (Z.eqb_spec (returncode c) 0) as [Hz|Hz].
  - now rewrite (run_command_zero _ description _ _ Hc Hz).
  - now rewrite (run_command_nonzero _ description _ _ Hc Hz).
Qed.

Lemma run_command_missing (command description : str) (w : World) :
  spawn (host w) (ran w) (Shell command) = NoSuchProgram ->
  SetupPipeline.run_command command description w
  = (Raise (FileNotFoundError (L "/bin/sh")),
     set_printed (printed w ++ run_command_lines description NoSuchProgram)
       (set_ran (ran w ++ [(Shell command, NoSuchProgram)]) w)).
Proof.
  intros Hc. unfold SetupPipeline.run_command. run. rewrite Hc. run.
  reflexivity.
Qed.

Lemma setup_environment_run (w : World) :
  Forall started (install_events w) ->
  SetupPipeline.setup_environment w
  = (Ret tt,
     set_printed (printed w ++ environment_lines (host w) ++ install_lines w)
       (set_ran (ran w ++ install_events w) w)).
Proof.
  unfold install_lines, install_events, install_commands. cbn [play].
  intros H.
  apply Forall_cons_iff in H as [[c1 H1] H].
  apply Forall_cons_iff in H as [[c2 H2] _]. cbn [snd] in H1, H2.
  rewrite H1 in *. rewrite H2. cbn [reports snd]. rewrite app_nil_r.
  unfold SetupPipeline.setup_environment, environment_lines. run.
  destruct (in_virtualenv (host w)); run.
  all: match goal with |- context [SetupPipeline.run_command ?c ?d ?w1] =>
         rewrite (run_command_run c d c1 w1 H1)
       end; run.
  all: match goal with |- context [SetupPipeline.run_command ?c ?d ?w1] =>
         rewrite (run_command_run c d c2 w1 H2)
       end; run.
  all: same_world.
Qed.

(** [setup_environment] goes through both installs whatever their ends: when
    the shell starts both, the call returns, both commands were attempted in
    the order of the source, the second also after a failure of the first,
    and no file was touched.  The warning about the virtual environment is
    printed exactly when the interpreter is not in one. *)
Theorem setup_environment_attempts_both_installs (w : World) :
  let r := SetupPipeline.setup_environment w in
  let events :=
    play (host w) (ran w)
      [Shell (L "pip install dbt-bigquery"); Shell (L "pip install requests")] in
  Forall started events ->
  fst r = Ret tt
  /\ ran (snd r) = ran w ++ events
  /\ files (snd r) = files w
  /\ exists reports,
       length reports = 4
       /\ printed (snd r)
          = printed w
              ++ L "🚀 Setting up healthcare data pipeline environment..."
              :: (if in_virtualenv (host w) then []
                  else [L "⚠️  Warning: You're not in a virtual environment. Consider using one."])
              ++ reports.
Proof.
  cbn zeta. intros H. rewrite (setup_environment_run w H).
  repeat (split; [reflexivity|]). exists (install_lines w).
  split; [|reflexivity].
  unfold install_lines, install_events, install_commands in *. cbn [play] in *.
  apply Forall_cons_iff in H as [[c1 H1] H].
  apply Forall_cons_iff in H as [[c2 H2] _]. cbn [snd] in H1, H2.
  rewrite H1 in *. rewrite H2. reflexivity.
Qed.

Lemma setup_environment_attempts_both_installs_witness :
  let events :=
    play (host failing_install) (ran failing_install)
      [Shell (L "pip install dbt-bigquery"); Shell (L "pip install requests")] in
  Forall started events
  /\ fst (SetupPipeline.setup_environment failing_install) = Ret tt
  /\ ran (snd (SetupPipeline.setup_environment failing_install))
     = ran failing_install ++ events.
Proof.
  cbn zeta.
  assert (Forall started
            (play (host failing_install) (ran failing_install)
               [Shell (L "pip install dbt-bigquery");
                Shell (L "pip install requests")])) as H
    by (cbn [play]; repeat apply Forall_cons; try apply Forall_nil;
        eexists; reflexivity).
  split; [exact H|].
  destruct (setup_environment_attempts_both_installs failing_install H)
    as (Ha & Hb & _).
  split; [exact Ha | exact Hb].
Defined.


(** [os.makedirs] fails with errors of the operating system only. *)
Lemma makedirs_leaf_raises_OSError (name : str) (exist_ok : bool) (w : World)
    (e : Exn) :
  fst (makedirs_leaf name exist_ok w) = Raise e -> is_OSError e = true.
Proof.
  unfold makedirs_leaf, try_except, bind, mkdir, path_isdir, raise, ret.
  destruct name as [|c name]; cbn [fst snd is_OSError].
  - unfold lookup. destruct exist_ok; cbn; intros E; injection E as <-; reflexivity.
  - destruct (lookup w (c :: name)) as [n|] eqn:El; cbn [fst snd is_OSError].
    + autorewrite with world. rewrite El.
      destruct n; destruct exist_ok; cbn;
        try discriminate; intros E; now injection E as <-.
    + destruct (parent_error w (c :: name)) as [e'|] eqn:Ep; [|discriminate].
      cbn [fst].
      assert (is_OSError e' = true) as He'.
      { revert Ep. unfold parent_error.
        destruct (dirname (c :: name)) as [|d dir]; [discriminate|].
        destruct (all_slashes _); [discriminate|].
        destruct (lookup w (d :: dir)) as [[|]|]; try discriminate;
          intros Ep; now injection Ep as <-. }
      rewrite He'. cbn [fst snd]. autorewrite with world. rewrite El.
      destruct exist_ok; cbn; intros E; now injection E as <-.
Qed.

Lemma makedirs_raises_OSError (name : str) (exist_ok : bool) (w : World) (e : Exn) :
  fst (makedirs name exist_ok w) = Raise e -> is_OSError e = true.
Proof.
  funelim (makedirs name exist_ok w);
    try apply makedirs_leaf_raises_OSError;
    try (unfold makedirs_after; destruct (str_eqb _ _);
         [discriminate | apply makedirs_leaf_raises_OSError]);
    cbn [fst]; intros E; injection E as <-;
    apply Hind; rewrite Heq; reflexivity.
Qed.

Lemma is_OSError_Exception (e : Exn) : is_OSError e = true -> is_Exception e = true.
Proof. destruct e; try discriminate; reflexivity. Qed.

Lemma makedirs_leaf_there (name : str) (w : World) :
  lookup w name = Some Dir ->
  makedirs_leaf name true w = (Ret tt, set_probed (probed w ++ [name]) w).
Proof.
  intros H. destruct name as [|c name]; [discriminate|].
  unfold makedirs_leaf, mkdir, try_except. rewrite H.
  cbn [is_OSError]. run. rewrite H. reflexivity.
Qed.

(** [os.makedirs] on a directory that is there, with the one above it. *)
Lemma makedirs_there (name : str) (exist_ok : bool) (w : World) :
  exist_ok = true ->
  lookup w name = Some Dir ->
  (forall p, above name = Some p -> lookup w p <> None) ->
  exists tested,
    makedirs name exist_ok w = (Ret tt, set_probed (probed w ++ tested) w).
Proof.
  funelim (makedirs name exist_ok w); intros -> Hn Ha.
  all: try (rewrite makedirs_leaf_there by assumption; eexists; reflexivity).
  all: try (rewrite makedirs_leaf_there by (autorewrite with world; assumption);
            cbn [probed set_probed]; rewrite <- app_assoc; eexists; reflexivity).
  all: exfalso; apply (Ha (c :: hd));
    [unfold above; rewrite split_eq; reflexivity|];
    match goal with
    | H : Ret _ = Ret false |- _ =>
        injection H; destruct (lookup w (c :: hd)); [discriminate | reflexivity]
    end.
Qed.

(** ** Downloading a file *)

(** [download_csv_from_github] never raises: whatever the server, the path
    and the files, the call returns [True] or [False].  It returns [True]
    only after an answer with a status outside 400 to 599, and then the file
    at [local_path] holds the body of the answer and the last line printed
    tells of the download.  When it returns [False] the last line printed
    tells of the failure and names the file. *)
Theorem download_returns_and_writes_the_body
    (repo_url file_path local_path : str) (w : World) :
  let r := SetupPipeline.download_csv_from_github repo_url file_path local_path w in
  match fst r with
  | Ret true =>
      exists status_code reason text,
        fetch (host w) (repo_url ++ L "/raw/main/" ++ file_path)
          = Response status_code reason text
        /\ ~ (400 <= status_code < 600)%Z
        /\ files (snd r) local_path = Some (File text)
        /\ last (printed (snd r)) []
           = L "✅ Downloaded " ++ file_path ++ L " to " ++ local_path
  | Ret false =>
      exists why,
        last (printed (snd r)) []
        = L "❌ Failed to download " ++ file_path ++ L ": " ++ why
  | Raise _ => False
  end.
Proof.
  cbn zeta. unfold SetupPipeline.download_csv_from_github.
  unfold requests_get, raise_for_status. run.
  destruct (fetch (host w) _) as [status_code reason text | why]; run;
    cbn [is_Exception]; run; [|eexists; apply last_last].
  destruct ((400 <=? status_code)%Z && (status_code <? 500)%Z) eqn:E4; run;
    cbn [is_Exception]; run; [eexists; apply last_last|].
  destruct ((500 <=? status_code)%Z && (status_code <? 600)%Z) eqn:E5; run;
    cbn [is_Exception]; run; [eexists; apply last_last|].
  match goal with |- context [makedirs ?n ?ok ?w1] =>
    pose proof (makedirs_raises_OSError n ok w1) as Hm;
    destruct (makedirs n ok w1) as [[u|e] w2]
  end; cbn [fst snd] in *.
  - unfold write_text. destruct local_path as [|c path]; run;
      cbn [is_Exception]; run; [eexists; apply last_last|].
    destruct (lookup w2 (c :: path)) as [[old|]|]; run;
      cbn [is_Exception]; run.
    + eexists _, _, _. split; [reflexivity|]. split; [lia|].
      split; [apply update_same | apply last_last].
    + eexists; apply last_last.
    + destruct (parent_error w2 (c :: path)) as [e|] eqn:Ep; run.
      * assert (is_Exception e = true) as ->.
        { revert Ep. unfold parent_error.
          destruct (dirname (c :: path)) as [|d dir]; [discriminate|].
          destruct (all_slashes _); [discriminate|].
          destruct (lookup w2 (d :: dir)) as [[|]|]; try discriminate;
            intros Ep; now injection Ep as <-. }
        run. eexists; apply last_last.
      * eexists _, _, _. split; [reflexivity|]. split; [lia|].
        split; [apply update_same | apply last_last].
  - rewrite (is_OSError_Exception e (Hm e eq_refl)).
    run. eexists; apply last_last.
Qed.

(** When the server answers with a status outside 400 to 599, the directory
    of [local_path] is there with the one above it, and [local_path] is not
    a directory, [download_csv_from_github] returns [True]; the body of the
    answer is written to [local_path], no other path changes, and the two
    lines printed tell of the download. *)
Theorem download_writes_into_directory
    (repo_url file_path local_path : str) (w : World)
    (status_code : Z) (reason text : str) :
  let r := SetupPipeline.download_csv_from_github repo_url file_path local_path w in
  fetch (host w) (repo_url ++ L "/raw/main/" ++ file_path)
    = Response status_code reason text ->
  ~ (400 <= status_code < 600)%Z ->
  lookup w (dirname local_path) = Some Dir ->
  (forall p, above (dirname local_path) = Some p -> lookup w p <> None) ->
  lookup w local_path <> Some Dir ->
  fst r = Ret true
  /\ files (snd r) = update local_path (File text) (files w)
  /\ printed (snd r)
     = printed w
         ++ [L "📥 Downloading " ++ file_path ++ L " from " ++ repo_url ++ L "...";
             L "✅ Downloaded " ++ file_path ++ L " to " ++ local_path].
Proof.
  cbn zeta. intros Hf Hs Hd Ha Hl.
  unfold SetupPipeline.download_csv_from_github.
  unfold requests_get, raise_for_status. run. rewrite Hf. run.
  destruct ((400 <=? status_code)%Z && (status_code <? 500)%Z) eqn:E4; [lia|].
  destruct ((500 <=? status_code)%Z && (status_code <? 600)%Z) eqn:E5; [lia|].
  run.
  match goal with |- context [makedirs ?n true ?w1] =>
    destruct (makedirs_there n true w1 eq_refl) as [tested ->];
      [autorewrite with world; exact Hd
      |intros p Hp; autorewrite with world; exact (Ha p Hp)|]
  end.
  run. unfold write_text.
  destruct local_path as [|c path]; [discriminate|].
  run. destruct (lookup w (c :: path)) as [[old|]|] eqn:El; run.
  - rewrite <- app_assoc. auto.
  - now contradiction Hl.
  - unfold parent_error. run. rewrite Hd.
    destruct (dirname (c :: path)) as [|d dir]; [discriminate|].
    destruct (all_slashes (d :: dir)); run; rewrite <- app_assoc; auto.
Qed.

Lemma download_writes_into_directory_witness :
  let r := SetupPipeline.download_csv_from_github
             (L "https://github.com/your-org/healthcare-data")
             (L "data/patients.csv") (L "my_project/seeds/patients.csv")
             all_served in
  fst r = Ret true
  /\ files (snd r) (L "my_project/seeds/patients.csv") = Some (File (L "id,name")).
Proof.
  cbn zeta.
  destruct (download_writes_into_directory
              (L "https://github.com/your-org/healthcare-data")
              (L "data/patients.csv") (L "my_project/seeds/patients.csv")
              all_served 200%Z (L "OK") (L "id,name"))
    as (H1 & H2 & _).
  - reflexivity.
  - lia.
  - reflexivity.
  - intros p Hp. vm_compute in Hp. injection Hp as <-. discriminate.
  - discriminate.
  - split; [exact H1|]. rewrite H2. apply update_same.
Defined.

(** When the server cannot be reached or answers with a status from 400 to
    599, [download_csv_from_github] returns [False], makes no directory and
    writes no file, tests no path, and names the file in the line with which
    it reports the failure. *)
Theorem download_reports_server_failure
    (repo_url file_path local_path : str) (w : World) :
  let url := repo_url ++ L "/raw/main/" ++ file_path in
  let r := SetupPipeline.download_csv_from_github repo_url file_path local_path w in
  (exists why, fetch (host w) url = Unreachable why)
  \/ (exists status_code reason text,
        fetch (host w) url = Response status_code reason text
        /\ (400 <= status_code < 600)%Z) ->
  fst r = Ret false
  /\ files (snd r) = files w
  /\ probed (snd r) = probed w
  /\ exists why,
       printed (snd r)
       = printed w
           ++ [L "📥 Downloading " ++ file_path ++ L " from " ++ repo_url ++ L "...";
               L "❌ Failed to download " ++ file_path ++ L ": " ++ why].
Proof.
  cbn zeta. unfold SetupPipeline.download_csv_from_github.
  unfold requests_get, raise_for_status. run.
  intros [[why E] | (status_code & reason & text & E & Hs)]; rewrite E; run;
    cbn [is_Exception]; run.
  - repeat (split; [reflexivity|]). eexists. now rewrite <- app_assoc.
  - destruct ((400 <=? status_code)%Z && (status_code <? 500)%Z) eqn:E4; run; cbn [is_Exception]; run.
    { repeat (split; [reflexivity|]). eexists. now rewrite <- app_assoc. }
    destruct ((500 <=? status_code)%Z && (status_code <? 600)%Z) eqn:E5; run; cbn [is_Exception]; run.
    { repeat (split; [reflexivity|]). eexists. now rewrite <- app_assoc. }
    lia.
Qed.

Lemma download_reports_server_failure_witness :
  let r := SetupPipeline.download_csv_from_github
             (L "https://github.com/your-org/healthcare-data")
             (L "data/patients.csv") (L "my_project/seeds/patients.csv")
             nothing_served in
  fst r = Ret false /\ files (snd r) = files nothing_served.
Proof.
  cbn zeta.
  destruct (download_reports_server_failure
              (L "https://github.com/your-org/healthcare-data")
              (L "data/patients.csv") (L "my_project/seeds/patients.csv")
              nothing_served)
    as (Ha & Hb & _).
  - right. exists 404%Z, (L "Not Found"), []. split; [reflexivity | lia].
  - split; [exact Ha | exact Hb].
Defined.

(** ** A whole run of [setup_pipeline.py] *)

Lemma setup_environment_returned (w : World) :
  fst (SetupPipeline.setup_environment w) = Ret tt ->
  Forall started (install_events w).
Proof.
  unfold install_events, install_commands. cbn [play].
  unfold SetupPipeline.setup_environment. run.
  assert (forall w1 : World,
            host w1 = host w -> ran w1 = ran w ->
            fst (match SetupPipeline.run_command (L "pip install dbt-bigquery")
                         (L "Installing dbt-bigquery") w1 with
                 | (Ret _, w2) =>
                     match SetupPipeline.run_command (L "pip install requests")
                             (L "Installing requests") w2 with
                     | (Ret _, w3) => (Ret tt, w3)
                     | (Raise e, w3) => (Raise e, w3)
                     end
                 | (Raise e, w2) => (Raise e, w2)
                 end) = Ret tt ->
            Forall started
              [(Shell (L "pip install dbt-bigquery"),
                spawn (host w) (ran w) (Shell (L "pip install dbt-bigquery")));
               (Shell (L "pip install requests"),
                spawn (host w)
                  (ran w ++ [(Shell (L "pip install dbt-bigquery"),
                              spawn (host w) (ran w)
                                (Shell (L "pip install dbt-bigquery")))])
                  (Shell (L "pip install requests")))]) as Hgen.
  { intros w1 Hh Hr.
    destruct (spawn (host w) (ran w) (Shell (L "pip install dbt-bigquery")))
      as [c1|] eqn:H1.
    2: { rewrite run_command_missing by (rewrite Hh, Hr; exact H1).
         discriminate. }
    rewrite (run_command_run (L "pip install dbt-bigquery")
               (L "Installing dbt-bigquery") c1 w1)
      by (rewrite Hh, Hr; exact H1).
    rewrite Hr.
    destruct (spawn (host w)
                (ran w ++ [(Shell (L "pip install dbt-bigquery"), Exited c1)])
                (Shell (L "pip install requests"))) as [c2|] eqn:H2.
    2: { rewrite run_command_missing
           by (cbn [host ran set_printed set_ran]; rewrite Hh; exact H2).
         discriminate. }
    intros _. repeat apply Forall_cons; try apply Forall_nil;
      eexists; reflexivity. }
  destruct (in_virtualenv (host w)); run; apply Hgen; reflexivity.
Qed.

Lemma validate_dbt_project_present (w : World) :
  lookup w (L "my_project/dbt_project.yml") <> None ->
  lookup w (L "profiles.yml") <> None ->
  SetupPipeline.validate_dbt_project w
  = (Ret true,
     set_printed (printed w ++ [L "🔍 Validating dbt project...";
                                L "✅ dbt project validation passed"])
       (set_probed (probed w ++ [L "my_project/dbt_project.yml";
                                 L "profiles.yml"]) w)).
Proof.
  intros Hd Hp. unfold SetupPipeline.validate_dbt_project. run.
  destruct (lookup w (L "my_project/dbt_project.yml")); [|contradiction].
  run. destruct (lookup w (L "profiles.yml")); [|contradiction].
  run. same_world.
Qed.

Lemma run_steps_run (steps : list (str * str)) (w : World) :
  let events := play (host w) (ran w) (map step_command steps) in
  Forall succeeded events ->
  SetupPipeline.run_steps steps w
  = (Ret true,
     set_printed
       (printed w ++ reports (map snd steps) events
          ++ [L "✅ dbt pipeline completed successfully!"])
       (set_ran (ran w ++ events) w)).
Proof.
  cbn zeta. revert w.
  induction steps as [|[command description] rest IH]; intros w.
  - intros _. cbn [SetupPipeline.run_steps map play reports]. run.
    rewrite app_nil_r. same_world.
  - cbn [map play SetupPipeline.run_steps reports snd].
    change (step_command (command, description)) with (Shell command).
    intros H. apply Forall_cons_iff in H as [[c [Hc Hz]] Hrest].
    cbn [snd] in Hc. rewrite Hc in *. unfold bind.
    rewrite (run_command_run _ description _ _ Hc).
    apply Z.eqb_eq in Hz. rewrite Hz.
    match goal with |- context [SetupPipeline.run_steps rest ?w1] =>
      rewrite (IH w1 Hrest)
    end.
    same_world.
Qed.

Lemma run_steps_returned_true (steps : list (str * str)) (w : World) :
  fst (SetupPipeline.run_steps steps w) = Ret true ->
  Forall succeeded (play (host w) (ran w) (map step_command steps)).
Proof.
  revert w. induction steps as [|[command description] rest IH]; intros w.
  - intros _. apply Forall_nil.
  - cbn [map play SetupPipeline.run_steps].
    change (step_command (command, description)) with (Shell command).
    unfold bind.
    destruct (spawn (host w) (ran w) (Shell command)) as [c|] eqn:Hc.
    + destruct (Z.eq_dec (returncode c) 0) as [Hz|Hz].
      * rewrite (run_command_zero _ description _ _ Hc Hz).
        intros H. apply IH in H. apply Forall_cons; [|exact H].
        exists c. auto.
      * rewrite (run_command_nonzero _ description _ _ Hc Hz). run.
        discriminate.
    + rewrite (run_command_missing _ description _ Hc). discriminate.
Qed.

(** [run_steps] raises nothing that [sys.exit] raises. *)
Lemma run_steps_raised (steps : list (str * str)) (w : World) (e : Exn) :
  fst (SetupPipeline.run_steps steps w) = Raise e -> is_Exception e = true.
Proof.
  revert w. induction steps as [|[command description] rest IH]; intros w.
  - cbn [SetupPipeline.run_steps]. run. discriminate.
  - cbn [SetupPipeline.run_steps]. unfold bind.
    destruct (spawn (host w) (ran w) (Shell command)) as [c|] eqn:Hc.
    + destruct (Z.eq_dec (returncode c) 0) as [Hz|Hz].
      * rewrite (run_command_zero _ description _ _ Hc Hz). apply IH.
      * rewrite (run_command_nonzero _ description _ _ Hc Hz). run.
        discriminate.
    + rewrite (run_command_missing _ description _ Hc). cbn [fst].
      intros E. now injection E as <-.
Qed.

Lemma pipeline_main_run (w : World) :
  ready w -> runs_through w ->
  SetupPipeline.main w
  = (Ret tt,
     set_printed (printed w ++ pipeline_account w)
       (set_probed (probed w ++ [L "my_project";
                                 L "my_project/dbt_project.yml";
                                 L "profiles.yml"])
          (set_cwd (cwd w ++ [L "my_project"])
             (set_ran (ran w ++ install_events w ++ step_events w) w)))).
Proof.
  intros (Hroot & Hd & Hp) (Hi & Hs).
  unfold SetupPipeline.main. run. rewrite Hroot. run.
  match goal with |- context [SetupPipeline.setup_environment ?w1] =>
    rewrite (setup_environment_run w1 Hi)
  end. run.
  rewrite validate_dbt_project_present
    by (autorewrite with world; assumption). run.
  unfold SetupPipeline.download_sample_data,
    SetupPipeline.run_dbt_pipeline, SetupPipeline.run_pipeline. run.
  rewrite Hroot. run.
  match goal with |- context [SetupPipeline.run_steps _ ?w1] =>
    rewrite (run_steps_run SetupPipeline.commands w1 Hs)
  end. run.
  unfold pipeline_account, closing_lines, step_lines, install_lines,
    step_events, install_events.
  same_world.
Qed.

(** [setup_pipeline.py] ends with status zero in exactly one way: the
    project directory is a directory, the two required files are there, the
    shell starts both installs, and each of the five steps of the pipeline
    ends with status zero.  A failed install does not stand in the way; a
    failed step, a missing file, or a project directory that is a plain file
    does. *)
Theorem pipeline_exit_zero_iff (w : World) :
  fst (python SetupPipeline.main w) = 0%Z <-> ready w /\ runs_through w.
Proof.
  split.
  - unfold python, SetupPipeline.main. run.
    destruct (lookup w (L "my_project")) as [root|] eqn:Eroot; run;
      [|discriminate].
    match goal with |- context [SetupPipeline.setup_environment ?w1] =>
      pose proof (setup_environment_returned w1) as Hi;
      destruct (setup_environment_installs w1) as (_ & Hexn & _);
      destruct (SetupPipeline.setup_environment w1) as [[[]|e] w2] eqn:Es
    end; cbn [fst snd] in *.
    2: { specialize (Hexn e eq_refl).
         destruct e; try discriminate Hexn; discriminate. }
    specialize (Hi eq_refl).
    rewrite (setup_environment_run _ Hi) in Es. injection Es as <-.
    clear Hexn.
    destruct (lookup w (L "my_project/dbt_project.yml")) as [descriptor|] eqn:Ed.
    2: { match goal with |- context [SetupPipeline.validate_dbt_project ?w2] =>
           destruct (validate_dbt_project_missing w2) as [Hv _];
             [left; autorewrite with world; exact Ed|];
           destruct (SetupPipeline.validate_dbt_project w2) as [v w3];
           cbn [fst] in Hv; subst v
         end. run. discriminate. }
    destruct (lookup w (L "profiles.yml")) as [profiles|] eqn:Ep.
    2: { match goal with |- context [SetupPipeline.validate_dbt_project ?w2] =>
           destruct (validate_dbt_project_missing w2) as [Hv _];
             [right; autorewrite with world; exact Ep|];
           destruct (SetupPipeline.validate_dbt_project w2) as [v w3];
           cbn [fst] in Hv; subst v
         end. run. discriminate. }
    rewrite validate_dbt_project_present
      by (autorewrite with world; congruence).
    run.
    unfold SetupPipeline.download_sample_data,
      SetupPipeline.run_dbt_pipeline, SetupPipeline.run_pipeline. run.
    rewrite Eroot. destruct root as [text|]; run; [discriminate|].
    match goal with |- context [SetupPipeline.run_steps _ ?w1] =>
      pose proof (run_steps_returned_true SetupPipeline.commands w1) as Hs;
      pose proof (run_steps_raised SetupPipeline.commands w1) as Hx;
      destruct (SetupPipeline.run_steps SetupPipeline.commands w1)
        as [[[|]|e] w6]
    end; cbn [fst snd] in *.
    + intros _. split; [|split; [exact Hi | exact (Hs eq_refl)]].
      repeat split; congruence.
    + run. discriminate.
    + specialize (Hx e eq_refl).
      destruct e; try discriminate Hx; discriminate.
  - intros [Hready Hruns].
    unfold python. now rewrite (pipeline_main_run w Hready Hruns).
Qed.

(** A run of [setup_pipeline.py] that goes through attempts the two
    installs and the five steps, in this order and nothing else, tests the
    project directory and the two files, moves into the project directory,
    writes no file, reads nothing from the terminal, ends with status zero,
    and prints the account of the installs and the steps between the
    headings, ending with the six lines about what to do next. *)
Theorem pipeline_goes_through (w : World) :
  ready w -> runs_through w ->
  let r := python SetupPipeline.main w in
  fst r = 0%Z
  /\ ran (snd r) = ran w ++ install_events w ++ step_events w
  /\ files (snd r) = files w
  /\ stdin (snd r) = stdin w
  /\ cwd (snd r) = cwd w ++ [L "my_project"]
  /\ probed (snd r)
     = probed w ++ [L "my_project"; L "my_project/dbt_project.yml";
                    L "profiles.yml"]
  /\ printed (snd r) = printed w ++ pipeline_account w.
Proof.
  intros Hready Hruns. unfold python.
  rewrite (pipeline_main_run w Hready Hruns). cbn [fst snd].
  repeat (split; [reflexivity|]). reflexivity.
Qed.

Lemma pipeline_goes_through_witness :
  fst (python SetupPipeline.main all_well) = 0%Z
  /\ length (ran (snd (python SetupPipeline.main all_well))) = 7.
Proof.
  assert (ready all_well) as Hready
    by (repeat split; try reflexivity; discriminate).
  assert (runs_through all_well) as Hruns
    by (split; repeat apply Forall_cons; try apply Forall_nil;
        eexists; repeat split; reflexivity).
  destruct (pipeline_goes_through all_well Hready Hruns) as (H0 & Hr & _).
  split; [exact H0|]. rewrite Hr. reflexivity.
Defined.

(** ** [setup_gcp_looker.py] *)

Lemma check_gcloud_installed_run (w : World) :
  let e := (version_command, spawn (host w) (ran w) version_command) in
  SetupGcpLooker.check_gcloud_installed w
  = (Ret (negb (failed e)), set_ran (ran w ++ [e]) w).
Proof.
  cbn zeta. unfold SetupGcpLooker.check_gcloud_installed, failed, version_command.
  run. destruct (spawn _ _ _) as [c|]; run; [|reflexivity].
  destruct (returncode c =? 0)%Z; run; reflexivity.
Qed.

(** [main] never raises what [sys.exit] raises. *)
Lemma gcp_main_raised (w : World) (e : Exn) :
  fst (SetupGcpLooker.main w) = Raise e -> is_Exception e = true.
Proof.
  intros E. destruct (gcp_main_concluding w) as (ev & l & _ & _ & _ & HQ).
  rewrite E in HQ. apply HQ.
Qed.

(** [setup_gcp_looker.py] never ends with an exception of its own: whatever
    [main] does, the script ends by [sys.exit], with status 0 when [main]
    returned [True] and with status 1 otherwise, and no traceback is
    printed.  An exception in [main] adds one line that tells of it. *)
Theorem gcp_script_exit_status (w : World) :
  python SetupGcpLooker.script w
  = match SetupGcpLooker.main w with
    | (Ret true, w') => (0%Z, w')
    | (Ret false, w') => (1%Z, w')
    | (Raise e, w') =>
        (1%Z, set_printed
                (printed w' ++ [nl ++ L "❌ Unexpected error: "
                                  ++ Exn_str (host w') e]) w')
    end.
Proof.
  pose proof (gcp_main_raised w) as He.
  unfold python, SetupGcpLooker.script, try_except, bind.
  destruct (SetupGcpLooker.main w) as [[[|]|e] w']; cbn [fst] in He;
    try reflexivity.
  rewrite (He e eq_refl). run. reflexivity.
Qed.

(** Without a [gcloud] program that answers [--version] with status zero,
    [setup_gcp_looker.py] ends with status 1 after this one command: the
    operator is asked nothing, no file is touched, and the four lines
    printed tell where to get the program. *)
Theorem gcp_stops_without_gcloud (w : World) :
  let e := (version_command, spawn (host w) (ran w) version_command) in
  failed e = true ->
  python SetupGcpLooker.script w
  = (1%Z, set_printed (printed w ++ no_gcloud_lines) (set_ran (ran w ++ [e]) w)).
Proof.
  cbn zeta. intros Hf.
  unfold python, SetupGcpLooker.script, SetupGcpLooker.main. run.
  rewrite check_gcloud_installed_run. cbn [ran host set_printed].
  rewrite Hf. run. cbn [is_Exception]. unfold no_gcloud_lines. same_world.
Qed.

Lemma gcp_stops_without_gcloud_witness :
  fst (python SetupGcpLooker.script no_gcloud) = 1%Z
  /\ stdin (snd (python SetupGcpLooker.script no_gcloud)) = [L "acme-health"]
  /\ length (ran (snd (python SetupGcpLooker.script no_gcloud))) = 1.
Proof.
  rewrite (gcp_stops_without_gcloud no_gcloud eq_refl).
  repeat split.
Defined.

(** [get_project_info] gives a project identifier only when it has one that
    stands: the pair returned holds either nothing at all or both parts; an
    identifier returned is the first line typed without the blanks around
    it, is not empty, and was described by [gcloud] with status zero.
    Nothing is returned after a blank line without any command, or after a
    description that failed as the only command.  The exceptions that leave
    the call are the end of the input and the want of the program. *)
Theorem get_project_info_result (w : World) :
  let r := SetupGcpLooker.get_project_info w in
  match fst r with
  | Ret (Some project_id, Some user_email) =>
      project_id <> []
      /\ exists line keys,
           stdin w = line :: keys
           /\ project_id = strip line
           /\ succeeded (describe_command project_id,
                         spawn (host w) (ran w) (describe_command project_id))
  | Ret (None, None) =>
      exists line keys,
        stdin w = line :: keys
        /\ stdin (snd r) = keys
        /\ (strip line = [] /\ ran (snd r) = ran w
            \/ exists c,
                 returncode c <> 0%Z
                 /\ ran (snd r)
                    = ran w ++ [(describe_command (strip line), Exited c)])
  | Ret _ => False
  | Raise e => e = EOFError \/ e = FileNotFoundError (L "gcloud")
  end.
Proof.
  cbn zeta. unfold SetupGcpLooker.get_project_info, input, describe_command.
  run. destruct (stdin w) as [|line keys]; run; [now left|].
  destruct (strip line) as [|ch project_id] eqn:Ep; run.
  { exists line, keys. auto. }
  destruct (spawn (host w) (ran w) _) as [c1|] eqn:H1; run; [|now right].
  destruct (returncode c1 =? 0)%Z eqn:Hz1; run.
  2: { exists line, keys. split; [reflexivity|]. split; [reflexivity|].
       right. exists c1. apply Z.eqb_neq in Hz1. rewrite Ep. auto. }
  match goal with |- context [spawn (host w) (?r ++ ?l) ?c] =>
    destruct (spawn (host w) (r ++ l) c) as [c2|]
  end; run; [|now right].
  destruct (returncode c2 =? 0)%Z; run.
  - split; [discriminate|]. exists line, keys. rewrite Ep.
    repeat (split; [reflexivity|]). exists c1. apply Z.eqb_eq in Hz1. auto.
  - destruct keys as [|typed rest]; run; [now left|].
    split; [discriminate|]. exists line, (typed :: rest). rewrite Ep.
    repeat (split; [reflexivity|]). exists c1. apply Z.eqb_eq in Hz1. auto.
Qed.

Lemma get_project_info_run (w : World) (line : str) (keys : list str)
    (project_id : str) (c1 c2 : Completed) :
  stdin w = line :: keys ->
  strip line = project_id -> project_id <> [] ->
  spawn (host w) (ran w) (describe_command project_id) = Exited c1 ->
  returncode c1 = 0%Z ->
  spawn (host w) (ran w ++ [(describe_command project_id, Exited c1)])
    account_command = Exited c2 ->
  returncode c2 = 0%Z ->
  exists lines,
    SetupGcpLooker.get_project_info w
    = (Ret (Some project_id, Some (strip (stdout c2))),
       set_printed (printed w ++ lines)
         (set_stdin keys
            (set_ran (ran w ++ [(describe_command project_id, Exited c1);
                                (account_command, Exited c2)]) w))).
Proof.
  unfold describe_command, account_command.
  intros Hin Hs Hne H1 Hz1 H2 Hz2.
  unfold SetupGcpLooker.get_project_info, input. run. rewrite Hin. run.
  rewrite Hs. destruct project_id as [|ch project_id]; [contradiction|]. run.
  rewrite H1. apply Z.eqb_eq in Hz1. rewrite Hz1. run.
  rewrite H2. apply Z.eqb_eq in Hz2. rewrite Hz2. run.
  eexists. same_world.
Qed.

Lemma create_datasets_run (project_id : str) (datasets : list str) (w : World) :
  let events :=
    play (host w) (ran w)
      (map (SetupGcpLooker.dataset_command project_id) datasets) in
  Forall (passes (host w)) events ->
  exists lines,
    SetupGcpLooker.create_datasets project_id datasets w
    = (Ret true, set_printed (printed w ++ lines) (set_ran (ran w ++ events) w)).
Proof.
  cbn zeta. revert w. induction datasets as [|dataset rest IH]; intros w.
  - intros _. exists []. cbn [SetupGcpLooker.create_datasets map play]. run.
    rewrite !app_nil_r. same_world.
  - cbn [map play]. intros H. apply Forall_cons_iff in H as [Hfirst Hrest].
    assert (exists c, spawn (host w) (ran w)
                        (SetupGcpLooker.dataset_command project_id dataset)
                      = Exited c) as [c Hc]
      by (destruct Hfirst as [[c [Hc _]] | [c [Hc _]]]; eauto).
    rewrite Hc in *. cbn [SetupGcpLooker.create_datasets]. around.
    destruct Hfirst as [[c' [Hc' Hz]] | [c' [Hc' [Hz Ht]]]];
      cbn [fst snd] in *; injection Hc' as <-.
    + rewrite (subprocess_run_zero _ false _ _ Hc Hz). around.
      match goal with |- context [SetupGcpLooker.create_datasets _ rest ?w1] =>
        destruct (IH w1 Hrest) as [lines ->]
      end.
      eexists. same_world.
    + rewrite (subprocess_run_nonzero _ false _ _ Hc Hz). around.
      unfold error_text in Ht. cbn [captured] in *. rewrite Ht. around.
      match goal with |- context [SetupGcpLooker.create_datasets _ rest ?w1] =>
        destruct (IH w1 Hrest) as [lines ->]
      end.
      eexists. same_world.
Qed.

Lemma grant_roles_run (project_id email : str) (roles : list str) (w : World) :
  let events :=
    play (host w) (ran w)
      (map (SetupGcpLooker.binding_command project_id email) roles) in
  Forall started events ->
  SetupGcpLooker.grant_roles project_id email roles w
  = (Ret tt,
     set_printed (printed w ++ map (role_report (host w)) (combine roles events))
       (set_ran (ran w ++ events) w)).
Proof.
  cbn zeta. revert w. induction roles as [|role rest IH]; intros w.
  - intros _. cbn [SetupGcpLooker.grant_roles map play combine]. run.
    rewrite !app_nil_r. same_world.
  - cbn [map play combine]. intros H.
    apply Forall_cons_iff in H as [[c Hc] Hrest]. cbn [snd] in Hc.
    rewrite Hc in *. rewrite (grant_roles_turn _ _ _ _ _ _ Hc).
    match goal with |- context [SetupGcpLooker.grant_roles _ _ rest ?w1] =>
      rewrite (IH w1 Hrest)
    end.
    same_world.
Qed.

(** The account of [create_service_account] before the roles. *)
Lemma create_service_account_run (the_roles : list str) (project_id : str)
    (w : World) :
  let cmd := SetupGcpLooker.service_account_command project_id in
  let first := (cmd, spawn (host w) (ran w) cmd) in
  let bindings :=
    play (host w) (ran w ++ [first])
      (map (SetupGcpLooker.binding_command project_id
              (service_account_email project_id)) the_roles) in
  passes (host w) first ->
  Forall started bindings ->
  exists lines,
    SetupGcpLooker.create_service_account_with the_roles project_id w
    = (Ret (Some (service_account_email project_id)),
       set_printed (printed w ++ lines)
         (set_ran (ran w ++ first :: bindings) w)).
Proof.
  cbn zeta. intros Hfirst Hrest.
  assert (exists c, spawn (host w) (ran w)
                      (SetupGcpLooker.service_account_command project_id)
                    = Exited c) as [c Hc]
    by (destruct Hfirst as [[c [Hc _]] | [c [Hc _]]]; eauto).
  rewrite Hc in *.
  unfold SetupGcpLooker.create_service_account_with, SetupGcpLooker.print_step.
  cbv zeta. around.
  destruct Hfirst as [[c' [Hc' Hz]] | [c' [Hc' [Hz Ht]]]];
    cbn [fst snd] in *; injection Hc' as <-.
  - match goal with |- context [subprocess_run ?cmd false true ?w1] =>
      rewrite (subprocess_run_zero cmd false c w1 Hc Hz)
    end. around. cbn [negb].
    unfold service_account_email in *.
    match goal with |- context [SetupGcpLooker.grant_roles _ _ _ ?w1] =>
      rewrite (grant_roles_run _ _ _ w1 Hrest)
    end.
    eexists. same_world.
  - match goal with |- context [subprocess_run ?cmd false true ?w1] =>
      rewrite (subprocess_run_nonzero cmd false c w1 Hc Hz)
    end. around.
    unfold error_text in Ht. cbn [captured] in *. rewrite Ht. around.
    cbn [negb]. unfold service_account_email in *.
    match goal with |- context [SetupGcpLooker.grant_roles _ _ _ ?w1] =>
      rewrite (grant_roles_run _ _ _ w1 Hrest)
    end.
    eexists. same_world.
Qed.



(** When the creation of the account fails otherwise, [create_service_account]
    returns [None] with this one command: no role is bound. *)
Theorem create_service_account_gives_up (project_id : str) (w : World)
    (c : Completed) :
  let cmd := SetupGcpLooker.service_account_command project_id in
  let r := SetupGcpLooker.create_service_account project_id w in
  spawn (host w) (ran w) cmd = Exited c ->
  returncode c <> 0%Z ->
  str_in (L "already exists") (error_text (host w) cmd (returncode c)) = false ->
  fst r = Ret None
  /\ ran (snd r) = ran w ++ [(cmd, Exited c)]
  /\ last (printed (snd r)) []
     = L "❌ Failed to create service account: "
         ++ error_text (host w) cmd (returncode c).
Proof.
  cbn zeta. intros Hc Hz Ht.
  unfold SetupGcpLooker.create_service_account,
    SetupGcpLooker.create_service_account_with, SetupGcpLooker.print_step.
  cbv zeta. around.
  match goal with |- context [subprocess_run ?cmd false true ?w1] =>
      rewrite (subprocess_run_nonzero cmd false c w1 Hc Hz)
    end. around.
  unfold error_text in *. cbn [captured] in *. rewrite Ht. around.
  cbn [negb]. around.
  split; [reflexivity|]. split; [reflexivity|]. apply last_last.
Qed.

Lemma create_service_account_gives_up_witness :
  let w := fresh (host_of (always (exit_with 1 (L "PERMISSION_DENIED")))) [] [] in
  let r := SetupGcpLooker.create_service_account (L "acme-health") w in
  fst r = Ret None /\ length (ran (snd r)) = 1.
Proof.
  cbn zeta.
  destruct (create_service_account_gives_up (L "acme-health")
              (fresh (host_of (always (exit_with 1 (L "PERMISSION_DENIED")))) [] [])
              {| returncode := 1; stdout := []; stderr := L "PERMISSION_DENIED" |})
    as (H1 & H2 & _).
  - reflexivity.
  - discriminate.
  - vm_compute. reflexivity.
  - split; [exact H1|]. rewrite H2. reflexivity.
Defined.

(** ** A whole run of [setup_gcp_looker.py] *)

Lemma create_service_account_key_run (project_id : str) (c : Completed)
    (w : World) :
  spawn (host w) (ran w) (key_command (host w) project_id) = Exited c ->
  returncode c = 0%Z ->
  exists lines,
    SetupGcpLooker.create_service_account_key project_id
      (service_account_email project_id) w
    = (Ret (Some (key_file_path (host w))),
       set_printed (printed w ++ lines)
         (set_ran (ran w ++ [(key_command (host w) project_id, Exited c)]) w)).
Proof.
  unfold key_command, key_file_path. intros Hc Hz.
  unfold SetupGcpLooker.create_service_account_key, SetupGcpLooker.print_step.
  around. unfold beside. around.
  match goal with |- context [subprocess_run ?cmd false true ?w1] =>
    rewrite (subprocess_run_zero cmd false c w1 Hc Hz)
  end.
  around. eexists. same_world.
Qed.

Lemma test_dbt_connection_run (c : Completed) (w : World) :
  lookup w (beside_path (host w) (L "my_project")) <> None ->
  spawn (host w) (ran w) (debug_command (host w)) = Exited c ->
  exists lines,
    SetupGcpLooker.test_dbt_connection w
    = (Ret (returncode c =? 0)%Z,
       set_printed (printed w ++ lines)
         (set_probed (probed w ++ [beside_path (host w) (L "my_project")])
            (set_ran (ran w ++ [(debug_command (host w), Exited c)]) w))).
Proof.
  unfold debug_command. intros Hd Hc.
  unfold SetupGcpLooker.test_dbt_connection, SetupGcpLooker.print_step.
  run. destruct (lookup w _); [|contradiction]. run. rewrite Hc.
  destruct (returncode c =? 0)%Z; run; eexists; same_world.
Qed.

Lemma demands_cons (d : Command * Spawn -> Prop)
    (ds : list (Command * Spawn -> Prop)) (h : Host)
    (hist : list (Command * Spawn)) (c : Command) (cs : list Command) :
  Forall2 (fun demand e => demand e) (d :: ds) (play h hist (c :: cs)) ->
  d (c, spawn h hist c)
  /\ Forall2 (fun demand e => demand e) ds
       (play h (hist ++ [(c, spawn h hist c)]) cs).
Proof. cbn [play]. intros H. inversion H; subst. auto. Qed.

Lemma passes_started (h : Host) (e : Command * Spawn) : passes h e -> started e.
Proof. intros [[c [Hc _]] | [c [Hc _]]]; exists c; exact Hc. Qed.

(** Finds among the hypotheses how a command ended. *)
Ltac recall :=
  cbn [host ran files stdin cwd probed printed fst snd
       set_files set_stdin set_cwd set_ran set_probed set_printed];
  repeat first
    [ rewrite <- app_assoc
    | progress cbn [app map play]
    | match goal with
      | H : spawn _ _ _ = Exited _ |- _ => rewrite H
      end ];
  try assumption; try reflexivity.

(** Takes the next demand from the list and names the child. *)
Ltac next_demand H Hd c Hc :=
  apply demands_cons in H as [Hd H];
  let Hs := fresh "Hs" in
  assert (Hs : started (_, _))
    by first [ exact (passes_started _ _ Hd)
             | destruct Hd as [c' [Hc' _]]; exists c'; exact Hc'
             | exact Hd ];
  destruct Hs as [c Hc]; cbn [snd] in Hc;
  rewrite Hc in H, Hd.

Lemma lookup_after_update (w wk : World) (path other : str) (n : Node) :
  files wk = update path n (files w) ->
  lookup w other <> None -> lookup wk other <> None.
Proof.
  unfold lookup. intros -> Ho. destruct other; [exact Ho|].
  unfold update. now destruct (str_eqb _ _).
Qed.

Lemma play_cons (h : Host) (hist : list (Command * Spawn)) (c : Command)
    (cs : list Command) :
  play h hist (c :: cs)
  = (c, spawn h hist c) :: play h (hist ++ [(c, spawn h hist c)]) cs.
Proof. reflexivity. Qed.

Lemma service_account_email_cons (project_id : str) :
  exists c rest, service_account_email project_id = c :: rest.
Proof. now eexists _, _. Qed.

Lemma key_file_path_cons (h : Host) :
  exists c rest, key_file_path h = c :: rest.
Proof.
  exact (beside_path_cons h "d"%char (L "bt-service-account-key.json")).
Qed.

Lemma succeeded_exited (cmd : Command) (c : Completed) :
  succeeded (cmd, Exited c) -> returncode c = 0%Z.
Proof. intros [c' [E Hz]]. now injection E as <-. Qed.

(** Settles that the commands of a list end as the hypotheses say. *)
Ltac recall_all :=
  cbn [map play];
  repeat apply Forall_cons; try apply Forall_nil; recall.

Lemma gcp_finish_run (c : Completed) (w : World) :
  lookup w (beside_path (host w) (L "my_project")) <> None ->
  spawn (host w) (ran w) (debug_command (host w)) = Exited c ->
  exists lines,
    gcp_finish w
    = (Ret true,
       set_printed (printed w ++ lines)
         (set_probed (probed w ++ [beside_path (host w) (L "my_project")])
            (set_ran (ran w ++ [(debug_command (host w), Exited c)]) w))).
Proof.
  intros Hd Hc. unfold gcp_finish, bind.
  destruct (test_dbt_connection_run c w Hd Hc) as [l ->].
  unfold SetupGcpLooker.setup_looker_instructions, SetupGcpLooker.print_step.
  destruct (returncode c =? 0)%Z; run; eexists; same_world.
Qed.

Lemma gcp_finish_no_dbt (w : World) :
  lookup w (beside_path (host w) (L "my_project")) <> None ->
  spawn (host w) (ran w) (debug_command (host w)) = NoSuchProgram ->
  exists lines,
    gcp_finish w
    = (Raise (FileNotFoundError (L "dbt")),
       set_printed (printed w ++ lines)
         (set_probed (probed w ++ [beside_path (host w) (L "my_project")])
            (set_ran (ran w ++ [(debug_command (host w), NoSuchProgram)]) w))).
Proof.
  unfold debug_command. intros Hd Hc.
  unfold gcp_finish, SetupGcpLooker.test_dbt_connection,
    SetupGcpLooker.print_step.
  run. destruct (lookup w _); [|contradiction]. run. rewrite Hc. run.
  eexists. same_world.
Qed.

(** [main] up to the rewrite of the configuration. *)
Lemma gcp_main_until_test (w : World) (project_id content : str)
    (keys : list str) :
  gcp_answers w project_id content keys ->
  exists lines,
    SetupGcpLooker.main w
    = gcp_finish
        (set_printed (printed w ++ lines)
           (set_probed (probed w ++ [beside_path (host w) (L "profiles.yml")])
              (set_files
                 (update (beside_path (host w) (L "profiles.yml"))
                    (File (replace_placeholders content project_id
                             (key_file_path (host w))))
                    (files w))
                 (set_stdin keys
                    (set_ran (ran w ++ gcp_events w project_id) w))))).
Proof.
  intros ((line & Hin & Eid) & Hne & Hprofiles & Hdir & H).
  unfold gcp_events, gcp_demands, gcp_commands,
    SetupGcpLooker.datasets, SetupGcpLooker.roles in *.
  cbn [map app] in *.
  destruct project_id as [|ch pid]; [contradiction|].
  next_demand H D1 c1 H1. next_demand H D2 c2 H2. next_demand H D3 c3 H3.
  next_demand H D4 c4 H4. next_demand H D5 c5 H5. next_demand H D6 c6 H6.
  next_demand H D7 c7 H7. next_demand H D8 c8 H8. next_demand H D9 c9 H9.
  next_demand H D10 c10 H10. next_demand H D11 c11 H11. clear H.
  do 11 (rewrite play_cons;
         match goal with
         | Hc : spawn _ _ _ = Exited _ |- _ => rewrite Hc
         end).
  cbn [play].
  repeat match goal with
         | Hc : spawn _ _ _ = Exited _ |- _ =>
             progress (rewrite <- ?app_assoc in Hc; cbn [app] in Hc)
         end.
  apply succeeded_exited in D1, D2, D3, D11.
  destruct (service_account_email_cons (ch :: pid)) as (ce & re & Ee).
  destruct (key_file_path_cons (host w)) as (ck & rk & Ek).
  unfold SetupGcpLooker.main.
  let tail := eval unfold gcp_finish in gcp_finish in
  change tail with gcp_finish.
  run.
  rewrite check_gcloud_installed_run. cbn [host ran set_printed].
  rewrite H1. unfold failed. cbn [snd]. apply Z.eqb_eq in D1. rewrite D1.
  apply Z.eqb_eq in D1. run.
  match goal with |- context [SetupGcpLooker.get_project_info ?wk] =>
    destruct (get_project_info_run wk line keys (ch :: pid) c2 c3)
      as [l2 ->]; [recall; try congruence ..|]
  end.
  run. unfold SetupGcpLooker.setup_bigquery_datasets, SetupGcpLooker.print_step,
    SetupGcpLooker.datasets.
  run.
  match goal with |- context [SetupGcpLooker.create_datasets ?p ?ds ?wk] =>
    destruct (create_datasets_run p ds wk) as [l3 ->]; [recall_all|]
  end.
  run. unfold SetupGcpLooker.create_service_account, SetupGcpLooker.roles.
  match goal with
  | |- context [SetupGcpLooker.create_service_account_with ?rs ?p ?wk] =>
      destruct (create_service_account_run rs p wk) as [l4 ->];
        [recall | recall_all |]
  end.
  rewrite Ee. run. rewrite <- Ee.
  match goal with
  | |- context [SetupGcpLooker.create_service_account_key ?p _ ?wk] =>
      destruct (create_service_account_key_run p c11 wk) as [l5 ->];
        [recall | exact D11 |]
  end.
  cbn [host set_files set_stdin set_cwd set_ran set_probed set_printed].
  rewrite Ek. run. rewrite <- Ek.
  match goal with
  | |- context [SetupGcpLooker.update_profiles_yml ?p ?k ?wk] =>
      rewrite (gcp_update_run p k content wk Hprofiles)
  end.
  cbn [negb]. eexists. apply f_equal. same_world; recall.
Qed.

(** A run of [setup_gcp_looker.py] that goes through.  The operator types a
    project identifier, the configuration file is beside the script, the
    project directory is there, and every command ends as the run asks:
    the three queries and the making of the key with status zero, the
    creations with status zero or with "already exists", the bindings and
    the test of the connection with any status.  Then the script ends with
    status zero, has attempted exactly these twelve commands in the order
    of the source, has read one line, and has written one file: the
    configuration, in which the identifier typed, without the blanks around
    it, and the path of the key beside the script stand for the tokens. *)
Theorem gcp_goes_through (w : World) (project_id content : str)
    (keys : list str) :
  let profiles := beside_path (host w) (L "profiles.yml") in
  let r := python SetupGcpLooker.script w in
  gcp_answers w project_id content keys ->
  started (debug_event w project_id) ->
  fst r = 0%Z
  /\ ran (snd r) = ran w ++ gcp_events w project_id ++ [debug_event w project_id]
  /\ stdin (snd r) = keys
  /\ files (snd r)
     = update profiles
         (File (replace_placeholders content project_id
                  (key_file_path (host w))))
         (files w).
Proof.
  cbn zeta. intros Ha [c Hc].
  destruct (gcp_main_until_test w project_id content keys Ha) as [lines E].
  destruct Ha as (_ & _ & _ & Hdir & _).
  unfold debug_event in *. cbn [snd] in Hc. rewrite Hc.
  match type of E with _ = gcp_finish ?wk =>
    destruct (gcp_finish_run c wk) as [l E'];
      [exact (lookup_after_update w wk _ _ _ eq_refl Hdir) | exact Hc |]
  end.
  unfold python, SetupGcpLooker.script, try_except, bind. rewrite E, E'.
  cbn [sys_exit raise is_Exception fst snd host ran stdin files
       set_printed set_probed set_files set_stdin set_ran].
  split; [reflexivity|]. split; [now rewrite <- app_assoc|].
  split; reflexivity.
Qed.

Lemma gcp_goes_through_witness :
  let r := python SetupGcpLooker.script gcp_all_well in
  fst r = 0%Z
  /\ length (ran (snd r)) = 12
  /\ files (snd r) (L "profiles.yml")
     = Some (File (replace_placeholders template (L "acme-health")
                     (L "dbt-service-account-key.json"))).
Proof.
  cbn zeta.
  destruct (gcp_goes_through gcp_all_well (L "acme-health") template [])
    as (H0 & Hr & _ & Hf).
  - split; [exists (L " acme-health "); split; reflexivity|].
    split; [discriminate|]. split; [reflexivity|]. split; [discriminate|].
    unfold gcp_events, gcp_demands, gcp_commands,
      SetupGcpLooker.datasets, SetupGcpLooker.roles.
    cbn [map app play].
    repeat apply Forall2_cons; try apply Forall2_nil;
      first [ left; eexists; split; reflexivity
            | eexists; split; reflexivity
            | eexists; reflexivity ].
  - eexists. reflexivity.
  - split; [exact H0|]. split; [rewrite Hr; reflexivity|].
    rewrite Hf. apply update_same.
Defined.

(** The want of the [dbt] program comes too late for the configuration.
    When the run has gone as far as the test of the connection and there is
    no [dbt] to start, the script ends with status 1 and a last line that
    tells of the missing file, and the configuration has been rewritten all
    the same. *)
Theorem gcp_fails_without_dbt (w : World) (project_id content : str)
    (keys : list str) :
  let profiles := beside_path (host w) (L "profiles.yml") in
  let r := python SetupGcpLooker.script w in
  gcp_answers w project_id content keys ->
  snd (debug_event w project_id) = NoSuchProgram ->
  fst r = 1%Z
  /\ ran (snd r) = ran w ++ gcp_events w project_id ++ [debug_event w project_id]
  /\ files (snd r)
     = update profiles
         (File (replace_placeholders content project_id
                  (key_file_path (host w))))
         (files w)
  /\ last (printed (snd r)) []
     = nl ++ L "❌ Unexpected error: [Errno 2] No such file or directory: 'dbt'".
Proof.
  cbn zeta. intros Ha Hc.
  destruct (gcp_main_until_test w project_id content keys Ha) as [lines E].
  destruct Ha as (_ & _ & _ & Hdir & _).
  unfold debug_event in *. cbn [snd] in Hc. rewrite Hc.
  match type of E with _ = gcp_finish ?wk =>
    destruct (gcp_finish_no_dbt wk) as [l E'];
      [exact (lookup_after_update w wk _ _ _ eq_refl Hdir) | exact Hc |]
  end.
  unfold python, SetupGcpLooker.script, try_except, bind. rewrite E, E'.
  cbn [is_Exception]. run.
  split; [reflexivity|]. split; [now rewrite <- app_assoc|].
  split; [reflexivity|]. apply last_last.
Qed.

Lemma gcp_fails_without_dbt_witness :
  let r := python SetupGcpLooker.script no_dbt in
  fst r = 1%Z
  /\ files (snd r) (L "profiles.yml")
     = Some (File (replace_placeholders template (L "acme-health")
                     (L "dbt-service-account-key.json"))).
Proof.
  cbn zeta.
  destruct (gcp_fails_without_dbt no_dbt (L "acme-health") template [])
    as (H1 & _ & Hf & _).
  - split; [exists (L " acme-health "); split; reflexivity|].
    split; [discriminate|]. split; [reflexivity|]. split; [discriminate|].
    unfold gcp_events, gcp_demands, gcp_commands,
      SetupGcpLooker.datasets, SetupGcpLooker.roles.
    cbn [map app play].
    repeat apply Forall2_cons; try apply Forall2_nil;
      first [ left; eexists; split; reflexivity
            | eexists; split; reflexivity
            | eexists; reflexivity ].
  - reflexivity.
  - split; [exact H1|]. rewrite Hf. apply update_same.
Defined.

(** [test_dbt_connection] runs [dbt debug] only on a project directory that
    is there: without it the call returns [False] and attempts nothing.
    With it, the one command is attempted and the call returns whether it
    ended with status zero; the want of the [dbt] program is not caught.
    No file is touched either way. *)
Theorem test_dbt_connection_result (w : World) :
  let dir := beside_path (host w) (L "my_project") in
  let e := (debug_command (host w), spawn (host w) (ran w) (debug_command (host w))) in
  let r := SetupGcpLooker.test_dbt_connection w in
  files (snd r) = files w
  /\ probed (snd r) = probed w ++ [dir]
  /\ match lookup w dir with
     | None =>
         fst r = Ret false /\ ran (snd r) = ran w
         /\ last (printed (snd r)) []
            = L "❌ dbt project directory not found: " ++ dir
     | Some _ =>
         ran (snd r) = ran w ++ [e]
         /\ fst r = match snd e with
                    | Exited c => Ret (returncode c =? 0)%Z
                    | NoSuchProgram => Raise (FileNotFoundError (L "dbt"))
                    end
     end.
Proof.
  cbn zeta. unfold debug_command.
  unfold SetupGcpLooker.test_dbt_connection, SetupGcpLooker.print_step.
  run. destruct (lookup w _); run.
  - destruct (spawn _ _ _) as [c|]; run; [|auto].
    destruct (returncode c =? 0)%Z; run; auto.
  - repeat (split; [reflexivity|]). apply last_last.
Qed.

(** [create_service_account_key] has the key written beside the script,
    whatever the project: it attempts the one command, and returns the path
    of the key when the command ends with status zero and [None], after a
    line that tells of the failure, when it ends otherwise.  The want of
    the [gcloud] program is not caught. *)
Theorem create_service_account_key_result (project_id email : str) (w : World) :
  let key_file := beside_path (host w) (L "dbt-service-account-key.json") in
  let cmd :=
    Argv [L "gcloud"; L "iam"; L "service-accounts"; L "keys"; L "create";
          key_file; L "--iam-account=" ++ email] in
  let e := (cmd, spawn (host w) (ran w) cmd) in
  let r := SetupGcpLooker.create_service_account_key project_id email w in
  ran (snd r) = ran w ++ [e]
  /\ files (snd r) = files w
  /\ match snd e with
     | Exited c =>
         if (returncode c =? 0)%Z then fst r = Ret (Some key_file)
         else fst r = Ret None
              /\ last (printed (snd r)) []
                 = L "❌ Failed to create service account key: "
                     ++ error_text (host w) cmd (returncode c)
     | NoSuchProgram => fst r = Raise (FileNotFoundError (L "gcloud"))
     end.
Proof.
  cbn zeta.
  unfold SetupGcpLooker.create_service_account_key, SetupGcpLooker.print_step.
  run. destruct (spawn _ _ _) as [c|]; run; [|auto].
  destruct (returncode c =? 0)%Z; run; [auto|].
  repeat (split; [reflexivity|]). apply last_last.
Qed.

(** ** [quick_setup.py] *)

Lemma update_other (path other : str) (n : Node) (f : str -> option Node) :
  other <> path -> update path n f other = f other.
Proof.
  intros H. unfold update, str_eqb.
  now destruct (list_eq_dec ascii_dec other path).
Qed.

Lemma quick_main_run (w : World) (project_id key_file content : str)
    (keys : list str) :
  quick_answers w project_id key_file content keys ->
  exists lines,
    QuickSetup.main w
    = (Ret true,
       set_printed (printed w ++ lines)
         (set_probed (probed w ++ [key_file; QuickSetup.profiles_file])
            (set_files
               (update QuickSetup.profiles_file
                  (File (replace_placeholders content project_id key_file))
                  (files w))
               (set_stdin keys w)))).
Proof.
  intros (line1 & line2 & Hin & -> & Hne & -> & Hkey & Hprofiles).
  unfold QuickSetup.main, input. run. rewrite Hin. run.
  destruct (strip line1) as [|ch pid]; [contradiction|]. run.
  fold (key_choice line2).
  destruct (lookup w (key_choice line2)); [|contradiction]. run.
  match goal with |- context [QuickSetup.update_profiles_yml ?p ?k ?wk] =>
    rewrite (quick_update_run p k content wk Hprofiles)
  end.
  run. eexists. same_world.
Qed.

(** The ways of [quick_setup.py]: it goes through, or it ends with status 1
    with every file as it was.  It attempts no command and stays in its
    directory. *)
Lemma quick_script_cases (w : World) :
  let r := python QuickSetup.script w in
  ran (snd r) = ran w /\ cwd (snd r) = cwd w
  /\ ((exists project_id key_file content keys,
         quick_answers w project_id key_file content keys /\ fst r = 0%Z)
      \/ (fst r = 1%Z /\ files (snd r) = files w)).
Proof.
  cbn zeta. unfold python, QuickSetup.script, QuickSetup.main, input. run.
  destruct (stdin w) as [|line1 keys1] eqn:Hin; run; [auto|].
  destruct (strip line1) as [|ch pid] eqn:Ep; run; [auto|].
  destruct keys1 as [|line2 keys]; run; [auto|].
  fold (key_choice line2).
  destruct (lookup w (key_choice line2)) as [key|] eqn:Hkey; run; [|auto].
  destruct (lookup w QuickSetup.profiles_file) as [[content|]|] eqn:Hp.
  - match goal with |- context [QuickSetup.update_profiles_yml ?p ?k ?wk] =>
      rewrite (quick_update_run p k content wk Hp)
    end.
    run. split; [reflexivity|]. split; [reflexivity|]. left.
    exists (ch :: pid), (key_choice line2), content, keys.
    split; [|reflexivity]. exists line1, line2.
    rewrite Ep, Hkey.
    repeat split; try reflexivity; try assumption; discriminate.
  - unfold QuickSetup.update_profiles_yml. run. rewrite Hp. run.
    rewrite Hp. run. auto.
  - unfold QuickSetup.update_profiles_yml. run. rewrite Hp. run. auto.
Qed.

(** [quick_setup.py] ends with status zero exactly when the operator and
    the files give it what it asks for: a project identifier that is not
    blank, a key path, typed or the one of the template, at which something
    is there, and the configuration file in its place. *)
Theorem quick_setup_exit_zero_iff (w : World) :
  fst (python QuickSetup.script w) = 0%Z
  <-> exists project_id key_file content keys,
        quick_answers w project_id key_file content keys.
Proof.
  split.
  - intros H0. destruct (quick_script_cases w) as (_ & _ & [Hgo | [H1 _]]).
    + destruct Hgo as (p & k & c & keys & Ha & _). eauto.
    + rewrite H0 in H1. discriminate.
  - intros (p & k & c & keys & Ha).
    destruct (quick_main_run w p k c keys Ha) as [lines E].
    unfold python, QuickSetup.script, bind. now rewrite E.
Qed.

(** A run of [quick_setup.py] that goes through writes the configuration
    with the identifier typed, without the blanks around it, and the key
    path chosen in the place of the tokens, reads two lines, tests the key
    path and the configuration file in this order, and writes nothing
    else. *)
Theorem quick_setup_goes_through (w : World) (project_id key_file content : str)
    (keys : list str) :
  quick_answers w project_id key_file content keys ->
  let r := python QuickSetup.script w in
  fst r = 0%Z
  /\ files (snd r)
     = update QuickSetup.profiles_file
         (File (replace_placeholders content project_id key_file)) (files w)
  /\ stdin (snd r) = keys
  /\ probed (snd r) = probed w ++ [key_file; QuickSetup.profiles_file]
  /\ last (printed (snd r)) [] = L "4. Set up Looker Studio dashboards".
Proof.
  intros Ha. cbn zeta. unfold python, QuickSetup.script, QuickSetup.main.
  destruct Ha as (line1 & line2 & Hin & -> & Hne & -> & Hkey & Hprofiles).
  unfold input. run. rewrite Hin. run.
  destruct (strip line1) as [|ch pid]; [contradiction|]. run.
  fold (key_choice line2).
  destruct (lookup w (key_choice line2)); [|contradiction]. run.
  match goal with |- context [QuickSetup.update_profiles_yml ?p ?k ?wk] =>
    rewrite (quick_update_run p k content wk Hprofiles)
  end.
  run. repeat (split; [reflexivity|]).
  split; [now rewrite <- app_assoc | apply last_last].
Qed.

Lemma quick_setup_goes_through_witness :
  let r := python QuickSetup.script (configured [L " acme-health"; []]) in
  fst r = 0%Z
  /\ files (snd r) QuickSetup.profiles_file
     = Some (File (replace_placeholders template (L "acme-health")
                     key_path_token)).
Proof.
  cbn zeta.
  destruct (quick_setup_goes_through (configured [L " acme-health"; []])
              (L "acme-health") key_path_token template [])
    as (H0 & Hf & _).
  - exists (L " acme-health"), []. repeat split; try reflexivity; discriminate.
  - split; [exact H0|]. rewrite Hf. apply update_same.
Defined.

(** [quick_setup.py] attempts no command, stays in its directory, and
    leaves every file but the configuration as it was; when it ends with a
    status other than zero the configuration, too, is as it was.  Its exit
    status is 0 or 1. *)
Theorem quick_setup_touches_one_file (w : World) :
  let r := python QuickSetup.script w in
  ran (snd r) = ran w
  /\ cwd (snd r) = cwd w
  /\ (forall path, path <> QuickSetup.profiles_file ->
        files (snd r) path = files w path)
  /\ (fst r <> 0%Z -> files (snd r) = files w)
  /\ (fst r = 0%Z \/ fst r = 1%Z).
Proof.
  cbn zeta. destruct (quick_script_cases w) as (Hr & Hc & Hcases).
  split; [exact Hr|]. split; [exact Hc|].
  destruct Hcases as [(p & k & c & keys & Ha & H0) | [H1 Hf]].
  - destruct (quick_main_run w p k c keys Ha) as [lines E].
    unfold python, QuickSetup.script, bind in *. rewrite E in *.
    cbn [fst snd files set_printed set_probed set_files sys_exit raise] in *.
    split; [intros path Hp; now apply update_other|].
    split; [intros Hn; now contradiction Hn | now left].
  - rewrite Hf, H1. split; [reflexivity|].
    split; [reflexivity | now right].
Qed.

(** The end of the input is not caught by [quick_setup.py]: when the input
    ends at the first question, or at the second after an identifier, the
    script ends with the interpreter's account of the exception and status
    1, and no file is touched. *)
Theorem quick_setup_end_of_input (w : World) :
  stdin w = [] \/ (exists line, stdin w = [line] /\ strip line <> []) ->
  let r := python QuickSetup.script w in
  fst r = 1%Z
  /\ files (snd r) = files w
  /\ last (printed (snd r)) [] = end_of_input_lines.
Proof.
  cbn zeta. unfold python, QuickSetup.script, QuickSetup.main, input.
  intros [Hin | (line & Hin & Hne)]; run; rewrite Hin; run.
  - repeat (split; [reflexivity|]). apply last_last.
  - destruct (strip line) as [|ch pid]; [contradiction|]. run.
    repeat (split; [reflexivity|]). apply last_last.
Qed.

Lemma quick_setup_end_of_input_witness :
  let r := python QuickSetup.script (configured [L "acme-health"]) in
  fst r = 1%Z /\ files (snd r) = files (configured [L "acme-health"]).
Proof.
  cbn zeta.
  destruct (quick_setup_end_of_input (configured [L "acme-health"]))
    as (H1 & Hf & _).
  - right. exists (L "acme-health"). split; [reflexivity|].
    vm_compute. discriminate.
  - split; [exact H1 | exact Hf].
Defined.

(** ** The rewrite of the configuration, once more *)

Lemma str_replace_same (s : str) (c : ascii) (rest : str) :
  str_replace s (c :: rest) (c :: rest) = s.
Proof.
  unfold str_replace. rewrite (@replace_pieces _ Ascii.eqb).
  apply (@join_pieces _ Ascii.eqb Ascii.eqb_spec).
Qed.

Lemma lookup_written (w : World) (path : str) (n : Node)
    (f : str -> option Node) :
  files w = update path n f -> path <> [] -> lookup w path = Some n.
Proof.
  intros Hf Hne. destruct path; [contradiction|]. unfold lookup.
  rewrite Hf. apply update_same.
Qed.

Lemma replace_placeholders_free (content project_id key_file_path : str) :
  str_in project_token content = false ->
  str_in key_path_token content = false ->
  replace_placeholders content project_id key_file_path = content.
Proof.
  intros H1 H2.
  apply (proj2 (proj2 (replace_placeholders_spec content project_id key_file_path)));
    now apply str_in_false_iff.
Qed.

Lemma replace_placeholders_resolved (content project_id key_file_path : str) :
  collides Ascii.eqb project_token project_id = false ->
  collides Ascii.eqb project_token key_file_path = false ->
  collides Ascii.eqb key_path_token key_file_path = false ->
  let content' := replace_placeholders content project_id key_file_path in
  replace_placeholders content' project_id key_file_path = content'.
Proof.
  intros C11 C12 C22. cbn zeta.
  destruct (replace_placeholders_spec content project_id key_file_path)
    as [R1 [R2 _]].
  destruct (replaced_twice_free _ _ _ _ _ _ _ C11 C12 C22 R1 R2) as [F1 F2].
  now apply replace_placeholders_free.
Qed.

(** Answered with the key path of the template, which is what an empty
    second line stands for, [quick_setup.py] changes the project
    identifier only: the second replacement puts the token in its own
    place, and the file written is the first replacement of the file
    read. *)
Theorem quick_setup_default_key_path (w : World) (project_id content : str)
    (keys : list str) :
  quick_answers w project_id key_path_token content keys ->
  let r := python QuickSetup.script w in
  fst r = 0%Z
  /\ files (snd r) QuickSetup.profiles_file
     = Some (File (str_replace content project_token project_id)).
Proof.
  intros Ha. cbn zeta.
  destruct (quick_main_run w project_id key_path_token content keys Ha)
    as [lines E].
  unfold python, QuickSetup.script, bind. rewrite E.
  cbn [fst snd files set_printed set_probed set_files sys_exit raise].
  split; [reflexivity|]. rewrite update_same. unfold replace_placeholders.
  destruct key_path_token_cons as (c & rest & Ek). rewrite Ek.
  now rewrite str_replace_same.
Qed.

Lemma quick_setup_default_key_path_witness :
  let r := python QuickSetup.script (configured [L "acme-health"; L "  "]) in
  fst r = 0%Z
  /\ files (snd r) QuickSetup.profiles_file
     = Some (File (str_replace template project_token (L "acme-health"))).
Proof.
  cbn zeta.
  apply (quick_setup_default_key_path (configured [L "acme-health"; L "  "])
           (L "acme-health") template []).
  exists (L "acme-health"), (L "  ").
  repeat split; try reflexivity; discriminate.
Defined.

(** [update_profiles_yml] of either script, run again with the same values,
    writes the file as the first run left it, provided the values do not
    collide with the tokens: the project identifier with the project token,
    the key path with either token. *)
Theorem update_profiles_yml_again (project_id key_file_path content : str)
    (w : World) :
  collides Ascii.eqb project_token project_id = false ->
  collides Ascii.eqb project_token key_file_path = false ->
  collides Ascii.eqb key_path_token key_file_path = false ->
  (lookup w QuickSetup.profiles_file = Some (File content) ->
   let once := QuickSetup.update_profiles_yml project_id key_file_path w in
   let twice :=
     QuickSetup.update_profiles_yml project_id key_file_path (snd once) in
   fst once = Ret true /\ fst twice = Ret true
   /\ forall path, files (snd twice) path = files (snd once) path)
  /\ (lookup w (beside_path (host w) (L "profiles.yml")) = Some (File content) ->
      let once := SetupGcpLooker.update_profiles_yml project_id key_file_path w in
      let twice :=
        SetupGcpLooker.update_profiles_yml project_id key_file_path (snd once) in
      fst once = Ret true /\ fst twice = Ret true
      /\ forall path, files (snd twice) path = files (snd once) path).
Proof.
  intros C11 C12 C22.
  pose proof (replace_placeholders_resolved content project_id key_file_path
                C11 C12 C22) as Hsame.
  cbn zeta in Hsame. split; intros E; cbn zeta.
  - rewrite (quick_update_run project_id key_file_path content w E).
    cbn [fst snd].
    match goal with |- context [QuickSetup.update_profiles_yml _ _ ?w1] =>
      rewrite (quick_update_run project_id key_file_path
                 (replace_placeholders content project_id key_file_path) w1)
    end.
    2: { eapply lookup_written; [reflexivity|].
         intros Hn. rewrite Hn in E. discriminate E. }
    cbn [fst snd files set_printed set_files set_probed]. rewrite Hsame.
    repeat (split; [reflexivity|]). intros path. unfold update.
    now destruct (str_eqb _ _).
  - rewrite (gcp_update_run project_id key_file_path content w E).
    cbn [fst snd].
    match goal with |- context [SetupGcpLooker.update_profiles_yml _ _ ?w1] =>
      rewrite (gcp_update_run project_id key_file_path
                 (replace_placeholders content project_id key_file_path) w1)
    end.
    2: { cbn zeta. cbn [host set_printed set_files set_probed].
         eapply lookup_written; [reflexivity|].
         intros Hn. rewrite Hn in E. discriminate E. }
    cbn [fst snd host files set_printed set_files set_probed]. rewrite Hsame.
    repeat (split; [reflexivity|]). intros path. unfold update.
    now destruct (str_eqb _ _).
Qed.

Lemma update_profiles_yml_again_witness :
  let w := configured [] in
  let once :=
    QuickSetup.update_profiles_yml (L "acme-health") (L "/home/op/dbt-key.json") w in
  let twice :=
    QuickSetup.update_profiles_yml (L "acme-health") (L "/home/op/dbt-key.json")
      (snd once) in
  fst twice = Ret true
  /\ files (snd twice) QuickSetup.profiles_file
     = files (snd once) QuickSetup.profiles_file.
Proof.
  cbn zeta.
  destruct (update_profiles_yml_again (L "acme-health")
              (L "/home/op/dbt-key.json") template (configured []))
    as [Hq _]; try (vm_compute; reflexivity).
  destruct (Hq eq_refl) as (_ & H2 & Hf).
  split; [exact H2 | apply Hf].
Defined.
